(** * PC-build synthesis and compatibility checking

    A shallow embedding of the build engine of the assistant service:
    [compat.py] (RAM-type normaliser, the three pairwise compatibility
    checks, the report, the candidate filter) and the build generator of
    [app.py] (scoring, per-category pickers, [build_always] with its
    budget weights, fallbacks and the over-budget downgrade pass).

    Modelling conventions.
    - A catalog row is a record [part].  A numeric cell holds the number
      the source obtains from it: a blank or missing cell is falsy in
      Python and every read has the shape [int(v or d)] or
      [float(v or d)], so a blank numeric cell is the number 0.
    - Prices, lengths and caps are Python floats; they are modelled by
      exact rationals ([Q]), so rounding is idealised away.
    - A text cell that may be absent from a dict (hand-made owned parts
      have no [socket] key) is an [option string].
    - Strings are sequences of 7-bit characters; [upper], [lower] and
      [strip] are Python's on that range.
    - A build slot is [None], the empty dict [{}] or a part; only a part
      is truthy. *)

From Stdlib Require Import ZArith QArith Qminmax String Ascii List Bool Lia Permutation Sorted.
From stdpp Require Import gmap strings.
Import ListNotations.

Local Open Scope string_scope.

(** ** Python string primitives *)
Module Py.

(** [c.isspace()] on the 7-bit range: TAB, LF, VT, FF, CR, FS, GS, RS, US, SPACE. *)
Definition is_space (c : ascii) : bool :=
  let n := nat_of_ascii c in
  ((9 <=? n) && (n <=? 13) || (28 <=? n) && (n <=? 32))%nat.

Definition upper_char (c : ascii) : ascii :=
  let n := nat_of_ascii c in
  if ((97 <=? n) && (n <=? 122))%nat then ascii_of_nat (n - 32)%nat else c.

Definition lower_char (c : ascii) : ascii :=
  let n := nat_of_ascii c in
  if ((65 <=? n) && (n <=? 90))%nat then ascii_of_nat (n + 32)%nat else c.

Fixpoint smap (f : ascii -> ascii) (s : string) : string :=
  match s with
  | EmptyString => EmptyString
  | String c s' => String (f c) (smap f s')
  end.

Definition upper : string -> string := smap upper_char.
Definition lower : string -> string := smap lower_char.

Fixpoint lstrip (s : string) : string :=
  match s with
  | EmptyString => EmptyString
  | String c s' => if is_space c then lstrip s' else s
  end.

Fixpoint rstrip (s : string) : string :=
  match s with
  | EmptyString => EmptyString
  | String c s' =>
      match rstrip s' with
      | EmptyString => if is_space c then EmptyString else String c EmptyString
      | r => String c r
      end
  end.

Definition strip (s : string) : string := rstrip (lstrip s).

(** [needle in hay]. *)
Fixpoint contains (needle hay : string) : bool :=
  String.prefix needle hay
  || match hay with
     | EmptyString => false
     | String _ hay' => contains needle hay'
     end.

(** [s.split(sep)] for a one-character separator: every piece, empty ones
    included. *)
Fixpoint split (sep : ascii) (s : string) : list string :=
  match s with
  | EmptyString => [EmptyString]
  | String c s' =>
      if Ascii.eqb c sep then EmptyString :: split sep s'
      else match split sep s' with
           | piece :: rest => String c piece :: rest
           | [] => [String c EmptyString]
           end
  end.

(** [re.sub(r"\s+", " ", s)]: each maximal run of white space becomes one
    blank. *)
Fixpoint collapse_ws (s : string) : string :=
  match s with
  | EmptyString => EmptyString
  | String c s' =>
      if is_space c then
        match s' with
        | String c' _ => if is_space c' then collapse_ws s' else String " " (collapse_ws s')
        | EmptyString => String " " EmptyString
        end
      else String c (collapse_ws s')
  end.

(** [str(v or "")]: [None] and the empty string both give [""]. *)
Definition str_or_empty (v : option string) : string :=
  match v with Some s => s | None => "" end.

(** [f"{v}"]: how a possibly missing text cell is interpolated. *)
Definition fmt (v : option string) : string :=
  match v with Some s => s | None => "None" end.

Definition is_empty (s : string) : bool :=
  match s with EmptyString => true | _ => false end.

End Py.

(** [norm] of app.py: strip, lower-case, collapse white space. *)
Definition norm (s : string) : string := Py.collapse_ws (Py.lower (Py.strip s)).

(** ** Data model *)

Record part := {
  id : string;
  category : string;
  brand : string;
  model : string;
  price_usd : Q;
  socket : option string;
  ram_type : option string;
  vram_gb : Z;
  length_mm : Q;
  max_gpu_length_mm : Q;
  psu_wattage : Z;
  capacity_gb : Z;
  form_factor : string
}.

(** A Python dict standing for a part: [{}] or a row with keys. *)
Inductive pdict :=
| EmptyDict
| PartDict (p : part).

(** The seven fixed slots of a build. *)
Inductive Category := GPU | CPU | Motherboard | RAM | Storage | PSU | Case.

Definition cat_name (c : Category) : string :=
  match c with
  | GPU => "GPU" | CPU => "CPU" | Motherboard => "Motherboard" | RAM => "RAM"
  | Storage => "Storage" | PSU => "PSU" | Case => "Case"
  end.

Definition Category_eqb (a b : Category) : bool :=
  match a, b with
  | GPU, GPU | CPU, CPU | Motherboard, Motherboard | RAM, RAM
  | Storage, Storage | PSU, PSU | Case, Case => true
  | _, _ => false
  end.

(** [Dict[str, Optional[dict]]] over the seven slots. *)
Definition Build := Category -> option pdict.

Definition set_slot (b : Build) (c : Category) (v : option pdict) : Build :=
  fun c' => if Category_eqb c c' then v else b c'.

Inductive Tier := low | mid | high.
Inductive StorageType := HDD | SSD | NVMe.
Inductive Level := minimum | recommended | both | high_end.

Record Requirements := {
  min_ram : Z;
  recommended_ram : Z;
  cpu_cores : Z;
  gpu_vram : Z;
  min_gpu_tier : Tier;
  storage_type : StorageType;
  notes : list string
}.

Record Report := {
  compatible : bool;
  issues : list string
}.

(** Truthiness of a slot value: [None] and [{}] are falsy. *)
Definition truthy (v : option pdict) : bool :=
  match v with Some (PartDict _) => true | _ => false end.

(** [money(d.get("price_usd"))]. *)
Definition money (d : pdict) : Q :=
  match d with EmptyDict => 0 | PartDict p => price_usd p end.

Definition get_socket (d : pdict) : option string :=
  match d with EmptyDict => None | PartDict p => socket p end.

Definition get_ram_type (d : pdict) : option string :=
  match d with EmptyDict => None | PartDict p => ram_type p end.

(** [v or d] on numbers. *)
Definition Zor (v d : Z) : Z := if Z.eqb v 0 then d else v.
Definition Qor (v d : Q) : Q := if Qeq_bool v 0 then d else v.

Definition Qlt_bool (a b : Q) : bool := negb (Qle_bool b a).

(** Python's two-argument [min]: the second only when strictly smaller. *)
Definition pymin (a b : Q) : Q := if Qlt_bool b a then b else a.

(** Python's stable [sort(key=price)]. *)
Fixpoint insert_by_price (x : part) (l : list part) : list part :=
  match l with
  | [] => [x]
  | y :: l' =>
      if Qle_bool (price_usd x) (price_usd y) then x :: l
      else y :: insert_by_price x l'
  end.

Fixpoint sort_by_price (l : list part) : list part :=
  match l with
  | [] => []
  | x :: l' => insert_by_price x (sort_by_price l')
  end.

(** [a or b] on optional picks. *)
Definition or_else {A} (a b : option A) : option A :=
  match a with Some _ => a | None => b end.

(** ** compat.py *)
Module Compat.

Definition nonempty_stripped (pieces : list string) : list string :=
  List.filter (fun x => negb (Py.is_empty x)) (List.map Py.strip pieces).

Definition ram_type_set (v : option string) : gset string :=
  let s := Py.strip (Py.upper (Py.str_or_empty v)) in
  if Py.is_empty s then ∅
  else if Py.contains "/" s then list_to_set (nonempty_stripped (Py.split "/" s))
  else if Py.contains "," s then list_to_set (nonempty_stripped (Py.split "," s))
  else {[ s ]}.

Definition cpu_mobo (cpu mobo : option pdict) : bool * string :=
  match cpu, mobo with
  | Some (PartDict c), Some (PartDict m) =>
      if String.eqb (Py.strip (Py.str_or_empty (socket c)))
                    (Py.strip (Py.str_or_empty (socket m)))
      then (true, "")
      else (false, "Socket mismatch (" ++ Py.fmt (socket c) ++ " vs " ++ Py.fmt (socket m) ++ ")")
  | _, _ => (false, "CPU or motherboard missing")
  end.

Definition disjointb (a b : gset string) : bool := bool_decide (a ∩ b = ∅).
Definition emptyb (a : gset string) : bool := bool_decide (a = ∅).

Definition ram_mobo (ram mobo : option pdict) : bool * string :=
  match ram, mobo with
  | Some (PartDict r), Some (PartDict m) =>
      let rset := ram_type_set (ram_type r) in
      let mset := ram_type_set (ram_type m) in
      if negb (emptyb rset) && negb (emptyb mset) && disjointb rset mset
      then (false, "RAM type mismatch (" ++ Py.fmt (ram_type r) ++ " vs " ++ Py.fmt (ram_type m) ++ ")")
      else (true, "")
  | _, _ => (false, "RAM or motherboard missing")
  end.

Section FloatText.

(** [f"{x}"] for a float [x]; the digits Python prints are not modelled. *)
Variable float_repr : Q -> string.

Definition gpu_case (gpu case : option pdict) : bool * string :=
  match gpu, case with
  | Some (PartDict g), Some (PartDict c) =>
      let gpu_len := Qor (length_mm g) 0 in
      let case_len := Qor (max_gpu_length_mm c) 9999 in
      if Qlt_bool case_len gpu_len
      then (false, "GPU too long (" ++ float_repr gpu_len ++ "mm > " ++ float_repr case_len ++ "mm)")
      else (true, "")
  | _, _ => (true, "")
  end.

(** [issues.append(msg)] when the check failed. *)
Definition note (issues : list string) (r : bool * string) : list string :=
  if fst r then issues else issues ++ [snd r].

Definition check_full_build_compatibility (build : Build) : Report :=
  let issues := [] in
  let issues := note issues (cpu_mobo (build CPU) (build Motherboard)) in
  let issues := note issues (ram_mobo (build RAM) (build Motherboard)) in
  let issues := note issues (gpu_case (build GPU) (build Case)) in
  {| compatible := Nat.eqb (List.length issues) 0; issues := issues |}.

End FloatText.

(** The GPU branch of the filter loop: [true] when the loop reaches
    [filtered.append(p)]. *)
Definition gpu_kept (req_vram : Z) (tier : Tier) (budget : Z) (p : part) : bool :=
  let vram := vram_gb p in
  let price := price_usd p in
  if (0 <? req_vram)%Z && (vram <? req_vram)%Z then false
  else if (match tier with high => true | _ => false end) && (vram <? 12)%Z then false
  else if (match tier with mid => true | _ => false end) && (vram <? 8)%Z then false
  else if (match tier with low => true | _ => false end) && (vram <? 4)%Z then false
  else if negb (budget =? 0)%Z
          && negb (match tier with high => true | _ => false end)
          && Qlt_bool (inject_Z budget * (80 # 100)) price then false
  else true.

Definition ram_kept (req_ram : Z) (p : part) : bool :=
  negb (capacity_gb p <? Z.min req_ram 32)%Z.

Definition kept (requirements : Requirements) (budget : Z) (p : part) : bool :=
  let req_ram := Zor (recommended_ram requirements) 16 in
  let req_vram := gpu_vram requirements in
  let tier := min_gpu_tier requirements in
  (if String.eqb (category p) "RAM" then ram_kept req_ram p else true)
  && (if String.eqb (category p) "GPU" then gpu_kept req_vram tier budget p else true).

Definition recommend_parts_for_requirements
    (requirements : Requirements) (parts : list part) (budget : Z) : list part :=
  List.filter (kept requirements budget) parts.

End Compat.

(** ** app.py: the build generator *)
Module App.

(** [Dict[str, dict]] of locked parts, read only through [cat in owned]
    and [owned[cat]] at the seven slots. *)
Definition Owned := Category -> option pdict.

Definition in_owned (owned : Owned) (c : Category) : bool :=
  match owned c with Some _ => true | None => false end.

Definition parts_by_category (parts : list part) (cat : string) : list part :=
  List.filter (fun p => String.eqb (Py.strip (category p)) cat) parts.

Definition ram_type_set (value : option string) : gset string :=
  let s := Py.upper (Py.str_or_empty value) in
  let out : gset string := ∅ in
  let out := if Py.contains "DDR4" s then out ∪ {[ "DDR4" ]} else out in
  let out := if Py.contains "DDR5" s then out ∪ {[ "DDR5" ]} else out in
  out.

Definition emptyb (a : gset string) : bool := bool_decide (a = ∅).
Definition meets (a b : gset string) : bool := negb (bool_decide (a ∩ b = ∅)).

Local Open Scope Q_scope.

(** One turn of the loop of [pick_best_within]. *)
Definition best_step (cap : Q) (score_fn : part -> Q)
    (st : option part * Q) (it : part) : option part * Q :=
  let price := price_usd it in
  if Qle_bool price 0 then st
  else if Qlt_bool cap price then st
  else let sc := score_fn it in
       if Qlt_bool (snd st) sc then (Some it, sc) else st.

Definition pick_best_within (items : list part) (cap : Q) (score_fn : part -> Q)
    : option part :=
  fst (fold_left (best_step cap score_fn) items (None, inject_Z (- 10 ^ 18))).

Definition gpu_score (g : part) : Q := inject_Z (vram_gb g * 10000) + price_usd g.

Definition cpu_score (c : part) : Q := price_usd c.

Definition storage_score (s : part) : Q :=
  let cap := capacity_gb s in
  let ff := Py.lower (form_factor s) in
  let nvme_bonus := if Py.contains "nvme" ff || Py.contains "m.2" ff then 5000%Z else 0%Z in
  inject_Z (cap + nvme_bonus) + price_usd s.

Definition ram_score (prefer_rgb : bool) (r : part) : Q :=
  let cap := capacity_gb r in
  let rgb_bonus := if prefer_rgb && Py.contains "rgb" (norm (model r)) then 5000%Z else 0%Z in
  inject_Z (cap * 100 + rgb_bonus) + price_usd r.

(** [l[0] if l else None] and [l[-1] if l else None]. *)
Definition first_opt (l : list part) : option part := List.head l.
Definition last_opt (l : list part) : option part := List.head (List.rev l).

Definition pick_mobo_for_cpu (cpu : pdict) (pool : list part)
    (preferred_ram : option string) : option part :=
  let mobos := parts_by_category pool "Motherboard" in
  let sock := Py.strip (Py.str_or_empty (get_socket cpu)) in
  let candidates :=
    List.filter (fun m => String.eqb (Py.strip (Py.str_or_empty (socket m))) sock) mobos in
  let candidates :=
    if negb (Py.is_empty (Py.str_or_empty preferred_ram)) then
      let pr := ram_type_set preferred_ram in
      List.filter (fun m => emptyb pr || meets (ram_type_set (ram_type m)) pr) candidates
    else candidates in
  last_opt (sort_by_price candidates).

Definition pick_ram_for_mobo (mobo : pdict) (pool : list part) (need_gb : Z)
    (prefer_rgb : bool) (cap : Q) : option part :=
  let rams := parts_by_category pool "RAM" in
  let mset := ram_type_set (get_ram_type mobo) in
  let candidates :=
    List.filter (fun r => emptyb mset || meets (ram_type_set (ram_type r)) mset) rams in
  let candidates := List.filter (fun r => (need_gb <=? capacity_gb r)%Z) candidates in
  let candidates := sort_by_price candidates in
  or_else (pick_best_within candidates cap (ram_score prefer_rgb)) (first_opt candidates).

Definition pick_case_for_gpu (gpu : option pdict) (pool : list part) : option part :=
  let cases := parts_by_category pool "Case" in
  match cases with
  | [] => None
  | _ =>
      match gpu with
      | Some (PartDict g) =>
          if Qeq_bool (length_mm g) 0 then last_opt (sort_by_price cases)
          else
            let gl := length_mm g in
            let fit := List.filter (fun c => Qle_bool gl (max_gpu_length_mm c)) cases in
            let fit := match fit with [] => cases | _ => fit end in
            last_opt (sort_by_price fit)
      | _ => last_opt (sort_by_price cases)
      end
  end.

(** [int(gpu.get("psu_wattage") or 650) if gpu else 650]. *)
Definition psu_need (gpu : option pdict) : Z :=
  match gpu with
  | Some (PartDict g) => Zor (psu_wattage g) 650
  | _ => 650%Z
  end.

(** [[p for p in psus if int(p.get("psu_wattage") or 0) >= need] or psus]. *)
Definition psu_candidates (need : Z) (psus : list part) : list part :=
  match List.filter (fun p => (need <=? psu_wattage p)%Z) psus with
  | [] => psus
  | qualifying => qualifying
  end.

Definition pick_psu_for_gpu (gpu : option pdict) (pool : list part) (quiet : bool)
    : option part :=
  let psus := parts_by_category pool "PSU" in
  match psus with
  | [] => None
  | _ =>
      let need := psu_need gpu in
      let candidates := sort_by_price (psu_candidates need psus) in
      if quiet then last_opt candidates
      else nth_error candidates (Nat.min (List.length candidates - 1) 2)%nat
  end.

(** The "Tier tuning" block at the head of [build_always]. *)
Definition tier_tuning (level : Level) (reqs : Requirements) : Requirements :=
  match level with
  | minimum =>
      {| min_ram := min_ram reqs;
         recommended_ram := Z.max 16 (Zor (min_ram reqs) 8);
         cpu_cores := cpu_cores reqs;
         gpu_vram := gpu_vram reqs;
         min_gpu_tier := min_gpu_tier reqs;
         storage_type := storage_type reqs;
         notes := notes reqs |}
  | high_end =>
      {| min_ram := min_ram reqs;
         recommended_ram := Z.max 32 (Zor (recommended_ram reqs) 16);
         cpu_cores := cpu_cores reqs;
         gpu_vram := gpu_vram reqs;
         min_gpu_tier := high;
         storage_type := NVMe;
         notes := notes reqs |}
  | _ => reqs
  end.

Definition categories : list Category := [GPU; CPU; Motherboard; RAM; Storage; PSU; Case].
Definition priority : list Category := [GPU; CPU; Motherboard; RAM; Storage; PSU; Case].

Definition weights (c : Category) : Q :=
  match c with
  | GPU => 42 # 100 | CPU => 20 # 100 | Motherboard => 12 # 100 | RAM => 10 # 100
  | Storage => 8 # 100 | PSU => 5 # 100 | Case => 3 # 100
  end.

Definition present (owned : Owned) : list Category :=
  List.filter (fun c => negb (in_owned owned c)) categories.

Definition weight_sum (owned : Owned) : Q :=
  match present owned with
  | [] => 1
  | cs => fold_left Qplus (List.map weights cs) 0
  end.

Definition alloc (budget : Z) (owned : Owned) (cat : Category) : Q :=
  inject_Z budget * (weights cat / weight_sum owned).

Definition is_high_end (level : Level) : bool :=
  match level with high_end => true | _ => false end.

(** The multiplier of the allocation in each capped category (CPU, RAM,
    GPU, Storage).  The other three slots are picked without a cap and
    never read it; the 1 there only makes the function total. *)
Definition cap_factor (level : Level) (cat : Category) : Q :=
  match cat with
  | CPU => if is_high_end level then 125 # 100 else 110 # 100
  | RAM => 125 # 100
  | GPU => if is_high_end level then 130 # 100 else 120 # 100
  | Storage => 130 # 100
  | _ => 1
  end.

(** [min(float(budget), alloc(cat) * factor)]. *)
Definition cap_of (budget : Z) (owned : Owned) (level : Level) (cat : Category) : Q :=
  pymin (inject_Z budget) (alloc budget owned cat * cap_factor level cat).

(** [build.get(c) if isinstance(build.get(c), dict) else {}]. *)
Definition dict_or_empty (v : option pdict) : pdict :=
  match v with Some d => d | None => EmptyDict end.

Definition as_slot (o : option part) : option pdict := option_map PartDict o.

Definition storage_ok (desired : StorageType) (need_gb : Z) (s : part) : bool :=
  let cap := capacity_gb s in
  let ff := Py.lower (form_factor s) in
  if (cap <? need_gb)%Z then false
  else match desired with
       | NVMe => Py.contains "nvme" ff || Py.contains "m.2" ff
       | SSD => negb (Py.contains "hdd" ff)
       | HDD => true
       end.

(** [total] of the slots that are not owned, in the build's key order. *)
Definition total_missing (owned : Owned) (build : Build) : Q :=
  fold_left (fun total cat =>
               if in_owned owned cat then total
               else total + money (dict_or_empty (build cat)))
            categories 0.

(** [[p for p in pool if 0 < money(p) < cur_price]], sorted by price. *)
Definition cheaper (PARTS : list part) (cat : Category) (cur_price : Q) : list part :=
  sort_by_price
    (List.filter (fun p => Qlt_bool 0 (price_usd p) && Qlt_bool (price_usd p) cur_price)
                 (parts_by_category PARTS (cat_name cat))).

(** The downgrade loop over the remaining priority list; [break] returns
    the state reached. *)
Fixpoint downgrade (PARTS : list part) (budget : Z) (owned : Owned)
    (cats : list Category) (build : Build) (total : Q) : Build * Q :=
  match cats with
  | [] => (build, total)
  | cat :: rest =>
      if Qle_bool total (inject_Z budget) then (build, total)
      else if in_owned owned cat then downgrade PARTS budget owned rest build total
      else
        let cur := dict_or_empty (build cat) in
        let cur_price := money cur in
        match cheaper PARTS cat cur_price with
        | [] => downgrade PARTS budget owned rest build total
        | p :: _ =>
            let build := set_slot build cat (Some (PartDict p)) in
            downgrade PARTS budget owned rest build (total_missing owned build)
        end
  end.

Definition reconcile (PARTS : list part) (budget : Z) (owned : Owned)
    (build : Build) (total : Q) : Build * Q :=
  if Qlt_bool (inject_Z budget) total
  then downgrade PARTS budget owned priority build total
  else (build, total).

(** "Ensure nothing is None": the cheapest part of the slot or [{}]. *)
Definition ensure_step (PARTS : list part) (b : Build) (cat : Category) : Build :=
  match b cat with
  | None =>
      let pool := sort_by_price (parts_by_category PARTS (cat_name cat)) in
      set_slot b cat (match pool with p :: _ => Some (PartDict p) | [] => Some EmptyDict end)
  | Some _ => b
  end.

Definition ensure (PARTS : list part) (build : Build) : Build :=
  fold_left (ensure_step PARTS) categories build.

(** The first line of the build: the catalog after the candidate filter,
    or the whole catalog when the filter leaves nothing. *)
Definition filtered_parts (reqs : Requirements) (PARTS : list part) (budget : Z)
    : list part :=
  match Compat.recommend_parts_for_requirements reqs PARTS budget with
  | [] => PARTS
  | l => l
  end.

(** [build = {c: None for c in categories}] followed by the lock loop. *)
Definition locked (owned : Owned) : Build :=
  fold_left (fun b cat => if in_owned owned cat then set_slot b cat (owned cat) else b)
            categories (fun _ => None).

(** [if cat not in owned: build[cat] = choice]. *)
Definition fill (owned : Owned) (cat : Category) (choice : Build -> option part)
    (build : Build) : Build :=
  if in_owned owned cat then build else set_slot build cat (as_slot (choice build)).

Definition choose_cpu (filtered : list part) (budget : Z) (owned : Owned)
    (level : Level) (build : Build) : option part :=
  let cpus := parts_by_category filtered "CPU" in
  let cpu_cap := cap_of budget owned level CPU in
  or_else (pick_best_within cpus cpu_cap cpu_score) (first_opt (sort_by_price cpus)).

Definition choose_mobo (filtered : list part) (budget : Z) (build : Build) : option part :=
  let cpu := dict_or_empty (build CPU) in
  let preferred_ram := if (900 <=? budget)%Z then "DDR5" else "DDR4" in
  let mobo := or_else (pick_mobo_for_cpu cpu filtered (Some preferred_ram))
                      (pick_mobo_for_cpu cpu filtered None) in
  match mobo with
  | Some _ => mobo
  | None => first_opt (sort_by_price (parts_by_category filtered "Motherboard"))
  end.

Definition choose_ram (reqs : Requirements) (filtered : list part) (budget : Z)
    (owned : Owned) (level : Level) (prefer_rgb : bool) (build : Build) : option part :=
  let mobo := dict_or_empty (build Motherboard) in
  let need_gb := Zor (recommended_ram reqs) 16 in
  let need_gb := if is_high_end level then Z.max 32 need_gb else need_gb in
  let ram_cap := cap_of budget owned level RAM in
  match pick_ram_for_mobo mobo filtered need_gb prefer_rgb ram_cap with
  | Some r => Some r
  | None => first_opt (sort_by_price (parts_by_category filtered "RAM"))
  end.

Definition choose_gpu (PARTS filtered : list part) (budget : Z) (owned : Owned)
    (level : Level) (build : Build) : option part :=
  let gpus := parts_by_category filtered "GPU" in
  let gpu_cap := cap_of budget owned level GPU in
  match or_else (pick_best_within gpus gpu_cap gpu_score) (first_opt (sort_by_price gpus)) with
  | Some g => Some g
  | None => first_opt (sort_by_price (parts_by_category PARTS "GPU"))
  end.

Definition choose_storage (reqs : Requirements) (filtered : list part) (budget : Z)
    (owned : Owned) (level : Level) (build : Build) : option part :=
  let stor := parts_by_category filtered "Storage" in
  let desired := storage_type reqs in
  let need_gb := if (1800 <=? budget)%Z || is_high_end level then 2000%Z else 1000%Z in
  let candidates :=
    match List.filter (storage_ok desired need_gb) stor with
    | [] => stor
    | l => l
    end in
  let storage_cap := cap_of budget owned level Storage in
  or_else (pick_best_within candidates storage_cap storage_score)
          (first_opt (sort_by_price candidates)).

Definition choose_case (filtered : list part) (build : Build) : option part :=
  pick_case_for_gpu (build GPU) filtered.

Definition choose_psu (filtered : list part) (prefer_quiet : bool) (build : Build)
    : option part :=
  pick_psu_for_gpu (build GPU) filtered prefer_quiet.

(** The selection part of [build_always], block by block in source order.
    The profile [reqs] and the two preference flags are what the function
    derives from the message; [PARTS] is the module-level catalog. *)
Definition select (reqs : Requirements) (prefer_rgb prefer_quiet : bool)
    (PARTS : list part) (budget : Z) (owned : Owned) (level : Level) : Build :=
  let reqs := tier_tuning level reqs in
  let filtered := filtered_parts reqs PARTS budget in
  let build := locked owned in
  let build := fill owned CPU (choose_cpu filtered budget owned level) build in
  let build := fill owned Motherboard (choose_mobo filtered budget) build in
  let build := fill owned RAM (choose_ram reqs filtered budget owned level prefer_rgb) build in
  let build := fill owned GPU (choose_gpu PARTS filtered budget owned level) build in
  let build := fill owned Storage (choose_storage reqs filtered budget owned level) build in
  let build := fill owned Case (choose_case filtered) build in
  let build := fill owned PSU (choose_psu filtered prefer_quiet) build in
  build.

Definition build_always (reqs : Requirements) (prefer_rgb prefer_quiet : bool)
    (PARTS : list part) (budget : Z) (owned : Owned) (level : Level) : Build * Q :=
  let build := select reqs prefer_rgb prefer_quiet PARTS budget owned level in
  let build := ensure PARTS build in
  let total := total_missing owned build in
  reconcile PARTS budget owned build total.

End App.

(** ** Statement vocabulary and sample data *)

(** The messages a check contributes to the report: none when it passed. *)
Definition triggered (r : bool * string) : list string :=
  if fst r then [] else [snd r].

(** Ascending price order between two parts. *)
Definition price_le (a b : part) : Prop := (price_usd a <= price_usd b)%Q.

(** The PSUs a build may use: those reaching the needed wattage, or all
    of them when none does. *)
Definition psu_pool (need : Z) (psus : list part) : list part :=
  match List.filter (fun p => (need <=? psu_wattage p)%Z) psus with
  | [] => psus
  | qualifying => qualifying
  end.

(** The wattage a PSU must supply: what the GPU declares, 650 W when
    there is no GPU or it declares none. *)
Definition required_wattage (gpu : option pdict) : Z :=
  match gpu with
  | Some (PartDict g) => if (psu_wattage g =? 0)%Z then 650%Z else psu_wattage g
  | _ => 650%Z
  end.

(** The sum of the prices of the slots that are not owned. *)
Definition purchase_total (owned : App.Owned) (build : Build) : Q :=
  fold_right Qplus 0%Q
    (List.map (fun c => money (App.dict_or_empty (build c))) (App.present owned)).

(** What "ensure" puts in an empty slot. *)
Definition cheapest_or_empty (PARTS : list part) (c : Category) : option pdict :=
  match sort_by_price (App.parts_by_category PARTS (cat_name c)) with
  | p :: _ => Some (PartDict p)
  | [] => Some EmptyDict
  end.

(** A part the capped picker may return: priced and within the cap. *)
Definition eligible (cap : Q) (p : part) : Prop :=
  (0 < price_usd p /\ price_usd p <= cap)%Q.

(** The state of the capped picker after the items [seen]: either nothing
    was taken and no eligible item scores above the initial score, or the
    held item is eligible and no eligible item seen scores higher. *)
Definition best_so_far (cap : Q) (score_fn : part -> Q) (seen : list part)
    (st : option part * Q) : Prop :=
  match fst st with
  | None =>
      snd st = inject_Z (- 10 ^ 18)
      /\ forall y, In y seen -> eligible cap y -> (score_fn y <= inject_Z (- 10 ^ 18))%Q
  | Some x =>
      snd st = score_fn x /\ In x seen /\ eligible cap x
      /\ (inject_Z (- 10 ^ 18) < score_fn x)%Q
      /\ forall y, In y seen -> eligible cap y -> (score_fn y <= score_fn x)%Q
  end.

(** The parts of the catalog in a build slot's category. *)
Definition in_category (PARTS : list part) (c : Category) : list part :=
  App.parts_by_category PARTS (cat_name c).

(** [x] is visited before [c] in the list [cats]. *)
Fixpoint earlier (cats : list Category) (x c : Category) : bool :=
  match cats with
  | [] => false
  | a :: rest =>
      if Category_eqb a c then false
      else if Category_eqb a x then true
      else earlier rest x c
  end.






(** Every character of [t] satisfies [f]. *)
Fixpoint all_chars (f : ascii -> bool) (t : string) : bool :=
  match t with
  | EmptyString => true
  | String c t' => f c && all_chars f t'
  end.

(** A non-empty word without white space, "/" or ",". *)
Definition plain_word (t : string) : bool :=
  negb (Py.is_empty t)
  && all_chars (fun c => negb (Py.is_space c)) t
  && all_chars (fun c => negb (Ascii.eqb c "/")) t
  && all_chars (fun c => negb (Ascii.eqb c ",")) t.

(** The two RAM generations the allocator knows. *)
Definition ddr_names : gset string := {[ "DDR4"; "DDR5" ]}.

(** The VRAM floor of a tier. *)
Definition tier_floor (t : Tier) : Z :=
  match t with high => 12 | mid => 8 | low => 4 end.

(** The drop condition of the GPU branch, as a proposition; the price cut
    is guarded by a non-zero budget. *)
Definition gpu_dropped (reqs : Requirements) (budget : Z) (p : part) : Prop :=
  (0 < gpu_vram reqs /\ vram_gb p < gpu_vram reqs)%Z
  \/ (vram_gb p < tier_floor (min_gpu_tier reqs))%Z
  \/ (budget <> 0%Z /\ min_gpu_tier reqs <> high
      /\ (inject_Z budget * (80 # 100) < price_usd p)%Q).

Module Sample.

Local Open Scope Q_scope.

(** A catalog row with every optional cell blank. *)
Definition row (i c : string) (pr : Q) : part :=
  {| id := i; category := c; brand := ""; model := i; price_usd := pr;
     socket := Some ""; ram_type := Some ""; vram_gb := 0; length_mm := 0;
     max_gpu_length_mm := 0; psu_wattage := 0; capacity_gb := 0; form_factor := "" |}.

Definition with_socket (s : string) (p : part) : part :=
  {| id := id p; category := category p; brand := brand p; model := model p;
     price_usd := price_usd p; socket := Some s; ram_type := ram_type p;
     vram_gb := vram_gb p; length_mm := length_mm p;
     max_gpu_length_mm := max_gpu_length_mm p; psu_wattage := psu_wattage p;
     capacity_gb := capacity_gb p; form_factor := form_factor p |}.

Definition with_ram_type (s : string) (p : part) : part :=
  {| id := id p; category := category p; brand := brand p; model := model p;
     price_usd := price_usd p; socket := socket p; ram_type := Some s;
     vram_gb := vram_gb p; length_mm := length_mm p;
     max_gpu_length_mm := max_gpu_length_mm p; psu_wattage := psu_wattage p;
     capacity_gb := capacity_gb p; form_factor := form_factor p |}.

Definition with_vram (v : Z) (p : part) : part :=
  {| id := id p; category := category p; brand := brand p; model := model p;
     price_usd := price_usd p; socket := socket p; ram_type := ram_type p;
     vram_gb := v; length_mm := length_mm p;
     max_gpu_length_mm := max_gpu_length_mm p; psu_wattage := psu_wattage p;
     capacity_gb := capacity_gb p; form_factor := form_factor p |}.

Definition with_lengths (len max_len : Q) (p : part) : part :=
  {| id := id p; category := category p; brand := brand p; model := model p;
     price_usd := price_usd p; socket := socket p; ram_type := ram_type p;
     vram_gb := vram_gb p; length_mm := len;
     max_gpu_length_mm := max_len; psu_wattage := psu_wattage p;
     capacity_gb := capacity_gb p; form_factor := form_factor p |}.

Definition with_capacity (gb : Z) (p : part) : part :=
  {| id := id p; category := category p; brand := brand p; model := model p;
     price_usd := price_usd p; socket := socket p; ram_type := ram_type p;
     vram_gb := vram_gb p; length_mm := length_mm p;
     max_gpu_length_mm := max_gpu_length_mm p; psu_wattage := psu_wattage p;
     capacity_gb := gb; form_factor := form_factor p |}.

Definition with_wattage (w : Z) (p : part) : part :=
  {| id := id p; category := category p; brand := brand p; model := model p;
     price_usd := price_usd p; socket := socket p; ram_type := ram_type p;
     vram_gb := vram_gb p; length_mm := length_mm p;
     max_gpu_length_mm := max_gpu_length_mm p; psu_wattage := w;
     capacity_gb := capacity_gb p; form_factor := form_factor p |}.

(** The floor profile of [get_requirements_analysis]. *)
Definition floor_reqs : Requirements :=
  {| min_ram := 8; recommended_ram := 16; cpu_cores := 4; gpu_vram := 0;
     min_gpu_tier := low; storage_type := SSD; notes := [] |}.

Definition high_reqs : Requirements :=
  {| min_ram := 8; recommended_ram := 16; cpu_cores := 4; gpu_vram := 0;
     min_gpu_tier := high; storage_type := SSD; notes := [] |}.

Definition nothing_owned : App.Owned := fun _ => None.

(** The GPU dict that [detect_owned_parts] makes up for "rtx3090": no
    price and none of the catalog's other keys. *)
Definition rtx3090 : part :=
  {| id := ""; category := "GPU"; brand := "NVIDIA"; model := "GeForce RTX 3090";
     price_usd := 0; socket := None; ram_type := None; vram_gb := 0; length_mm := 0;
     max_gpu_length_mm := 0; psu_wattage := 0; capacity_gb := 0; form_factor := "" |}.

Definition owns_gpu : App.Owned :=
  fun c => match c with GPU => Some (PartDict rtx3090) | _ => None end.

Definition cpu_am5_10 : part := with_socket "AM5" (row "cpu-a" "CPU" 10).
Definition cpu_am5_150 : part := with_socket "AM5" (row "cpu-b" "CPU" 150).
Definition cpu_lga : part := with_socket "LGA1700" (row "cpu-c" "CPU" 200).
Definition mobo_ddr4 : part :=
  with_ram_type "DDR4" (with_socket "AM5" (row "mb-a" "Motherboard" 50)).
Definition mobo_ddr5 : part :=
  with_ram_type "DDR5" (with_socket "AM5" (row "mb-b" "Motherboard" 900)).
Definition case_a : part := row "case-a" "Case" 60.
Definition case_360 : part := with_lengths 0 360 (row "case-b" "Case" 80).
Definition gpu_340 : part := with_lengths 340 0 (row "gpu-l" "GPU" 500).
Definition gpu_400 : part := with_lengths 400 0 (row "gpu-x" "GPU" 900).
Definition ram_ddr5 : part := with_ram_type "DDR5" (row "ram-a" "RAM" 90).
Definition ram_both : part := with_ram_type "DDR4/DDR5" (row "ram-b" "RAM" 95).

Definition gpu_small : part := with_vram 4 (row "gpu-s" "GPU" 100).


Definition psu_450 : part := with_wattage 450 (row "psu-a" "PSU" 40).
Definition psu_650 : part := with_wattage 650 (row "psu-b" "PSU" 70).
Definition psu_750 : part := with_wattage 750 (row "psu-c" "PSU" 90).
Definition psu_850 : part := with_wattage 850 (row "psu-d" "PSU" 120).
Definition psu_1000 : part := with_wattage 1000 (row "psu-e" "PSU" 200).

(** Two CPUs and two boards on one socket. *)
Definition small_catalog : list part := [cpu_am5_10; cpu_am5_150; mobo_ddr4; mobo_ddr5].

Definition psu_catalog : list part := [psu_1000; psu_450; psu_750; psu_650; psu_850].

Definition plain_text (x : Q) : string := "".

Definition build_of (cpu mobo : part) : Build :=
  fun c => match c with
           | CPU => Some (PartDict cpu)
           | Motherboard => Some (PartDict mobo)
           | _ => Some EmptyDict
           end.

End Sample.

(** ** compat.py: the requirements profile *)
Module Profile.

(** A row of applications.csv as [get_requirements_analysis] reads it. *)
Record app_req := {
  a_min_ram : Z;
  a_recommended_ram : Z;
  a_cpu_cores : Z;
  a_gpu_vram : Z;
  a_storage_type : string
}.

(** A row of games.csv as [get_requirements_analysis] reads it. *)
Record game_req := {
  g_min_ram : Z;
  g_recommended_ram : Z;
  g_min_gpu : string;
  g_recommended_gpu : string
}.

(** [any(k in t for k in keys)]. *)
Definition any_in (keys : list string) (t : string) : bool :=
  existsb (fun k => Py.contains k t) keys.

Definition _infer_gpu_tier_from_text (gpu_text : string) : Tier :=
  let s := Py.upper gpu_text in
  if Py.contains "RTX" s then high
  else if Py.contains "GTX" s || Py.contains "RX" s || Py.contains "ARC" s then mid
  else if Py.contains "HD" s || Py.contains "INTEL" s then low
  else mid.

(** [tiers = {"low": 0, "mid": 1, "high": 2}]. *)
Definition tiers (t : Tier) : Z :=
  match t with low => 0 | mid => 1 | high => 2 end.

(** One turn of the loop inside [max(..., key=...)]: the later element
    wins only with a strictly larger key. *)
Definition higher (best x : Tier) : Tier :=
  if (tiers best <? tiers x)%Z then x else best.

(** The dict literal at the head of [get_requirements_analysis]. *)
Definition floor_analysis : Requirements :=
  {| min_ram := 8; recommended_ram := 16; cpu_cores := 4; gpu_vram := 0;
     min_gpu_tier := low; storage_type := SSD; notes := [] |}.

(** The key under which a title is looked up: [str(x).strip().lower()]. *)
Definition title_key (x : string) : string := Py.lower (Py.strip x).

Definition app_step (APPLICATION_REQUIREMENTS : gmap string app_req)
    (analysis : Requirements) (app : string) : Requirements :=
  match APPLICATION_REQUIREMENTS !! title_key app with
  | None => analysis
  | Some r =>
      {| min_ram := Z.max (min_ram analysis) (a_min_ram r);
         recommended_ram := Z.max (recommended_ram analysis) (Zor (a_recommended_ram r) 16);
         cpu_cores := Z.max (cpu_cores analysis) (Zor (a_cpu_cores r) 4);
         gpu_vram := Z.max (gpu_vram analysis) (a_gpu_vram r);
         min_gpu_tier := min_gpu_tier analysis;
         storage_type :=
           if String.eqb (Py.upper (Py.strip (a_storage_type r))) "NVME"
           then NVMe else storage_type analysis;
         notes := notes analysis |}
  end.

Definition game_step (GAME_REQUIREMENTS : gmap string game_req)
    (analysis : Requirements) (game : string) : Requirements :=
  match GAME_REQUIREMENTS !! title_key game with
  | None => analysis
  | Some g =>
      let rec_tier := _infer_gpu_tier_from_text (g_recommended_gpu g) in
      let min_tier := _infer_gpu_tier_from_text (g_min_gpu g) in
      let best := higher (higher (min_gpu_tier analysis) rec_tier) min_tier in
      {| min_ram := Z.max (min_ram analysis) (g_min_ram g);
         recommended_ram := Z.max (recommended_ram analysis) (Zor (g_recommended_ram g) 16);
         cpu_cores := cpu_cores analysis;
         gpu_vram := gpu_vram analysis;
         min_gpu_tier := best;
         storage_type := storage_type analysis;
         notes := notes analysis |}
  end.

Definition creation_keywords : list string :=
  ["editing"; "premiere"; "davinci"; "after effects"].

Definition usage_step (analysis : Requirements) (usage : string) : Requirements :=
  let u := Py.lower usage in
  if any_in creation_keywords u then
    {| min_ram := min_ram analysis;
       recommended_ram := Z.max (recommended_ram analysis) 32;
       cpu_cores := cpu_cores analysis;
       gpu_vram := gpu_vram analysis;
       min_gpu_tier := high;
       storage_type := NVMe;
       notes := notes analysis |}
  else analysis.

(** The two tables are the module-level dicts loaded from the CSV files. *)
Definition get_requirements_analysis
    (APPLICATION_REQUIREMENTS : gmap string app_req)
    (GAME_REQUIREMENTS : gmap string game_req)
    (applications games : list string) (usage : string) : Requirements :=
  let analysis := floor_analysis in
  let analysis := fold_left (app_step APPLICATION_REQUIREMENTS) applications analysis in
  let analysis := fold_left (game_step GAME_REQUIREMENTS) games analysis in
  usage_step analysis usage.

End Profile.

(** ** app.py: what the reply shows *)
Module Reply.

(** One entry of [items_all] in [format_build_response]; the slug, a fixed
    function of the category, is left out. *)
Record item := {
  item_category : Category;
  item_csv_id : string;
  item_name : string;
  item_price_usd : Q;
  item_owned : bool
}.


Definition make_item (build : Build) (owned : App.Owned) (cat : Category) : item :=
  let part := App.dict_or_empty (build cat) in
  {| item_category := cat;
     item_csv_id := match part with EmptyDict => "" | PartDict p => id p end;
     item_name := match part with
                  | EmptyDict => Py.strip (" ")
                  | PartDict p => Py.strip (brand p ++ " " ++ model p)
                  end;
     item_price_usd := money part;
     item_owned := App.in_owned owned cat |}.




(** [sep.join(l)]. *)
Fixpoint join (sep : string) (l : list string) : string :=
  match l with
  | [] => ""
  | [x] => x
  | x :: rest => x ++ sep ++ join sep rest
  end.

(** The text [chat] appends for the compatibility report: empty when
    nothing is appended. *)
Definition compatibility_note (chk : Report) : string :=
  if negb (compatible chk) then
    match issues chk with
    | [] => ""
    | l => "

Compatibility note (best-effort): " ++ join "; " (firstn 2 l)
    end
  else "".


End Reply.

(** ** Statement vocabulary for the further properties *)

(** The GPU length a case admits: its recorded maximum, 9999 mm when none
    is recorded. *)
Definition case_limit (c : part) : Q :=
  if Qeq_bool (max_gpu_length_mm c) 0 then 9999%Q else max_gpu_length_mm c.

(** The RAM rule of the checker on two parts: an undeclared type on
    either side passes, declared types must share a name. *)
Definition ram_types_agree (r m : part) : Prop :=
  Compat.ram_type_set (ram_type r) = ∅
  \/ Compat.ram_type_set (ram_type m) = ∅
  \/ Compat.ram_type_set (ram_type r) ∩ Compat.ram_type_set (ram_type m) <> ∅.

Definition same_socket (c m : part) : Prop :=
  Py.strip (Py.str_or_empty (socket c)) = Py.strip (Py.str_or_empty (socket m)).

Definition note_header : string := "

Compatibility note (best-effort): ".

(** A board the motherboard picker may return for this CPU: same socket
    up to surrounding blanks and, when a preferred RAM type is given and
    names a known generation, a RAM-type set that shares it. *)
Definition board_candidate (cpu : pdict) (preferred_ram : option string) (m : part) : Prop :=
  Py.strip (Py.str_or_empty (socket m)) = Py.strip (Py.str_or_empty (get_socket cpu))
  /\ (Py.str_or_empty preferred_ram <> "" ->
      App.ram_type_set preferred_ram = ∅
      \/ App.ram_type_set (ram_type m) ∩ App.ram_type_set preferred_ram <> ∅).

(** A module the RAM picker may return for this board: large enough and,
    when the board declares a known generation, sharing one with it. *)
Definition ram_candidate (mobo : pdict) (need_gb : Z) (r : part) : Prop :=
  (need_gb <= capacity_gb r)%Z
  /\ (App.ram_type_set (get_ram_type mobo) = ∅
      \/ App.ram_type_set (ram_type r) ∩ App.ram_type_set (get_ram_type mobo) <> ∅).

(** The GPU length the case picker works with: none without a GPU or
    without a recorded length. *)
Definition gpu_length (gpu : option pdict) : option Q :=
  match gpu with
  | Some (PartDict g) => if Qeq_bool (length_mm g) 0 then None else Some (length_mm g)
  | _ => None
  end.


(** A slot that holds a real part before selection or can be filled from
    the catalog: owned as a part, or not owned with the category present
    in the catalog. *)
Definition available (PARTS : list part) (owned : App.Owned) (c : Category) : Prop :=
  (exists p, owned c = Some (PartDict p))
  \/ (App.in_owned owned c = false /\ in_category PARTS c <> []).


(** Profile [b] asks at least as much as profile [a] in every field. *)
Definition at_least (a b : Requirements) : Prop :=
  (min_ram a <= min_ram b)%Z
  /\ (recommended_ram a <= recommended_ram b)%Z
  /\ (cpu_cores a <= cpu_cores b)%Z
  /\ (gpu_vram a <= gpu_vram b)%Z
  /\ (Profile.tiers (min_gpu_tier a) <= Profile.tiers (min_gpu_tier b))%Z
  /\ (storage_type a = NVMe -> storage_type b = NVMe).

(** What a row of applications.csv asks of the profile. *)
Definition app_demand (r : Profile.app_req) (a : Requirements) : Prop :=
  (Profile.a_min_ram r <= min_ram a)%Z
  /\ (Profile.a_recommended_ram r <= recommended_ram a)%Z
  /\ (Profile.a_cpu_cores r <= cpu_cores a)%Z
  /\ (Profile.a_gpu_vram r <= gpu_vram a)%Z
  /\ (Py.upper (Py.strip (Profile.a_storage_type r)) = "NVME" -> storage_type a = NVMe).

(** What a row of games.csv asks of the profile. *)
Definition game_demand (g : Profile.game_req) (a : Requirements) : Prop :=
  (Profile.g_min_ram g <= min_ram a)%Z
  /\ (Profile.g_recommended_ram g <= recommended_ram a)%Z
  /\ (Profile.tiers (Profile._infer_gpu_tier_from_text (Profile.g_recommended_gpu g))
      <= Profile.tiers (min_gpu_tier a))%Z
  /\ (Profile.tiers (Profile._infer_gpu_tier_from_text (Profile.g_min_gpu g))
      <= Profile.tiers (min_gpu_tier a))%Z.

(** A string that does not begin with white space. *)
Definition starts_clean (s : string) : Prop :=
  match s with
  | EmptyString => True
  | String c _ => Py.is_space c = false
  end.

(** * Properties *)

(** ** Strings *)

Lemma prefix_app (t b : string) : String.prefix t (t ++ b) = true.
Proof.
  induction t as [|c t IH]; simpl.
  - now destruct b.
  - destruct (Ascii.ascii_dec c c) as [_|n]; [exact IH | now elim n].
Qed.

Lemma contains_here (t b : string) : Py.contains t (t ++ b) = true.
Proof.
  destruct t as [|c t]; simpl.
  - now destruct b.
  - destruct (Ascii.ascii_dec c c) as [_|n]; [|now elim n].
    now rewrite prefix_app.
Qed.

Lemma contains_skip (t a h : string) :
  Py.contains t h = true -> Py.contains t (a ++ h) = true.
Proof.
  intros H. induction a as [|c a IH]; simpl; [exact H|].
  rewrite IH. apply orb_true_r.
Qed.

Lemma contains_infix (a t b : string) : Py.contains t (a ++ t ++ b) = true.
Proof. apply contains_skip, contains_here. Qed.

(** ** Level adjustment *)

(** C9: level=minimum sets recommended_ram to max(16, min_ram);
    level=high_end sets it to max(32, recommended_ram), forces the GPU tier
    to high and the storage type to NVMe; every other field of the profile
    is kept, and the two remaining levels change nothing. *)
Theorem tier_tuning_fields (reqs : Requirements) :
  App.tier_tuning minimum reqs =
    {| min_ram := min_ram reqs;
       recommended_ram := Z.max 16 (min_ram reqs);
       cpu_cores := cpu_cores reqs; gpu_vram := gpu_vram reqs;
       min_gpu_tier := min_gpu_tier reqs; storage_type := storage_type reqs;
       notes := notes reqs |}
  /\ App.tier_tuning high_end reqs =
    {| min_ram := min_ram reqs;
       recommended_ram := Z.max 32 (recommended_ram reqs);
       cpu_cores := cpu_cores reqs; gpu_vram := gpu_vram reqs;
       min_gpu_tier := high; storage_type := NVMe;
       notes := notes reqs |}
  /\ App.tier_tuning recommended reqs = reqs
  /\ App.tier_tuning both reqs = reqs.
Proof.
  unfold App.tier_tuning, Zor. repeat split; f_equal.
  - destruct (Z.eqb_spec (min_ram reqs) 0) as [->|]; lia.
  - destruct (Z.eqb_spec (recommended_ram reqs) 0) as [->|]; lia.
Qed.

(** ** Compatibility checks *)

Lemma truthy_false_cases (v : option pdict) :
  truthy v = false -> v = None \/ v = Some EmptyDict.
Proof. destruct v as [[|p]|]; simpl; intros H; auto; discriminate. Qed.

(** C3, as written, fails on the length check: with no GPU the GPU-Case
    check passes silently. *)
Lemma gpu_case_missing_gpu_passes :
  truthy None = false
  /\ Compat.gpu_case Sample.plain_text None (Some (PartDict Sample.case_a)) = (true, "").
Proof. split; reflexivity. Qed.

(** C3 (amended): with a missing operand (absent or the empty dict) the
    socket check and the RAM-type check report incompatible with their
    missing-part message, and the GPU-Case length check passes with an
    empty message. *)
Theorem missing_operand_results (float_repr : Q -> string) (a b : option pdict) :
  truthy a = false \/ truthy b = false ->
  Compat.cpu_mobo a b = (false, "CPU or motherboard missing")
  /\ Compat.ram_mobo a b = (false, "RAM or motherboard missing")
  /\ Compat.gpu_case float_repr a b = (true, "").
Proof.
  intros [H|H]; apply truthy_false_cases in H as [-> | ->];
    repeat split; try reflexivity; destruct a as [[|p]|]; reflexivity.
Qed.

Lemma missing_operand_results_witness :
  Compat.cpu_mobo None (Some (PartDict Sample.mobo_ddr4)) = (false, "CPU or motherboard missing")
  /\ Compat.ram_mobo None (Some (PartDict Sample.mobo_ddr4)) = (false, "RAM or motherboard missing")
  /\ Compat.gpu_case Sample.plain_text None (Some (PartDict Sample.mobo_ddr4)) = (true, "").
Proof.
  apply (missing_operand_results Sample.plain_text None (Some (PartDict Sample.mobo_ddr4))).
  left. reflexivity.
Defined.

Lemma note_triggered (l : list string) (r : bool * string) :
  Compat.note l r = (l ++ triggered r)%list.
Proof. unfold Compat.note, triggered. destruct (fst r); [now rewrite app_nil_r | reflexivity]. Qed.

Lemma cpu_mobo_mismatch_text (c m : part) :
  Py.strip (Py.str_or_empty (socket c)) <> Py.strip (Py.str_or_empty (socket m)) ->
  Compat.cpu_mobo (Some (PartDict c)) (Some (PartDict m)) =
    (false, "Socket mismatch (" ++ Py.fmt (socket c) ++ " vs " ++ Py.fmt (socket m) ++ ")").
Proof.
  intros H. unfold Compat.cpu_mobo.
  destruct (String.eqb_spec (Py.strip (Py.str_or_empty (socket c)))
                            (Py.strip (Py.str_or_empty (socket m)))); [contradiction|reflexivity].
Qed.

(** C7: the report lists the triggered messages of the socket check, the
    RAM-type check and the length check in that order; its flag is true
    exactly when the list is empty; and when the CPU and motherboard
    sockets differ, the first issue is the socket message, which contains
    both socket values as they are printed. *)
Theorem report_order_and_flag (float_repr : Q -> string) (build : Build) :
  let r := Compat.check_full_build_compatibility float_repr build in
  issues r =
    (triggered (Compat.cpu_mobo (build CPU) (build Motherboard))
     ++ triggered (Compat.ram_mobo (build RAM) (build Motherboard))
     ++ triggered (Compat.gpu_case float_repr (build GPU) (build Case)))%list
  /\ (compatible r = true <-> issues r = [])
  /\ (forall c m,
        build CPU = Some (PartDict c) ->
        build Motherboard = Some (PartDict m) ->
        Py.strip (Py.str_or_empty (socket c)) <> Py.strip (Py.str_or_empty (socket m)) ->
        exists msg rest,
          issues r = msg :: rest
          /\ Compat.cpu_mobo (build CPU) (build Motherboard) = (false, msg)
          /\ Py.contains (Py.fmt (socket c)) msg = true
          /\ Py.contains (Py.fmt (socket m)) msg = true).
Proof.
  intros r.
  assert (Hi : issues r =
    (triggered (Compat.cpu_mobo (build CPU) (build Motherboard))
     ++ triggered (Compat.ram_mobo (build RAM) (build Motherboard))
     ++ triggered (Compat.gpu_case float_repr (build GPU) (build Case)))%list).
  { subst r. unfold Compat.check_full_build_compatibility. simpl issues.
    rewrite !note_triggered. simpl. now rewrite <- app_assoc. }
  split; [exact Hi|]. split.
  - subst r. unfold Compat.check_full_build_compatibility. simpl.
    split; intros H.
    + apply Nat.eqb_eq in H. now apply length_zero_iff_nil.
    + rewrite H. reflexivity.
  - intros c m Hc Hm Hne. rewrite Hi, Hc, Hm.
    rewrite (cpu_mobo_mismatch_text c m Hne). unfold triggered at 1. simpl fst. simpl snd.
    eexists. eexists. split; [reflexivity|]. split; [reflexivity|]. split.
    + apply (contains_infix "Socket mismatch (" (Py.fmt (socket c))).
    + change ("Socket mismatch (" ++ Py.fmt (socket c) ++ " vs " ++ Py.fmt (socket m) ++ ")")
        with ("Socket mismatch (" ++ (Py.fmt (socket c) ++ " vs " ++ (Py.fmt (socket m) ++ ")"))).
      apply contains_skip, contains_skip. apply (contains_skip _ " vs "). apply contains_here.
Qed.

Lemma report_order_and_flag_witness :
  exists msg rest,
    issues (Compat.check_full_build_compatibility Sample.plain_text
              (Sample.build_of Sample.cpu_lga Sample.mobo_ddr4)) = msg :: rest
    /\ Compat.cpu_mobo (Some (PartDict Sample.cpu_lga)) (Some (PartDict Sample.mobo_ddr4)) = (false, msg)
    /\ Py.contains "LGA1700" msg = true
    /\ Py.contains "AM5" msg = true.
Proof.
  destruct (report_order_and_flag Sample.plain_text
              (Sample.build_of Sample.cpu_lga Sample.mobo_ddr4)) as (_ & _ & H).
  apply (H Sample.cpu_lga Sample.mobo_ddr4); [reflexivity | reflexivity | ].
  vm_compute. discriminate.
Defined.

(** ** Candidate filter *)

Lemma Qlt_bool_iff (a b : Q) : Qlt_bool a b = true <-> (a < b)%Q.
Proof.
  unfold Qlt_bool. rewrite negb_true_iff. split; intros H.
  - apply Qnot_le_lt. intros Hle. apply Qle_bool_iff in Hle. congruence.
  - destruct (Qle_bool b a) eqn:E; [|reflexivity].
    apply Qle_bool_iff in E. exfalso. exact (Qlt_not_le _ _ H E).
Qed.

Lemma Qlt_bool_false_iff (a b : Q) : Qlt_bool a b = false <-> (b <= a)%Q.
Proof.
  unfold Qlt_bool. rewrite negb_false_iff. apply Qle_bool_iff.
Qed.

Lemma gpu_kept_iff (reqs : Requirements) (budget : Z) (p : part) :
  Compat.gpu_kept (gpu_vram reqs) (min_gpu_tier reqs) budget p = true
  <-> ~ gpu_dropped reqs budget p.
Proof.
  unfold Compat.gpu_kept, gpu_dropped, tier_floor.
  destruct (Z.ltb_spec 0 (gpu_vram reqs)) as [Hv|Hv];
  destruct (Z.ltb_spec (vram_gb p) (gpu_vram reqs)) as [Hr|Hr];
  destruct (Z.ltb_spec (vram_gb p) 12) as [H12|H12];
  destruct (Z.ltb_spec (vram_gb p) 8) as [H8|H8];
  destruct (Z.ltb_spec (vram_gb p) 4) as [H4|H4];
  destruct (Z.eqb_spec budget 0) as [Hb|Hb];
  destruct (Qlt_bool (inject_Z budget * (80 # 100)) (price_usd p)) eqn:Hp;
  try (apply Qlt_bool_iff in Hp); try (apply Qlt_bool_false_iff in Hp);
  destruct (min_gpu_tier reqs); simpl;
  (split; [ intros Hk; try discriminate Hk;
            intros [[? ?]|[?|(? & ? & Hq)]]; try lia; try congruence;
            exact (Qlt_not_le _ _ Hq Hp)
          | intros Hn; try reflexivity; exfalso; apply Hn;
            first [ left; split; lia
                  | right; left; lia
                  | right; right; repeat split; [lia | discriminate | exact Hp] ] ]).
Qed.

(** C6, as written, fails at budget 0: a low-tier profile keeps a 4 GB GPU
    priced above 80% of a zero budget. *)
Lemma price_cut_skipped_at_zero_budget :
  min_gpu_tier Sample.floor_reqs <> high
  /\ (inject_Z 0 * (80 # 100) < price_usd Sample.gpu_small)%Q
  /\ Compat.recommend_parts_for_requirements Sample.floor_reqs [Sample.gpu_small] 0
     = [Sample.gpu_small].
Proof. split; [discriminate|]. split; reflexivity. Qed.

(** C6 (amended): for every budget >= 0 the filter drops a GPU part
    exactly when its VRAM is below the required VRAM (when that is
    positive), or below the tier floor (12, 8, 4 GB for high, mid, low),
    or, when the tier is not high and the budget is not 0, its price
    exceeds 80% of the budget. *)
Theorem gpu_filter_exact (reqs : Requirements) (parts : list part) (budget : Z) (p : part) :
  (0 <= budget)%Z ->
  category p = "GPU" ->
  (In p (Compat.recommend_parts_for_requirements reqs parts budget)
   <-> In p parts /\ ~ gpu_dropped reqs budget p).
Proof.
  intros _ Hc. unfold Compat.recommend_parts_for_requirements.
  rewrite filter_In. unfold Compat.kept. rewrite Hc. simpl.
  rewrite gpu_kept_iff. reflexivity.
Qed.

Lemma gpu_filter_exact_witness :
  In Sample.gpu_small
     (Compat.recommend_parts_for_requirements Sample.floor_reqs [Sample.gpu_small] 1000)
  <-> In Sample.gpu_small [Sample.gpu_small]
      /\ ~ gpu_dropped Sample.floor_reqs 1000 Sample.gpu_small.
Proof.
  apply (gpu_filter_exact Sample.floor_reqs [Sample.gpu_small] 1000 Sample.gpu_small);
    [lia | reflexivity].
Defined.

(** ** Sorting by price *)

Section SortByPrice.

Lemma price_le_trans (a b c : part) : price_le a b -> price_le b c -> price_le a c.
Proof. unfold price_le. apply Qle_trans. Qed.

Lemma insert_by_price_perm (x : part) (l : list part) :
  Permutation (x :: l) (insert_by_price x l).
Proof.
  induction l as [|y l IH]; simpl; [reflexivity|].
  destruct (Qle_bool (price_usd x) (price_usd y)); [reflexivity|].
  rewrite perm_swap. now apply perm_skip.
Qed.

Lemma sort_by_price_perm (l : list part) : Permutation l (sort_by_price l).
Proof.
  induction l as [|x l IH]; simpl; [reflexivity|].
  rewrite <- insert_by_price_perm. now apply perm_skip.
Qed.

Lemma sort_by_price_In (l : list part) (x : part) : In x (sort_by_price l) <-> In x l.
Proof.
  split; apply Permutation_in; [symmetry|]; apply sort_by_price_perm.
Qed.

Lemma insert_by_price_sorted (x : part) (l : list part) :
  StronglySorted price_le l -> StronglySorted price_le (insert_by_price x l).
Proof.
  induction 1 as [|y l Hs IH Hy]; simpl.
  - constructor; constructor.
  - destruct (Qle_bool (price_usd x) (price_usd y)) eqn:E.
    + apply Qle_bool_iff in E. constructor; [now constructor|].
      constructor; [exact E|].
      eapply List.Forall_impl; [|exact Hy]. intros z Hz. eapply price_le_trans; [exact E|exact Hz].
    + constructor; [exact IH|].
      eapply Permutation_Forall; [apply insert_by_price_perm|].
      constructor; [|exact Hy].
      unfold price_le. apply Qlt_le_weak, Qlt_bool_iff. unfold Qlt_bool. now rewrite E.
Qed.

Lemma sort_by_price_sorted (l : list part) : StronglySorted price_le (sort_by_price l).
Proof.
  induction l as [|x l IH]; simpl; [constructor|]. now apply insert_by_price_sorted.
Qed.

Lemma sort_by_price_nil (l : list part) : sort_by_price l = [] -> l = [].
Proof.
  intros H. apply Permutation_nil. rewrite <- H. symmetry. apply sort_by_price_perm.
Qed.

Lemma last_opt_one (a : part) : App.last_opt [a] = Some a.
Proof. reflexivity. Qed.

Lemma last_opt_cons (a b : part) (l : list part) :
  App.last_opt (a :: b :: l) = App.last_opt (b :: l).
Proof.
  unfold App.last_opt. simpl. destruct (rev l); reflexivity.
Qed.

Lemma last_opt_In (l : list part) (p : part) : App.last_opt l = Some p -> In p l.
Proof.
  induction l as [|a [|b l] IH]; intros H.
  - discriminate.
  - injection H as ->. now left.
  - rewrite last_opt_cons in H. right. now apply IH.
Qed.

Lemma last_opt_some (l : list part) : l <> [] -> exists p, App.last_opt l = Some p.
Proof.
  induction l as [|a [|b l] IH]; intros H.
  - contradiction.
  - now exists a.
  - rewrite last_opt_cons. apply IH. discriminate.
Qed.

Lemma last_opt_sorted_max (l : list part) (p : part) :
  StronglySorted price_le l -> App.last_opt l = Some p ->
  forall q, In q l -> price_le q p.
Proof.
  induction 1 as [|a l Hs IH Ha]; intros Hl q Hq; [contradiction|].
  destruct l as [|b l].
  - injection Hl as <-. destruct Hq as [->|[]]. unfold price_le. apply Qle_refl.
  - rewrite last_opt_cons in Hl. destruct Hq as [->|Hq].
    + rewrite List.Forall_forall in Ha. apply Ha. now apply last_opt_In.
    + now apply IH.
Qed.

Lemma first_opt_sorted_min (l : list part) (p : part) :
  StronglySorted price_le l -> App.first_opt l = Some p ->
  forall q, In q l -> price_le p q.
Proof.
  intros Hs Hl q Hq. destruct l as [|a l]; [discriminate|].
  injection Hl as <-. inversion Hs as [|? ? _ Ha]; subst.
  destruct Hq as [->|Hq]; [unfold price_le; apply Qle_refl|].
  rewrite List.Forall_forall in Ha. now apply Ha.
Qed.

Lemma third_or_last (l : list part) :
  nth_error l (Nat.min (List.length l - 1) 2) =
  if (3 <=? List.length l)%nat then nth_error l 2 else App.last_opt l.
Proof.
  destruct l as [|a [|b [|c l]]]; try reflexivity.
  replace (Nat.min (List.length (a :: b :: c :: l) - 1) 2) with 2%nat by (simpl; lia).
  reflexivity.
Qed.

End SortByPrice.

(** ** PSU selection *)

Lemma psu_need_required (gpu : option pdict) : App.psu_need gpu = required_wattage gpu.
Proof. destruct gpu as [[|g]|]; reflexivity. Qed.

Lemma psu_pool_nonempty (need : Z) (psus : list part) : psus <> [] -> psu_pool need psus <> [].
Proof.
  unfold psu_pool. intros H. destruct (List.filter _ psus); [exact H|discriminate].
Qed.

(** C8: with no PSU in the pool nothing is picked.  Otherwise the required
    wattage is the GPU's declared wattage, or 650 W when it is absent; the
    candidates are the PSUs reaching it, or all PSUs when none does; and
    over the candidates in ascending price order the pick is the last
    (most expensive) one under prefer-quiet, and else the third one, or
    the last one when there are fewer than three. *)
Theorem psu_selection (gpu : option pdict) (pool : list part) (quiet : bool) :
  let psus := App.parts_by_category pool "PSU" in
  let candidates := psu_pool (required_wattage gpu) psus in
  (psus = [] -> App.pick_psu_for_gpu gpu pool quiet = None)
  /\ (psus <> [] ->
      exists sorted picked,
        Permutation candidates sorted
        /\ StronglySorted price_le sorted
        /\ App.pick_psu_for_gpu gpu pool quiet = Some picked
        /\ Some picked =
             (if quiet then App.last_opt sorted
              else if (3 <=? List.length sorted)%nat then nth_error sorted 2
                   else App.last_opt sorted)
        /\ In picked candidates
        /\ (quiet = true -> forall q, In q candidates -> price_le q picked)).
Proof.
  intros psus candidates. split.
  - intros H. unfold App.pick_psu_for_gpu. fold psus. now rewrite H.
  - intros Hne.
    assert (Hc : candidates <> []) by (now apply psu_pool_nonempty).
    set (sorted := sort_by_price candidates).
    assert (Hperm : Permutation candidates sorted) by apply sort_by_price_perm.
    assert (Hs : StronglySorted price_le sorted) by apply sort_by_price_sorted.
    assert (Hsn : sorted <> []).
    { intros E. apply Hc. now apply sort_by_price_nil. }
    assert (Hpick : App.pick_psu_for_gpu gpu pool quiet =
                    if quiet then App.last_opt sorted
                    else if (3 <=? List.length sorted)%nat then nth_error sorted 2
                         else App.last_opt sorted).
    { unfold App.pick_psu_for_gpu. fold psus. destruct psus as [|x xs] eqn:E; [contradiction|].
      rewrite psu_need_required. change (App.psu_candidates ?n ?l) with (psu_pool n l).
      fold candidates. fold sorted. rewrite third_or_last. reflexivity. }
    destruct (last_opt_some sorted Hsn) as [pl Hpl].
    assert (Hex : exists picked, App.pick_psu_for_gpu gpu pool quiet = Some picked).
    { rewrite Hpick. destruct quiet; [eauto|].
      destruct (Nat.leb_spec 3 (List.length sorted)) as [H3|H3]; [|eauto].
      destruct (nth_error sorted 2) eqn:En; [eauto|].
      apply nth_error_None in En. lia. }
    destruct Hex as [picked Hp].
    exists sorted, picked. repeat split; try assumption.
    + rewrite <- Hp. exact Hpick.
    + apply (Permutation_in _ (Permutation_sym Hperm)).
      rewrite Hpick in Hp. destruct quiet; [now apply last_opt_In|].
      destruct (3 <=? List.length sorted)%nat;
        [eapply nth_error_In; exact Hp | now apply last_opt_In].
    + intros -> q Hq. rewrite Hpick in Hp.
      apply (last_opt_sorted_max sorted picked Hs Hp).
      now apply (Permutation_in _ Hperm).
Qed.

Lemma psu_selection_witness :
  App.pick_psu_for_gpu None Sample.psu_catalog false = Some Sample.psu_850
  /\ App.pick_psu_for_gpu None Sample.psu_catalog true = Some Sample.psu_1000.
Proof.
  split.
  - destruct (psu_selection None Sample.psu_catalog false) as [_ H].
    destruct H as (sorted & picked & _ & _ & Hp & _); [discriminate|].
    rewrite Hp. vm_compute in Hp. injection Hp as <-. reflexivity.
  - destruct (psu_selection None Sample.psu_catalog true) as [_ H].
    destruct H as (sorted & picked & _ & _ & Hp & _); [discriminate|].
    rewrite Hp. vm_compute in Hp. injection Hp as <-. reflexivity.
Defined.

(** ** Build slots *)

Lemma Category_eqb_eq (a b : Category) : Category_eqb a b = true <-> a = b.
Proof. destruct a, b; simpl; split; intros H; try reflexivity; discriminate. Qed.

Lemma Category_eqb_refl (a : Category) : Category_eqb a a = true.
Proof. now apply Category_eqb_eq. Qed.

Lemma Category_eqb_neq (a b : Category) : a <> b -> Category_eqb a b = false.
Proof.
  intros H. destruct (Category_eqb a b) eqn:E; [|reflexivity].
  apply Category_eqb_eq in E. contradiction.
Qed.

Lemma set_slot_same (b : Build) (c : Category) (v : option pdict) : set_slot b c v c = v.
Proof. unfold set_slot. now rewrite Category_eqb_refl. Qed.

Lemma set_slot_other (b : Build) (c c' : Category) (v : option pdict) :
  c <> c' -> set_slot b c v c' = b c'.
Proof. intros H. unfold set_slot. now rewrite Category_eqb_neq. Qed.

Lemma in_owned_true (owned : App.Owned) (c : Category) :
  App.in_owned owned c = true <-> exists d, owned c = Some d.
Proof.
  unfold App.in_owned. destruct (owned c) as [d|]; split; intros H.
  - now exists d.
  - reflexivity.
  - discriminate.
  - destruct H as [d H]. discriminate.
Qed.

Lemma all_categories (c : Category) : In c App.categories.
Proof. destruct c; simpl; tauto. Qed.


Lemma locked_slot (owned : App.Owned) (c : Category) :
  App.locked owned c = if App.in_owned owned c then owned c else None.
Proof.
  unfold App.locked, App.categories. simpl fold_left. unfold set_slot.
  destruct c; simpl;
    repeat match goal with
           | |- context [if App.in_owned owned ?x then _ else _] =>
               destruct (App.in_owned owned x); simpl
           end; reflexivity.
Qed.

Lemma fill_frame (owned : App.Owned) (x c : Category) ch (b : Build) :
  App.in_owned owned c = true -> App.fill owned x ch b c = b c.
Proof.
  intros H. unfold App.fill. destruct (App.in_owned owned x) eqn:E; [reflexivity|].
  apply set_slot_other. intros ->. congruence.
Qed.

Lemma fill_other (owned : App.Owned) (x c : Category) ch (b : Build) :
  x <> c -> App.fill owned x ch b c = b c.
Proof.
  intros H. unfold App.fill. destruct (App.in_owned owned x); [reflexivity|].
  now apply set_slot_other.
Qed.

Lemma fill_at (owned : App.Owned) (x : Category) ch (b : Build) :
  App.in_owned owned x = false -> App.fill owned x ch b x = App.as_slot (ch b).
Proof. intros H. unfold App.fill. rewrite H. apply set_slot_same. Qed.

Lemma select_owned reqs rgb quiet PARTS budget owned level (c : Category) :
  App.in_owned owned c = true ->
  App.select reqs rgb quiet PARTS budget owned level c = owned c.
Proof.
  intros H. unfold App.select. cbv zeta.
  rewrite !fill_frame by exact H. rewrite locked_slot. now rewrite H.
Qed.

Lemma ensure_step_some (PARTS : list part) (b : Build) (x c : Category) (d : pdict) :
  b c = Some d -> App.ensure_step PARTS b x c = Some d.
Proof.
  intros H. unfold App.ensure_step. destruct (b x) eqn:E; [exact H|].
  rewrite set_slot_other; [exact H|]. intros ->. congruence.
Qed.

Lemma ensure_fold_some (PARTS : list part) (l : list Category) (b : Build)
    (c : Category) (d : pdict) :
  b c = Some d -> fold_left (App.ensure_step PARTS) l b c = Some d.
Proof.
  revert b. induction l as [|x l IH]; intros b H; simpl; [exact H|].
  apply IH. now apply ensure_step_some.
Qed.

Lemma ensure_some (PARTS : list part) (b : Build) (c : Category) (d : pdict) :
  b c = Some d -> App.ensure PARTS b c = Some d.
Proof. apply ensure_fold_some. Qed.

Lemma ensure_fold_none (PARTS : list part) (l : list Category) (b : Build) (c : Category) :
  b c = None -> In c l -> fold_left (App.ensure_step PARTS) l b c = cheapest_or_empty PARTS c.
Proof.
  revert b. induction l as [|x l IH]; intros b H Hin; [contradiction|]. simpl.
  destruct (Category_eqb x c) eqn:E.
  - apply Category_eqb_eq in E. subst x.
    assert (Hs : App.ensure_step PARTS b c c = cheapest_or_empty PARTS c).
    { unfold App.ensure_step. rewrite H. now rewrite set_slot_same. }
    unfold cheapest_or_empty in *.
    destruct (sort_by_price (App.parts_by_category PARTS (cat_name c))) as [|p ps];
      now apply ensure_fold_some.
  - destruct Hin as [->|Hin]; [now rewrite Category_eqb_refl in E|].
    apply IH; [|exact Hin].
    unfold App.ensure_step. destruct (b x); [exact H|].
    rewrite set_slot_other; [exact H|]. intros ->. now rewrite Category_eqb_refl in E.
Qed.

Lemma ensure_none (PARTS : list part) (b : Build) (c : Category) :
  b c = None -> App.ensure PARTS b c = cheapest_or_empty PARTS c.
Proof. intros H. apply ensure_fold_none; [exact H | apply all_categories]. Qed.

(** ** The purchase total and the downgrade pass *)


Lemma total_missing_purchase (owned : App.Owned) (b : Build) :
  (App.total_missing owned b == purchase_total owned b)%Q.
Proof.
  unfold App.total_missing, purchase_total, App.present, App.categories. simpl.
  repeat match goal with
         | |- context [App.in_owned owned ?x] => destruct (App.in_owned owned x); simpl
         end; ring.
Qed.

Lemma downgrade_owned PARTS budget owned (cats : list Category) (b : Build) (t : Q)
    (c : Category) :
  App.in_owned owned c = true ->
  fst (App.downgrade PARTS budget owned cats b t) c = b c.
Proof.
  intros H. revert b t. induction cats as [|x cats IH]; intros b t; simpl; [reflexivity|].
  destruct (Qle_bool t (inject_Z budget)); [reflexivity|].
  destruct (App.in_owned owned x) eqn:E; [apply IH|].
  destruct (App.cheaper PARTS x _) as [|p ps]; [apply IH|].
  rewrite IH. apply set_slot_other. intros ->. congruence.
Qed.

Lemma downgrade_total PARTS budget owned (cats : list Category) (b : Build) (t : Q) :
  t = App.total_missing owned b ->
  snd (App.downgrade PARTS budget owned cats b t)
  = App.total_missing owned (fst (App.downgrade PARTS budget owned cats b t)).
Proof.
  revert b t. induction cats as [|x cats IH]; intros b t H; simpl; [exact H|].
  destruct (Qle_bool t (inject_Z budget)); [exact H|].
  destruct (App.in_owned owned x); [now apply IH|].
  destruct (App.cheaper PARTS x _) as [|p ps]; [now apply IH|].
  now apply IH.
Qed.

Lemma reconcile_owned PARTS budget owned (b : Build) (t : Q) (c : Category) :
  App.in_owned owned c = true ->
  fst (App.reconcile PARTS budget owned b t) c = b c.
Proof.
  intros H. unfold App.reconcile. destruct (Qlt_bool (inject_Z budget) t); [|reflexivity].
  now apply downgrade_owned.
Qed.

Lemma reconcile_total PARTS budget owned (b : Build) (t : Q) :
  t = App.total_missing owned b ->
  snd (App.reconcile PARTS budget owned b t)
  = App.total_missing owned (fst (App.reconcile PARTS budget owned b t)).
Proof.
  intros H. unfold App.reconcile. destruct (Qlt_bool (inject_Z budget) t); [|exact H].
  now apply downgrade_total.
Qed.

(** ** Owned parts *)

Lemma owned_slot_kept reqs rgb quiet PARTS budget (owned : App.Owned) level
    (c : Category) (d : pdict) :
  owned c = Some d ->
  fst (App.build_always reqs rgb quiet PARTS budget owned level) c = Some d.
Proof.
  intros Hc.
  assert (Ho : App.in_owned owned c = true) by (apply in_owned_true; eauto).
  unfold App.build_always. rewrite reconcile_owned by exact Ho.
  apply ensure_some. rewrite select_owned by exact Ho. exact Hc.
Qed.

(** C2: every owned category keeps exactly the owned part supplied for it,
    and the reported total is the sum of the prices of the categories that
    are not owned. *)
Theorem owned_parts_locked reqs rgb quiet PARTS budget (owned : App.Owned) level :
  let r := App.build_always reqs rgb quiet PARTS budget owned level in
  (forall c d, owned c = Some d -> fst r c = Some d)
  /\ snd r = App.total_missing owned (fst r)
  /\ (snd r == purchase_total owned (fst r))%Q.
Proof.
  intros r.
  assert (Ht : snd r = App.total_missing owned (fst r)).
  { subst r. unfold App.build_always. now apply reconcile_total. }
  split; [|split; [exact Ht|]].
  - intros c d Hc. subst r. now apply owned_slot_kept.
  - rewrite Ht. apply total_missing_purchase.
Qed.

Lemma owned_parts_locked_witness :
  fst (App.build_always Sample.floor_reqs false false Sample.small_catalog 1000
         Sample.owns_gpu both) GPU
  = Some (PartDict Sample.rtx3090).
Proof.
  apply (owned_parts_locked Sample.floor_reqs false false Sample.small_catalog 1000
           Sample.owns_gpu both).
  reflexivity.
Defined.

(** ** The capped picker *)

Section BestWithin.

Variable cap : Q.
Variable score_fn : part -> Q.

Lemma best_step_keeps (seen : list part) (st : option part * Q) (it : part) :
  best_so_far cap score_fn seen st ->
  best_so_far cap score_fn (seen ++ [it]) (App.best_step cap score_fn st it).
Proof.
  intros H. unfold App.best_step.
  destruct (Qle_bool (price_usd it) 0) eqn:E0.
  { apply Qle_bool_iff in E0. unfold best_so_far in *.
    destruct (fst st) as [x|].
    - destruct H as (H1 & H2 & H3 & H4 & H5). repeat split; try assumption; try apply H3.
      + apply in_or_app. now left.
      + intros y Hy Hel. apply in_app_or in Hy as [Hy|[<-|[]]]; [now apply H5|].
        destruct Hel as [Hp _]. exfalso. exact (Qlt_not_le _ _ Hp E0).
    - destruct H as (H1 & H2). split; [exact H1|].
      intros y Hy Hel. apply in_app_or in Hy as [Hy|[<-|[]]]; [now apply H2|].
      destruct Hel as [Hp _]. exfalso. exact (Qlt_not_le _ _ Hp E0). }
  destruct (Qlt_bool cap (price_usd it)) eqn:E1.
  { apply Qlt_bool_iff in E1. unfold best_so_far in *.
    destruct (fst st) as [x|].
    - destruct H as (H1 & H2 & H3 & H4 & H5). repeat split; try assumption; try apply H3.
      + apply in_or_app. now left.
      + intros y Hy Hel. apply in_app_or in Hy as [Hy|[<-|[]]]; [now apply H5|].
        destruct Hel as [_ Hp]. exfalso. exact (Qlt_not_le _ _ E1 Hp).
    - destruct H as (H1 & H2). split; [exact H1|].
      intros y Hy Hel. apply in_app_or in Hy as [Hy|[<-|[]]]; [now apply H2|].
      destruct Hel as [_ Hp]. exfalso. exact (Qlt_not_le _ _ E1 Hp). }
  assert (Hit : eligible cap it).
  { split.
    - apply Qlt_bool_iff. unfold Qlt_bool. now rewrite E0.
    - now apply Qlt_bool_false_iff. }
  cbv zeta. destruct (Qlt_bool (snd st) (score_fn it)) eqn:E2.
  - apply Qlt_bool_iff in E2. unfold best_so_far in *. simpl.
    split; [reflexivity|]. split; [apply in_or_app; right; now left|].
    split; [exact Hit|].
    destruct (fst st) as [x|].
    + destruct H as (H1 & H2 & H3 & H4 & H5). rewrite H1 in E2. split.
      * eapply Qlt_trans; eassumption.
      * intros y Hy Hel. apply in_app_or in Hy as [Hy|[<-|[]]]; [|apply Qle_refl].
        eapply Qle_trans; [now apply H5|]. now apply Qlt_le_weak.
    + destruct H as (H1 & H2). rewrite H1 in E2. split; [exact E2|].
      intros y Hy Hel. apply in_app_or in Hy as [Hy|[<-|[]]]; [|apply Qle_refl].
      eapply Qle_trans; [now apply H2|]. now apply Qlt_le_weak.
  - apply Qlt_bool_false_iff in E2. unfold best_so_far in *.
    destruct (fst st) as [x|].
    + destruct H as (H1 & H2 & H3 & H4 & H5). rewrite H1 in E2.
      repeat split; try assumption; try apply H3.
      * apply in_or_app. now left.
      * intros y Hy Hel. apply in_app_or in Hy as [Hy|[<-|[]]]; [now apply H5|exact E2].
    + destruct H as (H1 & H2). rewrite H1 in E2. split; [exact H1|].
      intros y Hy Hel. apply in_app_or in Hy as [Hy|[<-|[]]]; [now apply H2|exact E2].
Qed.

Lemma best_fold_keeps (items seen : list part) (st : option part * Q) :
  best_so_far cap score_fn seen st ->
  best_so_far cap score_fn (seen ++ items) (fold_left (App.best_step cap score_fn) items st).
Proof.
  revert seen st. induction items as [|it items IH]; intros seen st H; simpl.
  - now rewrite app_nil_r.
  - replace (seen ++ it :: items)%list with ((seen ++ [it]) ++ items)%list
      by (now rewrite <- app_assoc).
    apply IH. now apply best_step_keeps.
Qed.

Lemma pick_best_within_state (items : list part) :
  best_so_far cap score_fn items
    (fold_left (App.best_step cap score_fn) items (None, inject_Z (- 10 ^ 18))).
Proof.
  apply (best_fold_keeps items []). simpl. split; [reflexivity|]. intros y [].
Qed.

Lemma pick_best_within_some (items : list part) (x : part) :
  App.pick_best_within items cap score_fn = Some x ->
  In x items /\ eligible cap x /\ (inject_Z (- 10 ^ 18) < score_fn x)%Q
  /\ forall y, In y items -> eligible cap y -> (score_fn y <= score_fn x)%Q.
Proof.
  intros H. pose proof (pick_best_within_state items) as I.
  unfold App.pick_best_within in H. unfold best_so_far in I. rewrite H in I. tauto.
Qed.

Lemma pick_best_within_none (items : list part) :
  App.pick_best_within items cap score_fn = None ->
  forall y, In y items -> eligible cap y -> (score_fn y <= inject_Z (- 10 ^ 18))%Q.
Proof.
  intros H. pose proof (pick_best_within_state items) as I.
  unfold App.pick_best_within in H. unfold best_so_far in I. rewrite H in I. tauto.
Qed.

End BestWithin.

(** ** Every pick comes from its category *)

Lemma parts_by_category_In (l : list part) (s : string) (p : part) :
  In p (App.parts_by_category l s) <-> In p l /\ Py.strip (category p) = s.
Proof.
  unfold App.parts_by_category. rewrite filter_In.
  split; intros [H1 H2]; split; try assumption.
  - now apply String.eqb_eq.
  - now apply String.eqb_eq.
Qed.

Lemma parts_by_category_incl (l l' : list part) (s : string) (p : part) :
  (forall q, In q l -> In q l') ->
  In p (App.parts_by_category l s) -> In p (App.parts_by_category l' s).
Proof. intros H. rewrite !parts_by_category_In. intros [H1 H2]. auto. Qed.

Lemma filtered_parts_incl reqs PARTS budget (p : part) :
  In p (App.filtered_parts reqs PARTS budget) -> In p PARTS.
Proof.
  unfold App.filtered_parts, Compat.recommend_parts_for_requirements.
  destruct (List.filter _ PARTS) as [|a l] eqn:E; [trivial|].
  rewrite <- E. intros H. now apply filter_In in H.
Qed.

Lemma first_opt_In (l : list part) (p : part) : App.first_opt l = Some p -> In p l.
Proof. destruct l; simpl; intros H; [discriminate|]. injection H as ->. now left. Qed.

Lemma first_sorted_In (l : list part) (p : part) :
  App.first_opt (sort_by_price l) = Some p -> In p l.
Proof. intros H. apply sort_by_price_In. now apply first_opt_In. Qed.

Lemma last_sorted_In (l : list part) (p : part) :
  App.last_opt (sort_by_price l) = Some p -> In p l.
Proof. intros H. apply sort_by_price_In. now apply last_opt_In. Qed.

Lemma or_else_some {A} (a b : option A) (x : A) :
  or_else a b = Some x -> a = Some x \/ b = Some x.
Proof. destruct a; simpl; auto. Qed.

Lemma pick_best_within_In (items : list part) cap f (x : part) :
  App.pick_best_within items cap f = Some x -> In x items.
Proof. intros H. now apply pick_best_within_some in H. Qed.

Lemma or_all_In (l all : list part) (p : part) :
  (forall q, In q l -> In q all) ->
  In p (match l with [] => all | x :: xs => x :: xs end) -> In p all.
Proof. intros H. destruct l; auto. Qed.

Lemma pick_mobo_for_cpu_In cpu (pool : list part) pref (m : part) :
  App.pick_mobo_for_cpu cpu pool pref = Some m ->
  In m (App.parts_by_category pool "Motherboard").
Proof.
  unfold App.pick_mobo_for_cpu. intros H. apply last_sorted_In in H.
  destruct (negb _); [apply filter_In in H as [H _]|]; apply filter_In in H as [H _]; exact H.
Qed.

Lemma pick_ram_for_mobo_In mobo (pool : list part) need rgb cap (r : part) :
  App.pick_ram_for_mobo mobo pool need rgb cap = Some r ->
  In r (App.parts_by_category pool "RAM").
Proof.
  unfold App.pick_ram_for_mobo. intros H.
  apply or_else_some in H as [H|H];
    [apply pick_best_within_In in H | apply first_opt_In in H];
    apply (proj1 (sort_by_price_In _ _)) in H; do 2 (apply filter_In in H as [H _]); exact H.
Qed.

Lemma pick_case_for_gpu_In gpu (pool : list part) (c : part) :
  App.pick_case_for_gpu gpu pool = Some c ->
  In c (App.parts_by_category pool "Case").
Proof.
  unfold App.pick_case_for_gpu.
  destruct (App.parts_by_category pool "Case") as [|x xs] eqn:E; [discriminate|].
  assert (Hfit : forall g, App.last_opt (sort_by_price
            match List.filter (fun c0 => Qle_bool (length_mm g) (max_gpu_length_mm c0)) (x :: xs) with
            | [] => x :: xs
            | _ :: _ => List.filter (fun c0 => Qle_bool (length_mm g) (max_gpu_length_mm c0)) (x :: xs)
            end) = Some c -> In c (x :: xs)).
  { intros g H. apply last_sorted_In in H.
    destruct (List.filter _ (x :: xs)) as [|y ys] eqn:F; [exact H|].
    rewrite <- F in H. now apply filter_In in H. }
  destruct gpu as [[|g]|]; try (intros H; now apply last_sorted_In in H).
  destruct (Qeq_bool (length_mm g) 0); [intros H; now apply last_sorted_In in H|].
  apply Hfit.
Qed.

Lemma psu_candidates_In need (psus : list part) (p : part) :
  In p (App.psu_candidates need psus) -> In p psus.
Proof.
  unfold App.psu_candidates. destruct (List.filter _ psus) as [|y ys] eqn:F; [trivial|].
  rewrite <- F. intros H. now apply filter_In in H.
Qed.

Lemma pick_psu_for_gpu_In gpu (pool : list part) quiet (p : part) :
  App.pick_psu_for_gpu gpu pool quiet = Some p ->
  In p (App.parts_by_category pool "PSU").
Proof.
  unfold App.pick_psu_for_gpu.
  destruct (App.parts_by_category pool "PSU") as [|x xs] eqn:E; [discriminate|].
  intros H. apply (psu_candidates_In (App.psu_need gpu)), sort_by_price_In.
  destruct quiet; [now apply last_opt_In | eapply nth_error_In; exact H].
Qed.

Section Choosers.

Variables (reqs : Requirements) (PARTS : list part) (budget : Z).
Variables (owned : App.Owned) (level : Level) (build : Build).

Lemma from_filtered (s : string) (p : part) :
  In p (App.parts_by_category (App.filtered_parts reqs PARTS budget) s) -> In p (App.parts_by_category PARTS s).
Proof. apply parts_by_category_incl. apply filtered_parts_incl. Qed.

Lemma choose_cpu_In (p : part) :
  App.choose_cpu (App.filtered_parts reqs PARTS budget) budget owned level build = Some p -> In p (in_category PARTS CPU).
Proof.
  unfold App.choose_cpu. intros H. apply from_filtered.
  apply or_else_some in H as [H|H];
    [now apply pick_best_within_In in H | now apply first_sorted_In in H].
Qed.

Lemma choose_mobo_In (p : part) :
  App.choose_mobo (App.filtered_parts reqs PARTS budget) budget build = Some p -> In p (in_category PARTS Motherboard).
Proof.
  unfold App.choose_mobo. intros H. apply from_filtered.
  destruct (or_else _ _) as [m|] eqn:E.
  - injection H as <-. apply or_else_some in E as [E|E]; now apply pick_mobo_for_cpu_In in E.
  - now apply first_sorted_In in H.
Qed.

Lemma choose_ram_In rgb (p : part) :
  App.choose_ram reqs (App.filtered_parts reqs PARTS budget) budget owned level rgb build = Some p ->
  In p (in_category PARTS RAM).
Proof.
  unfold App.choose_ram. intros H. apply from_filtered.
  destruct (App.pick_ram_for_mobo _ _ _ _ _) as [r|] eqn:E.
  - injection H as <-. now apply pick_ram_for_mobo_In in E.
  - now apply first_sorted_In in H.
Qed.

Lemma choose_gpu_In (p : part) :
  App.choose_gpu PARTS (App.filtered_parts reqs PARTS budget) budget owned level build = Some p ->
  In p (in_category PARTS GPU).
Proof.
  unfold App.choose_gpu. intros H.
  destruct (or_else _ _) as [g|] eqn:E.
  - injection H as <-. apply from_filtered.
    apply or_else_some in E as [E|E];
      [now apply pick_best_within_In in E | now apply first_sorted_In in E].
  - now apply first_sorted_In in H.
Qed.

Lemma choose_storage_In (p : part) :
  App.choose_storage reqs (App.filtered_parts reqs PARTS budget) budget owned level build = Some p ->
  In p (in_category PARTS Storage).
Proof.
  unfold App.choose_storage. intros H. apply from_filtered.
  apply or_else_some in H as [H|H];
    [apply pick_best_within_In in H | apply first_sorted_In in H];
    (revert H; apply or_all_In; intros q Hq; now apply filter_In in Hq).
Qed.

Lemma choose_case_In (p : part) :
  App.choose_case (App.filtered_parts reqs PARTS budget) build = Some p -> In p (in_category PARTS Case).
Proof. intros H. apply from_filtered. now apply pick_case_for_gpu_In in H. Qed.

Lemma choose_psu_In quiet (p : part) :
  App.choose_psu (App.filtered_parts reqs PARTS budget) quiet build = Some p -> In p (in_category PARTS PSU).
Proof. intros H. apply from_filtered. now apply pick_psu_for_gpu_In in H. Qed.

End Choosers.

(** ** Completeness of the build *)

Lemma select_slot reqs rgb quiet PARTS budget owned level (c : Category) :
  App.in_owned owned c = false ->
  App.select reqs rgb quiet PARTS budget owned level c = None
  \/ exists p, App.select reqs rgb quiet PARTS budget owned level c = Some (PartDict p)
               /\ In p (in_category PARTS c).
Proof.
  intros H. unfold App.select. cbv zeta.
  destruct c; rewrite ?fill_other by discriminate; rewrite fill_at by exact H;
    match goal with
    | |- App.as_slot ?o = None \/ _ => destruct o as [p|] eqn:E; [right|now left]
    end; exists p; (split; [reflexivity|]).
  - eapply choose_gpu_In; exact E.
  - eapply choose_cpu_In; exact E.
  - eapply choose_mobo_In; exact E.
  - eapply choose_ram_In; exact E.
  - eapply choose_storage_In; exact E.
  - eapply choose_psu_In; exact E.
  - eapply choose_case_In; exact E.
Qed.

Lemma cheapest_or_empty_cases (PARTS : list part) (c : Category) :
  (in_category PARTS c = [] /\ cheapest_or_empty PARTS c = Some EmptyDict)
  \/ exists p, cheapest_or_empty PARTS c = Some (PartDict p) /\ In p (in_category PARTS c).
Proof.
  unfold cheapest_or_empty. fold (in_category PARTS c).
  destruct (sort_by_price (in_category PARTS c)) as [|p ps] eqn:E.
  - left. split; [now apply sort_by_price_nil|reflexivity].
  - right. exists p. split; [reflexivity|]. apply sort_by_price_In. rewrite E. now left.
Qed.

Lemma downgrade_slot PARTS budget owned (cats : list Category) (b : Build) (t : Q)
    (c : Category) :
  fst (App.downgrade PARTS budget owned cats b t) c = b c
  \/ exists p, fst (App.downgrade PARTS budget owned cats b t) c = Some (PartDict p)
               /\ In p (in_category PARTS c).
Proof.
  revert b t. induction cats as [|x cats IH]; intros b t; simpl; [now left|].
  destruct (Qle_bool t (inject_Z budget)); [now left|].
  destruct (App.in_owned owned x); [apply IH|].
  destruct (App.cheaper PARTS x _) as [|p ps] eqn:E; [apply IH|].
  destruct (IH (set_slot b x (Some (PartDict p)))
               (App.total_missing owned (set_slot b x (Some (PartDict p))))) as [H|H];
    [|now right].
  rewrite H. destruct (Category_eqb x c) eqn:Exc.
  - apply Category_eqb_eq in Exc. subst x. right. exists p.
    split; [apply set_slot_same|].
    assert (Hp : In p (App.cheaper PARTS c (money (App.dict_or_empty (b c)))))
      by (rewrite E; now left).
    unfold App.cheaper in Hp. apply (proj1 (sort_by_price_In _ _)) in Hp.
    now apply filter_In in Hp.
  - left. apply set_slot_other. intros ->. now rewrite Category_eqb_refl in Exc.
Qed.

Lemma reconcile_slot PARTS budget owned (b : Build) (t : Q) (c : Category) :
  fst (App.reconcile PARTS budget owned b t) c = b c
  \/ exists p, fst (App.reconcile PARTS budget owned b t) c = Some (PartDict p)
               /\ In p (in_category PARTS c).
Proof.
  unfold App.reconcile. destruct (Qlt_bool (inject_Z budget) t); [|now left].
  apply downgrade_slot.
Qed.

(** C1, as written, fails for an owned category: the made-up owned GPU
    stays in the build although the catalog has no GPU at all. *)
Lemma owned_slot_is_not_placeholder :
  Sample.small_catalog <> []
  /\ in_category Sample.small_catalog GPU = []
  /\ fst (App.build_always Sample.floor_reqs false false Sample.small_catalog 1000
            Sample.owns_gpu both) GPU
     = Some (PartDict Sample.rtx3090)
  /\ Some (PartDict Sample.rtx3090) <> Some EmptyDict.
Proof. repeat split; try reflexivity; discriminate. Qed.

Lemma build_slot_cases reqs rgb quiet (PARTS : list part) budget
    (owned : App.Owned) level (c : Category) :
  let slot := fst (App.build_always reqs rgb quiet PARTS budget owned level) c in
  slot <> None
  /\ (App.in_owned owned c = true -> slot = owned c)
  /\ (App.in_owned owned c = false -> in_category PARTS c = [] -> slot = Some EmptyDict)
  /\ (App.in_owned owned c = false -> in_category PARTS c <> [] ->
      exists p, slot = Some (PartDict p) /\ In p (in_category PARTS c)).
Proof.
  intros slot.
  destruct (App.in_owned owned c) eqn:Ho.
  - assert (Hs : slot = owned c).
    { apply in_owned_true in Ho as Hd. destruct Hd as [d Hd]. rewrite Hd.
      now apply owned_slot_kept. }
    split; [|split; [|split]]; try discriminate.
    + rewrite Hs. apply in_owned_true in Ho as [d ->]. discriminate.
    + intros _. exact Hs.
  - assert (Hcases : (in_category PARTS c = [] /\ slot = Some EmptyDict)
                     \/ exists p, slot = Some (PartDict p) /\ In p (in_category PARTS c)).
    { subst slot. unfold App.build_always.
      set (sel := App.select reqs rgb quiet PARTS budget owned level).
      assert (He : (in_category PARTS c = [] /\ App.ensure PARTS sel c = Some EmptyDict)
                   \/ exists p, App.ensure PARTS sel c = Some (PartDict p)
                                /\ In p (in_category PARTS c)).
      { destruct (select_slot reqs rgb quiet PARTS budget owned level c Ho) as [Hn|(p & Hp & Hin)];
          fold sel in Hn || fold sel in Hp.
        - rewrite (ensure_none PARTS sel c Hn). apply cheapest_or_empty_cases.
        - right. exists p. split; [now apply ensure_some|exact Hin]. }
      destruct (reconcile_slot PARTS budget owned (App.ensure PARTS sel)
                  (App.total_missing owned (App.ensure PARTS sel)) c) as [Hr|Hr];
        [rewrite Hr; exact He | now right]. }
    destruct Hcases as [[He Hs]|(p & Hs & Hin)].
    + split; [|split; [|split]]; try discriminate.
      * rewrite Hs. discriminate.
      * intros _ _. exact Hs.
      * intros _ Hne. contradiction.
    + split; [|split; [|split]]; try discriminate.
      * rewrite Hs. discriminate.
      * intros _ He. rewrite He in Hin. contradiction.
      * intros _ _. now exists p.
Qed.


(** C1 (amended): for every non-empty catalog, budget >= 0, owned set and
    level, the build has a non-null entry in each of the seven categories;
    for a category that is not owned the entry is a catalog part of that
    category when the catalog has one, and the empty placeholder when it
    has none; an owned category holds the owned part. *)
Theorem build_is_complete reqs rgb quiet (PARTS : list part) budget
    (owned : App.Owned) level :
  PARTS <> [] -> (0 <= budget)%Z ->
  forall c,
    let slot := fst (App.build_always reqs rgb quiet PARTS budget owned level) c in
    slot <> None
    /\ (App.in_owned owned c = true -> slot = owned c)
    /\ (App.in_owned owned c = false -> in_category PARTS c = [] -> slot = Some EmptyDict)
    /\ (App.in_owned owned c = false -> in_category PARTS c <> [] ->
        exists p, slot = Some (PartDict p) /\ In p (in_category PARTS c)).
Proof. intros _ _ c. apply build_slot_cases. Qed.

Lemma build_is_complete_witness :
  fst (App.build_always Sample.floor_reqs false false Sample.small_catalog 1000
         Sample.nothing_owned both) GPU = Some EmptyDict.
Proof.
  destruct (build_is_complete Sample.floor_reqs false false Sample.small_catalog 1000
              Sample.nothing_owned both ltac:(discriminate) ltac:(lia) GPU)
    as (_ & _ & H & _).
  apply H; reflexivity.
Defined.

(** ** The downgrade pass in detail *)

Section Downgrade.

Variables (PARTS : list part) (budget : Z) (owned : App.Owned).
















End Downgrade.








(** ** Caps and budget *)

Lemma weight_sum_pos (owned : App.Owned) : (0 < App.weight_sum owned)%Q.
Proof.
  unfold App.weight_sum, App.present, App.categories. simpl.
  repeat match goal with
         | |- context [App.in_owned owned ?x] => destruct (App.in_owned owned x); simpl
         end; reflexivity.
Qed.

Lemma weights_nonneg (c : Category) : (0 <= App.weights c)%Q.
Proof. destruct c; discriminate. Qed.

Lemma cap_factor_nonneg (level : Level) (c : Category) : (0 <= App.cap_factor level c)%Q.
Proof. destruct c, level; discriminate. Qed.

Lemma share_nonneg (owned : App.Owned) (c : Category) :
  (0 <= App.weights c / App.weight_sum owned)%Q.
Proof.
  unfold Qdiv. apply Qmult_le_0_compat; [apply weights_nonneg|].
  apply Qinv_le_0_compat, Qlt_le_weak, weight_sum_pos.
Qed.

Lemma inject_Z_le (a b : Z) : (a <= b)%Z -> (inject_Z a <= inject_Z b)%Q.
Proof. intros H. now rewrite <- Zle_Qle. Qed.

Lemma pymin_mono (a1 b1 a2 b2 : Q) :
  (a1 <= a2)%Q -> (b1 <= b2)%Q -> (pymin a1 b1 <= pymin a2 b2)%Q.
Proof.
  intros Ha Hb. unfold pymin.
  destruct (Qlt_bool b1 a1) eqn:E1; destruct (Qlt_bool b2 a2) eqn:E2;
    try apply Qlt_bool_iff in E1; try apply Qlt_bool_false_iff in E1;
    try apply Qlt_bool_iff in E2; try apply Qlt_bool_false_iff in E2.
  - exact Hb.
  - eapply Qle_trans; [apply Qlt_le_weak; exact E1|exact Ha].
  - eapply Qle_trans; [exact E1|exact Hb].
  - exact Ha.
Qed.

Lemma cap_of_mono (b1 b2 : Z) (owned : App.Owned) (level : Level) (c : Category) :
  (b1 <= b2)%Z ->
  (App.cap_of b1 owned level c <= App.cap_of b2 owned level c)%Q.
Proof.
  intros H. unfold App.cap_of, App.alloc. apply inject_Z_le in H.
  apply pymin_mono; [exact H|].
  apply Qmult_le_compat_r; [|apply cap_factor_nonneg].
  apply Qmult_le_compat_r; [exact H|apply share_nonneg].
Qed.

Lemma pick_best_within_mono (items : list part) (cap1 cap2 : Q) (f : part -> Q) (x : part) :
  (cap1 <= cap2)%Q ->
  App.pick_best_within items cap1 f = Some x ->
  exists y, App.pick_best_within items cap2 f = Some y /\ (f x <= f y)%Q.
Proof.
  intros Hc H. apply pick_best_within_some in H as (Hin & [Hp Hle] & Hs & _).
  assert (Hel : eligible cap2 x) by (split; [exact Hp|eapply Qle_trans; eassumption]).
  destruct (App.pick_best_within items cap2 f) as [y|] eqn:E.
  - exists y. split; [reflexivity|].
    apply pick_best_within_some in E as (_ & _ & _ & Hmax). now apply Hmax.
  - exfalso. apply (Qlt_not_le _ _ Hs).
    exact (pick_best_within_none cap2 f items E x Hin Hel).
Qed.

(** C4, as written, fails: on a catalog of two CPUs and two boards, raising
    the budget from 800 to 1000 switches the preferred board to the
    DDR5 one, the total passes the budget, and the downgrade pass replaces
    the CPU by the cheapest one, whose score is lower. *)
Lemma higher_budget_lower_cpu_score :
  let at_800 := App.build_always Sample.floor_reqs false false Sample.small_catalog 800
                  Sample.nothing_owned both in
  let at_1000 := App.build_always Sample.floor_reqs false false Sample.small_catalog 1000
                   Sample.nothing_owned both in
  (800 <= 1000)%Z
  /\ fst at_800 CPU = Some (PartDict Sample.cpu_am5_150)
  /\ fst at_1000 CPU = Some (PartDict Sample.cpu_am5_10)
  /\ (App.cpu_score Sample.cpu_am5_10 < App.cpu_score Sample.cpu_am5_150)%Q.
Proof. repeat split; try reflexivity. discriminate. Qed.

(** C4 (amended): for budgets 0 <= b1 <= b2 with the owned set and the
    level fixed, the selection cap of every category at b2 is at least its
    cap at b1, and on a fixed candidate list with a fixed score the capped
    pick at b2 exists and scores at least as high as the capped pick at
    b1, whenever the latter exists. *)
Theorem caps_monotone_in_budget (b1 b2 : Z) (owned : App.Owned) (level : Level)
    (c : Category) (items : list part) (score_fn : part -> Q) :
  (0 <= b1)%Z -> (b1 <= b2)%Z ->
  (App.cap_of b1 owned level c <= App.cap_of b2 owned level c)%Q
  /\ forall x,
       App.pick_best_within items (App.cap_of b1 owned level c) score_fn = Some x ->
       exists y,
         App.pick_best_within items (App.cap_of b2 owned level c) score_fn = Some y
         /\ (score_fn x <= score_fn y)%Q.
Proof.
  intros _ H. split; [now apply cap_of_mono|].
  intros x. apply pick_best_within_mono. now apply cap_of_mono.
Qed.

Lemma caps_monotone_in_budget_witness :
  exists y,
    App.pick_best_within Sample.small_catalog
      (App.cap_of 1000 Sample.nothing_owned both CPU) App.cpu_score = Some y
    /\ (App.cpu_score Sample.cpu_am5_10 <= App.cpu_score y)%Q.
Proof.
  destruct (caps_monotone_in_budget 100 1000 Sample.nothing_owned both CPU
              Sample.small_catalog App.cpu_score ltac:(lia) ltac:(lia)) as [_ H].
  apply H. reflexivity.
Defined.

(** ** Substrings, stripping and splitting *)

Section Substrings.

Lemma prefix_cons_inv (t c : ascii) (T h : string) :
  String.prefix (String t T) (String c h) = true -> t = c /\ String.prefix T h = true.
Proof. simpl. destruct (Ascii.ascii_dec t c); [auto|discriminate]. Qed.

Lemma prefix_cons (c : ascii) (T h : string) :
  String.prefix T h = true -> String.prefix (String c T) (String c h) = true.
Proof. intros H. simpl. destruct (Ascii.ascii_dec c c) as [_|n]; [exact H|now elim n]. Qed.

Lemma prefix_nil_l (h : string) : String.prefix "" h = true.
Proof. now destruct h. Qed.

Lemma prefix_nil_r (T : string) : String.prefix T "" = true -> T = "".
Proof. destruct T; [reflexivity|discriminate]. Qed.

Lemma prefix_app_r (T x b : string) :
  String.prefix T x = true -> String.prefix T (x ++ b) = true.
Proof.
  revert x. induction T as [|t T IH]; intros x H; [apply prefix_nil_l|].
  destruct x as [|c x]; [discriminate|].
  apply prefix_cons_inv in H as [-> H]. simpl append. apply prefix_cons. now apply IH.
Qed.

Lemma contains_cons (T : string) (c : ascii) (h : string) :
  Py.contains T h = true -> Py.contains T (String c h) = true.
Proof. intros H. simpl. rewrite H. apply orb_true_r. Qed.

Lemma contains_app_l (T x b : string) :
  Py.contains T x = true -> Py.contains T (x ++ b) = true.
Proof.
  induction x as [|c x IH]; intros H.
  - simpl in H. rewrite orb_false_r in H. apply prefix_nil_r in H. subst T.
    destruct b; reflexivity.
  - simpl in H. apply orb_true_iff in H as [H|H].
    + change (String c x ++ b) with (String c (x ++ b)).
      cbn [Py.contains]. apply orb_true_iff. left.
      now apply (prefix_app_r T (String c x) b).
    + apply (contains_cons T c (x ++ b)). now apply IH.
Qed.

Lemma contains_nil (T : string) : Py.contains T "" = true -> T = "".
Proof. simpl. rewrite orb_false_r. apply prefix_nil_r. Qed.

Lemma contains_self (T : string) : Py.contains T T = true.
Proof.
  destruct T as [|c T]; [reflexivity|]. cbn [Py.contains]. apply orb_true_iff. left.
  assert (H : forall s, String.prefix s s = true).
  { induction s as [|a s IH]; [reflexivity|now apply prefix_cons]. }
  apply H.
Qed.

Lemma lstrip_suffix (h : string) : exists a, h = a ++ Py.lstrip h.
Proof.
  induction h as [|c h [a IH]]; [now exists ""|]. simpl.
  destruct (Py.is_space c).
  - exists (String c a). change (String c h = String c (a ++ Py.lstrip h)). now f_equal.
  - now exists "".
Qed.

Lemma append_nil_r (x : string) : x ++ "" = x.
Proof.
  induction x as [|c x IH]; [reflexivity|].
  change (String c (x ++ "") = String c x). now f_equal.
Qed.

Lemma rstrip_prefix (h : string) : exists b, h = Py.rstrip h ++ b.
Proof.
  induction h as [|c h [b IH]]; [now exists ""|]. simpl.
  destruct (Py.rstrip h) as [|r rs] eqn:E.
  - destruct (Py.is_space c).
    + now exists (String c h).
    + exists h. reflexivity.
  - exists b. change (String c h = String c (String r rs ++ b)). now f_equal.
Qed.

Lemma contains_of_lstrip (T h : string) :
  Py.contains T (Py.lstrip h) = true -> Py.contains T h = true.
Proof.
  intros H. destruct (lstrip_suffix h) as [a E]. rewrite E. now apply contains_skip.
Qed.

Lemma contains_of_rstrip (T h : string) :
  Py.contains T (Py.rstrip h) = true -> Py.contains T h = true.
Proof.
  intros H. destruct (rstrip_prefix h) as [b E]. rewrite E. now apply contains_app_l.
Qed.

Lemma contains_of_strip (T h : string) :
  Py.contains T (Py.strip h) = true -> Py.contains T h = true.
Proof. intros H. now apply contains_of_lstrip, contains_of_rstrip. Qed.

(** A word that starts with a non-space character survives [lstrip]. *)
Lemma contains_lstrip (t : ascii) (T h : string) :
  Py.is_space t = false ->
  Py.contains (String t T) h = true -> Py.contains (String t T) (Py.lstrip h) = true.
Proof.
  intros Ht. induction h as [|c h IH]; intros H; [exact H|].
  simpl Py.lstrip. destruct (Py.is_space c) eqn:Ec; [|exact H].
  cbn [Py.contains] in H. apply orb_true_iff in H as [H|H]; [|now apply IH].
  apply prefix_cons_inv in H as [-> _]. congruence.
Qed.

Lemma prefix_rstrip (T h : string) :
  all_chars (fun c => negb (Py.is_space c)) T = true ->
  String.prefix T h = true -> String.prefix T (Py.rstrip h) = true.
Proof.
  revert h. induction T as [|t T IH]; intros h Hs H; [apply prefix_nil_l|].
  destruct h as [|c h]; [discriminate|].
  apply prefix_cons_inv in H as [-> H].
  simpl in Hs. apply andb_true_iff in Hs as [Ht Hs]. apply negb_true_iff in Ht.
  specialize (IH h Hs H). simpl Py.rstrip.
  destruct (Py.rstrip h) as [|r rs] eqn:E.
  - apply prefix_nil_r in IH. subst T. rewrite Ht. apply prefix_cons. reflexivity.
  - now apply prefix_cons.
Qed.

(** A non-empty word without white space survives [rstrip]. *)
Lemma contains_rstrip (t : ascii) (T h : string) :
  all_chars (fun c => negb (Py.is_space c)) (String t T) = true ->
  Py.contains (String t T) h = true -> Py.contains (String t T) (Py.rstrip h) = true.
Proof.
  intros Hs. induction h as [|c h IH]; intros H; [exact H|].
  cbn [Py.contains] in H. apply orb_true_iff in H as [H|H].
  - apply (prefix_rstrip _ _ Hs) in H.
    destruct (Py.rstrip (String c h)) as [|r rs]; [discriminate|].
    cbn [Py.contains]. now rewrite H.
  - specialize (IH H). simpl Py.rstrip.
    destruct (Py.rstrip h) as [|r rs] eqn:E.
    + apply contains_nil in IH. discriminate.
    + now apply contains_cons.
Qed.

Lemma contains_strip (T h : string) :
  plain_word T = true -> Py.contains T h = true -> Py.contains T (Py.strip h) = true.
Proof.
  unfold plain_word. rewrite !andb_true_iff. intros [[[Hne Hs] _] _] H.
  destruct T as [|t T]; [discriminate|].
  unfold Py.strip. apply contains_rstrip; [exact Hs|].
  apply contains_lstrip; [|exact H].
  simpl in Hs. apply andb_true_iff in Hs as [Ht _]. now apply negb_true_iff.
Qed.

Lemma split_head (sep : ascii) (h : string) :
  exists p rest, Py.split sep h = p :: rest /\ exists b, h = p ++ b.
Proof.
  induction h as [|c h (p & rest & E & b & Hb)].
  - exists "", []. split; [reflexivity|now exists ""].
  - simpl. destruct (Ascii.eqb c sep).
    + exists "", (Py.split sep h). split; [reflexivity|]. now exists (String c h).
    + rewrite E. exists (String c p), rest. split; [reflexivity|].
      exists b. change (String c h = String c (p ++ b)). now f_equal.
Qed.

Lemma split_In_contains (sep : ascii) (T piece h : string) :
  In piece (Py.split sep h) -> Py.contains T piece = true -> Py.contains T h = true.
Proof.
  revert piece. induction h as [|c h IH]; intros piece Hin H.
  - destruct Hin as [<-|[]]. exact H.
  - simpl in Hin. destruct (Ascii.eqb c sep).
    + destruct Hin as [<-|Hin].
      * apply contains_nil in H. subst T. reflexivity.
      * apply contains_cons. now apply (IH piece).
    + destruct (split_head sep h) as (p & rest & E & b & Hb). rewrite E in Hin, IH.
      destruct Hin as [<-|Hin].
      * rewrite Hb. now apply (contains_app_l T (String c p) b).
      * apply contains_cons. apply (IH piece); [now right|exact H].
Qed.

Lemma prefix_split_head (sep : ascii) (T h : string) :
  all_chars (fun c => negb (Ascii.eqb c sep)) T = true ->
  String.prefix T h = true ->
  exists p rest, Py.split sep h = p :: rest /\ String.prefix T p = true.
Proof.
  revert h. induction T as [|t T IH]; intros h Hs H.
  - destruct (split_head sep h) as (p & rest & E & _). exists p, rest.
    split; [exact E|apply prefix_nil_l].
  - destruct h as [|c h]; [discriminate|].
    apply prefix_cons_inv in H as [-> H].
    simpl in Hs. apply andb_true_iff in Hs as [Ht Hs]. apply negb_true_iff in Ht.
    destruct (IH h Hs H) as (p & rest & E & Hp).
    simpl. rewrite Ht, E. exists (String c p), rest. split; [reflexivity|].
    now apply prefix_cons.
Qed.

(** A word without the separator lies inside one piece. *)
Lemma contains_split (sep : ascii) (T h : string) :
  all_chars (fun c => negb (Ascii.eqb c sep)) T = true ->
  Py.contains T h = true ->
  exists piece, In piece (Py.split sep h) /\ Py.contains T piece = true.
Proof.
  intros Hs. induction h as [|c h IH]; intros H.
  - exists "". split; [now left|exact H].
  - cbn [Py.contains] in H. apply orb_true_iff in H as [H|H].
    + destruct (prefix_split_head sep T (String c h) Hs H) as (p & rest & E & Hp).
      exists p. rewrite E. split; [now left|].
      destruct p; cbn [Py.contains]; now rewrite Hp.
    + destruct (IH H) as (piece & Hin & Hp). simpl.
      destruct (Ascii.eqb c sep); [exists piece; split; [now right|exact Hp]|].
      destruct (Py.split sep h) as [|p0 rest]; [contradiction|].
      destruct Hin as [<-|Hin].
      * exists (String c p0). split; [now left|now apply contains_cons].
      * exists piece. split; [now right|exact Hp].
Qed.

End Substrings.

(** ** The two RAM-type normalisers *)

Lemma elem_nonempty_stripped (x : string) (pieces : list string) :
  x ∈ (list_to_set (Compat.nonempty_stripped pieces) : gset string)
  <-> x <> "" /\ exists piece, In piece pieces /\ x = Py.strip piece.
Proof.
  rewrite elem_of_list_to_set, list_elem_of_In.
  unfold Compat.nonempty_stripped. rewrite filter_In, in_map_iff. split.
  - intros [(piece & <- & Hin) Hne]. split.
    + intros E. rewrite E in Hne. discriminate.
    + now exists piece.
  - intros [Hne (piece & Hin & ->)]. split; [now exists piece|].
    destruct (Py.strip piece); [now elim Hne|reflexivity].
Qed.

Lemma ddr_names_elem (x : string) : x ∈ ddr_names <-> x = "DDR4" \/ x = "DDR5".
Proof. unfold ddr_names. set_solver. Qed.

Lemma ddr_contains_eq (T x : string) :
  T = "DDR4" \/ T = "DDR5" -> x = "DDR4" \/ x = "DDR5" ->
  Py.contains T x = true -> x = T.
Proof. intros [-> | ->] [-> | ->] H; try reflexivity; discriminate H. Qed.

Lemma ddr_plain (T : string) : T = "DDR4" \/ T = "DDR5" -> plain_word T = true.
Proof. intros [-> | ->]; reflexivity. Qed.

Lemma plain_word_no_sep (T : string) :
  plain_word T = true ->
  all_chars (fun c => negb (Ascii.eqb c "/")) T = true
  /\ all_chars (fun c => negb (Ascii.eqb c ",")) T = true.
Proof. unfold plain_word. rewrite !andb_true_iff. tauto. Qed.

Lemma app_set_elem (v : option string) (x : string) :
  x ∈ App.ram_type_set v
  <-> (x = "DDR4" /\ Py.contains "DDR4" (Py.upper (Py.str_or_empty v)) = true)
      \/ (x = "DDR5" /\ Py.contains "DDR5" (Py.upper (Py.str_or_empty v)) = true).
Proof.
  unfold App.ram_type_set. cbv zeta.
  destruct (Py.contains "DDR4" _); destruct (Py.contains "DDR5" _);
    rewrite ?elem_of_union, ?elem_of_singleton, ?elem_of_empty;
    intuition (try discriminate; auto).
Qed.

(** Membership in the checker's set, by the shape of the stripped text. *)
Lemma compat_set_elem (v : option string) (x : string) :
  let s := Py.strip (Py.upper (Py.str_or_empty v)) in
  x ∈ Compat.ram_type_set v
  <-> x <> "" /\
      ((Py.contains "/" s = true /\ exists piece, In piece (Py.split "/" s) /\ x = Py.strip piece)
       \/ (Py.contains "/" s = false /\ Py.contains "," s = true
           /\ exists piece, In piece (Py.split "," s) /\ x = Py.strip piece)
       \/ (Py.contains "/" s = false /\ Py.contains "," s = false /\ x = s)).
Proof.
  intros s. unfold Compat.ram_type_set. fold s.
  destruct (Py.is_empty s) eqn:Ee.
  { assert (Es : s = "") by (destruct s; [reflexivity|discriminate]).
    rewrite Es. split; [set_solver|].
    intros [Hne [[H _]|[(_ & H & _)|(_ & _ & H)]]]; try discriminate H. contradiction. }
  assert (Hs : s <> "") by (intros E; rewrite E in Ee; discriminate).
  destruct (Py.contains "/" s) eqn:E1.
  { rewrite elem_nonempty_stripped. split.
    - intros [Hne H]. split; [exact Hne|]. left. now split.
    - intros [Hne [[_ H]|[(H & _)|(H & _)]]]; try discriminate H. now split. }
  destruct (Py.contains "," s) eqn:E2.
  { rewrite elem_nonempty_stripped. split.
    - intros [Hne H]. split; [exact Hne|]. right. left. now repeat split.
    - intros [Hne [[H _]|[(_ & _ & H)|(_ & H & _)]]]; try discriminate H. now split. }
  rewrite elem_of_singleton. split.
  - intros ->. split; [exact Hs|]. right. right. now repeat split.
  - intros [_ [[H _]|[(_ & H & _)|(_ & _ & H)]]]; try discriminate H. exact H.
Qed.

Lemma compat_elem_contains (v : option string) (x : string) :
  x ∈ Compat.ram_type_set v ->
  Py.contains x (Py.upper (Py.str_or_empty v)) = true.
Proof.
  intros H. apply compat_set_elem in H as [_ H]. apply contains_of_strip.
  destruct H as [[_ (piece & Hin & ->)]|[(_ & _ & piece & Hin & ->)|(_ & _ & ->)]].
  - eapply split_In_contains; [exact Hin|]. apply contains_of_strip, contains_self.
  - eapply split_In_contains; [exact Hin|]. apply contains_of_strip, contains_self.
  - apply contains_self.
Qed.

Lemma contains_ddr_compat (v : option string) (T : string) :
  Compat.ram_type_set v ⊆ ddr_names ->
  T = "DDR4" \/ T = "DDR5" ->
  Py.contains T (Py.upper (Py.str_or_empty v)) = true ->
  T ∈ Compat.ram_type_set v.
Proof.
  intros Hsub HT H.
  pose proof (ddr_plain T HT) as Hp.
  destruct (plain_word_no_sep T Hp) as [Hslash Hcomma].
  apply (contains_strip T _ Hp) in H.
  set (s := Py.strip (Py.upper (Py.str_or_empty v))) in *.
  assert (HTne : T <> "") by (destruct HT as [-> | ->]; discriminate).
  assert (Hpiece : forall sep piece,
             In piece (Py.split sep s) -> Py.contains T piece = true ->
             Py.strip piece ∈ Compat.ram_type_set v -> T ∈ Compat.ram_type_set v).
  { intros sep piece Hin Hc Hel.
    apply (contains_strip T _ Hp) in Hc.
    pose proof (Hsub _ Hel) as Hd. apply ddr_names_elem in Hd.
    now rewrite <- (ddr_contains_eq T (Py.strip piece) HT Hd Hc). }
  assert (Hstrip_ne : forall piece, Py.contains T piece = true -> Py.strip piece <> "").
  { intros piece Hc E. apply (contains_strip T _ Hp) in Hc. rewrite E in Hc.
    apply contains_nil in Hc. contradiction. }
  destruct (Py.contains "/" s) eqn:E1.
  { destruct (contains_split "/" T s Hslash H) as (piece & Hin & Hc).
    apply (Hpiece "/"%char piece Hin Hc). apply compat_set_elem. fold s.
    split; [now apply Hstrip_ne|]. left. split; [exact E1|now exists piece]. }
  destruct (Py.contains "," s) eqn:E2.
  { destruct (contains_split "," T s Hcomma H) as (piece & Hin & Hc).
    apply (Hpiece ","%char piece Hin Hc). apply compat_set_elem. fold s.
    split; [now apply Hstrip_ne|]. right. left. repeat split; try assumption. now exists piece. }
  assert (Hs : s ∈ Compat.ram_type_set v).
  { apply compat_set_elem. fold s. split.
    - intros E. rewrite E in H. apply contains_nil in H. contradiction.
    - right. right. now repeat split. }
  pose proof (Hsub _ Hs) as Hd. apply ddr_names_elem in Hd.
  now rewrite <- (ddr_contains_eq T s HT Hd H).
Qed.

(** C10, as written, fails: on "DDR3" the checker's normaliser returns
    the one-element set of that text and the allocator's the empty set. *)
Lemma normalisers_differ_on_ddr3 :
  Compat.ram_type_set (Some "DDR3") = {[ "DDR3" ]}
  /\ App.ram_type_set (Some "DDR3") = ∅
  /\ Compat.ram_type_set (Some "DDR3") <> App.ram_type_set (Some "DDR3").
Proof.
  split; [reflexivity|]. split; [reflexivity|].
  intros H. assert (E : "DDR3" ∈ App.ram_type_set (Some "DDR3")).
  { rewrite <- H. apply compat_set_elem. vm_compute. split; [discriminate|].
    right. right. auto. }
  apply app_set_elem in E as [[E _]|[E _]]; discriminate E.
Qed.

(** C10 (amended): on every input for which the checker's normaliser
    yields only the names DDR4 and DDR5, the allocator's normaliser
    returns the same set. *)
Theorem normalisers_agree_on_ddr (v : option string) :
  Compat.ram_type_set v ⊆ ddr_names ->
  App.ram_type_set v = Compat.ram_type_set v.
Proof.
  intros Hsub. apply set_eq. intros x. rewrite app_set_elem. split.
  - intros [[-> H]|[-> H]]; apply contains_ddr_compat; auto.
  - intros H. pose proof (Hsub _ H) as Hd. apply ddr_names_elem in Hd.
    apply compat_elem_contains in H. destruct Hd as [-> | ->]; auto.
Qed.

Lemma normalisers_agree_on_ddr_witness :
  App.ram_type_set (Some "ddr4 / DDR5") = Compat.ram_type_set (Some "ddr4 / DDR5").
Proof.
  apply (normalisers_agree_on_ddr (Some "ddr4 / DDR5")).
  apply (bool_decide_unpack _). vm_compute. exact I.
Defined.

(** ** The scenarios of the specification, run on the model *)

Example socket_am5_matches :
  Compat.cpu_mobo (Some (PartDict Sample.cpu_am5_150)) (Some (PartDict Sample.mobo_ddr4))
  = (true, "").
Proof. reflexivity. Qed.

Example socket_lga_vs_am5 :
  Compat.cpu_mobo (Some (PartDict Sample.cpu_lga)) (Some (PartDict Sample.mobo_ddr4))
  = (false, "Socket mismatch (LGA1700 vs AM5)").
Proof. reflexivity. Qed.

Example ram_ddr5_vs_board_ddr4 :
  Compat.ram_mobo (Some (PartDict Sample.ram_ddr5)) (Some (PartDict Sample.mobo_ddr4))
  = (false, "RAM type mismatch (DDR5 vs DDR4)").
Proof. vm_compute. reflexivity. Qed.

Example ram_both_vs_board_ddr4 :
  Compat.ram_mobo (Some (PartDict Sample.ram_both)) (Some (PartDict Sample.mobo_ddr4))
  = (true, "").
Proof. vm_compute. reflexivity. Qed.

Example gpu_340_fits_360 :
  Compat.gpu_case Sample.plain_text (Some (PartDict Sample.gpu_340))
    (Some (PartDict Sample.case_360)) = (true, "").
Proof. reflexivity. Qed.

Example gpu_400_exceeds_360 :
  fst (Compat.gpu_case Sample.plain_text (Some (PartDict Sample.gpu_400))
         (Some (PartDict Sample.case_360))) = false.
Proof. reflexivity. Qed.

Example priority_order :
  earlier App.priority GPU Case = true /\ earlier App.priority Case GPU = false
  /\ earlier App.priority CPU RAM = true /\ earlier App.priority RAM RAM = false.
Proof. repeat split. Qed.

Example downgrade_at_1000 :
  let r := App.build_always Sample.floor_reqs false false Sample.small_catalog 1000
             Sample.nothing_owned both in
  fst r CPU = Some (PartDict Sample.cpu_am5_10)
  /\ fst r Motherboard = Some (PartDict Sample.mobo_ddr5)
  /\ fst r GPU = Some EmptyDict
  /\ (snd r == 910)%Q.
Proof. repeat split. Qed.

(** * Further properties of the code *)

(** ** What a clean report guarantees *)

Lemma triggered_nil (r : bool * string) : triggered r = [] <-> fst r = true.
Proof. unfold triggered. destruct (fst r); split; intros H; try reflexivity; discriminate. Qed.

Lemma report_flag_checks (float_repr : Q -> string) (build : Build) :
  compatible (Compat.check_full_build_compatibility float_repr build) = true
  <-> fst (Compat.cpu_mobo (build CPU) (build Motherboard)) = true
      /\ fst (Compat.ram_mobo (build RAM) (build Motherboard)) = true
      /\ fst (Compat.gpu_case float_repr (build GPU) (build Case)) = true.
Proof.
  unfold Compat.check_full_build_compatibility. simpl compatible.
  rewrite !note_triggered. simpl app. rewrite Nat.eqb_eq, length_zero_iff_nil.
  rewrite <- !triggered_nil.
  destruct (triggered (Compat.cpu_mobo _ _)); destruct (triggered (Compat.ram_mobo _ _));
    destruct (triggered (Compat.gpu_case _ _ _)); simpl; split;
    try (intros H; discriminate H); try (intros (H1 & H2 & H3); discriminate); auto.
Qed.

Lemma cpu_mobo_ok_iff (cpu mobo : option pdict) :
  fst (Compat.cpu_mobo cpu mobo) = true
  <-> exists c m, cpu = Some (PartDict c) /\ mobo = Some (PartDict m) /\ same_socket c m.
Proof.
  unfold Compat.cpu_mobo, same_socket. split.
  - destruct cpu as [[|c]|]; try (simpl; discriminate);
      destruct mobo as [[|m]|]; try (simpl; discriminate).
    destruct (String.eqb_spec (Py.strip (Py.str_or_empty (socket c)))
                              (Py.strip (Py.str_or_empty (socket m)))) as [E|E];
      [|simpl; discriminate].
    intros _. now exists c, m.
  - intros (c & m & -> & -> & E). rewrite E, String.eqb_refl. reflexivity.
Qed.

Lemma ram_rule_iff (r m : part) :
  negb (Compat.emptyb (Compat.ram_type_set (ram_type r)))
  && negb (Compat.emptyb (Compat.ram_type_set (ram_type m)))
  && Compat.disjointb (Compat.ram_type_set (ram_type r)) (Compat.ram_type_set (ram_type m))
  = false
  <-> ram_types_agree r m.
Proof.
  unfold ram_types_agree, Compat.emptyb, Compat.disjointb.
  destruct (bool_decide_reflect (Compat.ram_type_set (ram_type r) = ∅)) as [E1|E1];
  destruct (bool_decide_reflect (Compat.ram_type_set (ram_type m) = ∅)) as [E2|E2];
  destruct (bool_decide_reflect
              (Compat.ram_type_set (ram_type r) ∩ Compat.ram_type_set (ram_type m) = ∅))
    as [E3|E3]; simpl; split; intros H; try reflexivity; try discriminate H; auto.
  destruct H as [H|[H|H]]; contradiction.
Qed.

Lemma ram_mobo_ok_iff (ram mobo : option pdict) :
  fst (Compat.ram_mobo ram mobo) = true
  <-> exists r m, ram = Some (PartDict r) /\ mobo = Some (PartDict m) /\ ram_types_agree r m.
Proof.
  unfold Compat.ram_mobo. split.
  - destruct ram as [[|r]|]; try (simpl; discriminate);
      destruct mobo as [[|m]|]; try (simpl; discriminate).
    cbv zeta. destruct (negb _ && negb _ && _) eqn:E; [simpl; discriminate|].
    intros _. exists r, m. repeat split. now apply ram_rule_iff.
  - intros (r & m & -> & -> & H). apply ram_rule_iff in H. cbv zeta. now rewrite H.
Qed.

Lemma Qor_zero_eq (v : Q) : (Qor v 0 == v)%Q.
Proof.
  unfold Qor. destruct (Qeq_bool v 0) eqn:E; [|reflexivity].
  apply Qeq_bool_iff in E. now rewrite E.
Qed.

Lemma gpu_case_ok_iff (float_repr : Q -> string) (gpu case : option pdict) :
  fst (Compat.gpu_case float_repr gpu case) = true
  <-> forall g k, gpu = Some (PartDict g) -> case = Some (PartDict k) ->
                  (length_mm g <= case_limit k)%Q.
Proof.
  unfold Compat.gpu_case. split.
  - intros H g k -> ->. cbv zeta in H.
    change (Qor (max_gpu_length_mm k) 9999) with (case_limit k) in H.
    destruct (Qlt_bool (case_limit k) (Qor (length_mm g) 0)) eqn:E; [discriminate H|].
    apply Qlt_bool_false_iff in E. now rewrite Qor_zero_eq in E.
  - intros H. destruct gpu as [[|g]|]; try reflexivity; destruct case as [[|k]|]; try reflexivity.
    cbv zeta. change (Qor (max_gpu_length_mm k) 9999) with (case_limit k).
    specialize (H g k eq_refl eq_refl).
    destruct (Qlt_bool (case_limit k) (Qor (length_mm g) 0)) eqn:E; [|reflexivity].
    apply Qlt_bool_iff in E. rewrite Qor_zero_eq in E.
    exfalso. exact (Qlt_not_le _ _ E H).
Qed.

(** X1: the report is clean exactly when CPU, motherboard and RAM are all
    present, the two sockets are equal up to surrounding blanks, the RAM
    types agree, and any GPU present with a case is no longer than the
    case admits. *)
Theorem clean_report_iff (float_repr : Q -> string) (build : Build) :
  compatible (Compat.check_full_build_compatibility float_repr build) = true
  <-> (exists c m r,
         build CPU = Some (PartDict c) /\ build Motherboard = Some (PartDict m)
         /\ build RAM = Some (PartDict r)
         /\ same_socket c m /\ ram_types_agree r m)
      /\ (forall g k, build GPU = Some (PartDict g) -> build Case = Some (PartDict k) ->
                      (length_mm g <= case_limit k)%Q).
Proof.
  rewrite report_flag_checks, cpu_mobo_ok_iff, ram_mobo_ok_iff, gpu_case_ok_iff. split.
  - intros ((c & m & Hc & Hm & Hs) & (r & m' & Hr & Hm' & Ha) & Hg).
    split; [|exact Hg]. exists c, m, r. rewrite Hm in Hm'. injection Hm' as <-. auto.
  - intros ((c & m & r & Hc & Hm & Hr & Hs & Ha) & Hg).
    split; [now exists c, m|]. split; [now exists r, m|exact Hg].
Qed.

Lemma clean_report_iff_witness :
  compatible (Compat.check_full_build_compatibility Sample.plain_text
                (fun c => match c with
                          | CPU => Some (PartDict Sample.cpu_am5_150)
                          | Motherboard => Some (PartDict Sample.mobo_ddr4)
                          | RAM => Some (PartDict Sample.ram_both)
                          | GPU => Some (PartDict Sample.gpu_340)
                          | Case => Some (PartDict Sample.case_360)
                          | _ => Some EmptyDict
                          end)) = true.
Proof.
  apply clean_report_iff. split.
  - exists Sample.cpu_am5_150, Sample.mobo_ddr4, Sample.ram_both.
    repeat split. right. right. apply (bool_decide_unpack _). vm_compute. exact I.
  - intros g k Hg Hk. injection Hg as <-. injection Hk as <-. vm_compute. discriminate.
Defined.

(** ** The compatibility note of the reply *)

Lemma report_issues (float_repr : Q -> string) (build : Build) :
  issues (Compat.check_full_build_compatibility float_repr build)
  = (triggered (Compat.cpu_mobo (build CPU) (build Motherboard))
     ++ triggered (Compat.ram_mobo (build RAM) (build Motherboard))
     ++ triggered (Compat.gpu_case float_repr (build GPU) (build Case)))%list.
Proof.
  unfold Compat.check_full_build_compatibility. simpl issues.
  rewrite !note_triggered. simpl. now rewrite <- app_assoc.
Qed.

Lemma report_flag_issues (float_repr : Q -> string) (build : Build) :
  compatible (Compat.check_full_build_compatibility float_repr build) = true
  <-> issues (Compat.check_full_build_compatibility float_repr build) = [].
Proof.
  unfold Compat.check_full_build_compatibility. simpl.
  now rewrite Nat.eqb_eq, length_zero_iff_nil.
Qed.

(** X2: the note appended to the reply is empty exactly when the report is
    clean, and it quotes at most the first two issues: when the socket
    check and the RAM check both fail, the note consists of their two
    messages, whatever the length check found. *)
Theorem note_quotes_two_issues (float_repr : Q -> string) (build : Build) :
  let r := Compat.check_full_build_compatibility float_repr build in
  (Reply.compatibility_note r = "" <-> compatible r = true)
  /\ (fst (Compat.cpu_mobo (build CPU) (build Motherboard)) = false ->
      fst (Compat.ram_mobo (build RAM) (build Motherboard)) = false ->
      Reply.compatibility_note r
      = note_header ++ snd (Compat.cpu_mobo (build CPU) (build Motherboard))
        ++ "; " ++ snd (Compat.ram_mobo (build RAM) (build Motherboard))).
Proof.
  intros r. split.
  - unfold Reply.compatibility_note. destruct (compatible r) eqn:E; cbn [negb].
    + split; reflexivity.
    + split; [|discriminate]. destruct (issues r) as [|x l] eqn:Ei.
      * apply report_flag_issues in Ei. fold r in Ei. congruence.
      * intros H. cbv [append] in H. discriminate H.
  - intros H1 H2. unfold Reply.compatibility_note.
    assert (Hc : compatible r = false).
    { destruct (compatible r) eqn:E; [|reflexivity].
      apply report_flag_checks in E as [E _]. congruence. }
    rewrite Hc. simpl negb. cbv iota. subst r. rewrite report_issues.
    unfold triggered at 1 2. rewrite H1, H2. reflexivity.
Qed.

Lemma note_quotes_two_issues_witness :
  Reply.compatibility_note
    (Compat.check_full_build_compatibility Sample.plain_text (fun _ => None))
  = note_header ++ "CPU or motherboard missing" ++ "; " ++ "RAM or motherboard missing".
Proof.
  apply (note_quotes_two_issues Sample.plain_text (fun _ => None)); reflexivity.
Defined.

(** ** The candidate filter beyond GPUs *)

(** X3: the filter only ever removes RAM and GPU rows: a row of any other
    category is kept, a RAM row is kept exactly when its capacity reaches
    min(recommended RAM, 32), where a recommended RAM of 0 counts as 16;
    and filtering an already filtered list changes nothing. *)
Theorem filter_scope (reqs : Requirements) (parts : list part) (budget : Z) :
  (forall p, category p <> "RAM" -> category p <> "GPU" ->
             (In p (Compat.recommend_parts_for_requirements reqs parts budget) <-> In p parts))
  /\ (forall p, category p = "RAM" ->
                (In p (Compat.recommend_parts_for_requirements reqs parts budget)
                 <-> In p parts
                     /\ (Z.min (if (recommended_ram reqs =? 0)%Z then 16 else recommended_ram reqs) 32
                         <= capacity_gb p)%Z))
  /\ Compat.recommend_parts_for_requirements reqs
       (Compat.recommend_parts_for_requirements reqs parts budget) budget
     = Compat.recommend_parts_for_requirements reqs parts budget.
Proof.
  unfold Compat.recommend_parts_for_requirements. split; [|split].
  - intros p H1 H2. rewrite filter_In. unfold Compat.kept.
    apply String.eqb_neq in H1, H2. rewrite H1, H2. simpl. tauto.
  - intros p H. rewrite filter_In. unfold Compat.kept, Compat.ram_kept, Zor.
    rewrite H. simpl. rewrite andb_true_r, negb_true_iff, Z.ltb_ge. reflexivity.
  - induction parts as [|p parts IH]; [reflexivity|]. simpl.
    destruct (Compat.kept reqs budget p) eqn:E; [|exact IH].
    simpl. rewrite E. now f_equal.
Qed.

Lemma filter_scope_witness :
  In Sample.cpu_lga
     (Compat.recommend_parts_for_requirements Sample.high_reqs
        [Sample.gpu_small; Sample.cpu_lga] 100).
Proof.
  destruct (filter_scope Sample.high_reqs [Sample.gpu_small; Sample.cpu_lga] 100) as [H _].
  apply H; [discriminate | discriminate | right; now left].
Defined.

(** ** The pickers *)

Lemma last_opt_none (l : list part) : App.last_opt l = None -> l = [].
Proof.
  intros H. destruct l as [|a l]; [reflexivity|].
  destruct (last_opt_some (a :: l)) as [p Hp]; [discriminate|congruence].
Qed.

Lemma last_sorted_max (l : list part) (p : part) :
  App.last_opt (sort_by_price l) = Some p -> forall q, In q l -> price_le q p.
Proof.
  intros H q Hq. apply (last_opt_sorted_max (sort_by_price l) p).
  - apply sort_by_price_sorted.
  - exact H.
  - now apply sort_by_price_In.
Qed.

Lemma first_sorted_min (l : list part) (p : part) :
  App.first_opt (sort_by_price l) = Some p -> forall q, In q l -> price_le p q.
Proof.
  intros H q Hq. apply (first_opt_sorted_min (sort_by_price l) p).
  - apply sort_by_price_sorted.
  - exact H.
  - now apply sort_by_price_In.
Qed.

Lemma last_sorted_none (l : list part) : App.last_opt (sort_by_price l) = None -> l = [].
Proof. intros H. now apply sort_by_price_nil, last_opt_none. Qed.

Lemma first_sorted_none (l : list part) : App.first_opt (sort_by_price l) = None -> l = [].
Proof.
  intros H. apply sort_by_price_nil. destruct (sort_by_price l); [reflexivity|discriminate].
Qed.

(** X4: the capped picker returns only a part with a positive price not
    above the cap, and one whose score no other such part of the list
    exceeds; it returns nothing when the cap is not positive; and when it
    returns nothing, every priced part within the cap scores at most
    -10^18. *)
Theorem pick_best_within_sound (items : list part) (cap : Q) (score_fn : part -> Q) :
  (forall x, App.pick_best_within items cap score_fn = Some x ->
             In x items /\ (0 < price_usd x)%Q /\ (price_usd x <= cap)%Q
             /\ forall y, In y items -> (0 < price_usd y)%Q -> (price_usd y <= cap)%Q ->
                          (score_fn y <= score_fn x)%Q)
  /\ ((cap <= 0)%Q -> App.pick_best_within items cap score_fn = None)
  /\ (App.pick_best_within items cap score_fn = None ->
      forall y, In y items -> (0 < price_usd y)%Q -> (price_usd y <= cap)%Q ->
                (score_fn y <= inject_Z (- 10 ^ 18))%Q).
Proof.
  split; [|split].
  - intros x H. apply pick_best_within_some in H as (H1 & [H2 H3] & _ & H4).
    repeat split; try assumption. intros y Hy Hp Hc. apply H4; [exact Hy|now split].
  - intros Hc. destruct (App.pick_best_within items cap score_fn) as [x|] eqn:E; [|reflexivity].
    apply pick_best_within_some in E as (_ & [H2 H3] & _).
    exfalso. apply (Qlt_not_le _ _ H2). eapply Qle_trans; eassumption.
  - intros H y Hy Hp Hc. apply (pick_best_within_none cap score_fn items H y Hy). now split.
Qed.

Lemma pick_best_within_sound_witness :
  App.pick_best_within Sample.small_catalog 0 App.cpu_score = None.
Proof.
  destruct (pick_best_within_sound Sample.small_catalog 0 App.cpu_score) as (_ & H & _).
  apply H. discriminate.
Defined.

Lemma board_candidate_iff (cpu : pdict) (pool : list part) (pref : option string) (m : part) :
  In m (if negb (Py.is_empty (Py.str_or_empty pref))
        then List.filter (fun m => App.emptyb (App.ram_type_set pref)
                                   || App.meets (App.ram_type_set (ram_type m))
                                                (App.ram_type_set pref))
               (List.filter (fun m => String.eqb (Py.strip (Py.str_or_empty (socket m)))
                                                 (Py.strip (Py.str_or_empty (get_socket cpu))))
                            (App.parts_by_category pool "Motherboard"))
        else List.filter (fun m => String.eqb (Py.strip (Py.str_or_empty (socket m)))
                                              (Py.strip (Py.str_or_empty (get_socket cpu))))
                         (App.parts_by_category pool "Motherboard"))
  <-> In m (App.parts_by_category pool "Motherboard") /\ board_candidate cpu pref m.
Proof.
  unfold board_candidate, App.emptyb, App.meets.
  destruct (Py.str_or_empty pref) as [|a s] eqn:Ep; simpl negb; cbv iota.
  - rewrite filter_In, String.eqb_eq. split.
    + intros [H1 H2]. repeat split; try assumption. intros H. now elim H.
    + intros [H1 [H2 _]]. now split.
  - rewrite !filter_In, String.eqb_eq, orb_true_iff, negb_true_iff.
    rewrite bool_decide_eq_true, bool_decide_eq_false. split.
    + intros [[H1 H2] H3]. repeat split; try assumption. intros _. exact H3.
    + intros [H1 [H2 H3]]. repeat split; try assumption. apply H3. discriminate.
Qed.

Lemma pick_mobo_for_cpu_cases (cpu : pdict) (pool : list part) (pref : option string) :
  (forall m, App.pick_mobo_for_cpu cpu pool pref = Some m ->
             In m (App.parts_by_category pool "Motherboard")
             /\ board_candidate cpu pref m
             /\ forall m', In m' (App.parts_by_category pool "Motherboard") ->
                           board_candidate cpu pref m' -> price_le m' m)
  /\ (App.pick_mobo_for_cpu cpu pool pref = None
      <-> forall m, In m (App.parts_by_category pool "Motherboard") ->
                    ~ board_candidate cpu pref m).
Proof.
  unfold App.pick_mobo_for_cpu. cbv zeta. split.
  - intros m H. pose proof (last_sorted_In _ _ H) as Hin.
    apply board_candidate_iff in Hin as [H1 H2]. repeat split; try assumption; try apply H2.
    intros m' Hm' Hc. apply (last_sorted_max _ _ H). apply board_candidate_iff. now split.
  - split.
    + intros H m Hm Hc. apply last_sorted_none in H.
      assert (Hin : In m []) by (rewrite <- H; apply board_candidate_iff; now split).
      exact Hin.
    + intros H. match goal with |- App.last_opt ?l = None => destruct (App.last_opt l) as [m|] eqn:E end;
        [|reflexivity].
      apply last_sorted_In in E. apply board_candidate_iff in E as [H1 H2].
      exfalso. exact (H m H1 H2).
Qed.

(** X5: the board picker returns a motherboard of the pool with the CPU's
    socket (and, when a preferred type is given, sharing it) that is at
    least as expensive as every other such board; it returns nothing
    exactly when the pool has no such board. *)
Theorem pick_mobo_for_cpu_sound (cpu : pdict) (pool : list part) (pref : option string) :
  (forall m, App.pick_mobo_for_cpu cpu pool pref = Some m ->
             In m (App.parts_by_category pool "Motherboard")
             /\ board_candidate cpu pref m
             /\ forall m', In m' (App.parts_by_category pool "Motherboard") ->
                           board_candidate cpu pref m' -> price_le m' m)
  /\ (App.pick_mobo_for_cpu cpu pool pref = None
      <-> forall m, In m (App.parts_by_category pool "Motherboard") ->
                    ~ board_candidate cpu pref m).
Proof. apply pick_mobo_for_cpu_cases. Qed.

Lemma pick_mobo_for_cpu_sound_witness :
  In Sample.mobo_ddr5 (App.parts_by_category Sample.small_catalog "Motherboard")
  /\ board_candidate (PartDict Sample.cpu_am5_150) (Some "DDR5") Sample.mobo_ddr5.
Proof.
  destruct (pick_mobo_for_cpu_sound (PartDict Sample.cpu_am5_150) Sample.small_catalog
              (Some "DDR5")) as [H _].
  destruct (H Sample.mobo_ddr5) as (H1 & H2 & _); [vm_compute; reflexivity|].
  split; assumption.
Defined.

Lemma ram_candidates_In (mobo : pdict) (pool : list part) (need_gb : Z) (r : part) :
  In r (sort_by_price
          (List.filter (fun r => (need_gb <=? capacity_gb r)%Z)
             (List.filter (fun r => App.emptyb (App.ram_type_set (get_ram_type mobo))
                                    || App.meets (App.ram_type_set (ram_type r))
                                                 (App.ram_type_set (get_ram_type mobo)))
                          (App.parts_by_category pool "RAM"))))
  <-> In r (App.parts_by_category pool "RAM") /\ ram_candidate mobo need_gb r.
Proof.
  unfold ram_candidate, App.emptyb, App.meets.
  rewrite sort_by_price_In, !filter_In, Z.leb_le, orb_true_iff, negb_true_iff.
  rewrite bool_decide_eq_true, bool_decide_eq_false. tauto.
Qed.

Lemma pick_ram_for_mobo_cases (mobo : pdict) (pool : list part) (need_gb : Z)
    (prefer_rgb : bool) (cap : Q) :
  (forall r, App.pick_ram_for_mobo mobo pool need_gb prefer_rgb cap = Some r ->
             In r (App.parts_by_category pool "RAM")
             /\ ram_candidate mobo need_gb r
             /\ (((0 < price_usd r)%Q /\ (price_usd r <= cap)%Q
                  /\ forall y, In y (App.parts_by_category pool "RAM") ->
                               ram_candidate mobo need_gb y ->
                               (0 < price_usd y)%Q -> (price_usd y <= cap)%Q ->
                               (App.ram_score prefer_rgb y <= App.ram_score prefer_rgb r)%Q)
                 \/ forall y, In y (App.parts_by_category pool "RAM") ->
                              ram_candidate mobo need_gb y -> price_le r y))
  /\ (App.pick_ram_for_mobo mobo pool need_gb prefer_rgb cap = None
      <-> forall r, In r (App.parts_by_category pool "RAM") -> ~ ram_candidate mobo need_gb r).
Proof.
  unfold App.pick_ram_for_mobo. cbv zeta. split.
  - intros r H. apply or_else_some in H as [H|H].
    + apply pick_best_within_some in H as (H1 & [H2 H3] & _ & H4).
      apply ram_candidates_In in H1 as [H1 H1'].
      split; [exact H1|]. split; [exact H1'|]. left. repeat split; try assumption.
      intros y Hy Hc Hp Hcap. apply H4; [|now split]. apply ram_candidates_In. now split.
    + pose proof (first_opt_In _ _ H) as Hin.
      apply ram_candidates_In in Hin as [H1 H1'].
      split; [exact H1|]. split; [exact H1'|]. right.
      intros y Hy Hc. apply (first_opt_sorted_min _ _ (sort_by_price_sorted _) H).
      apply ram_candidates_In. now split.
  - split.
    + intros H r Hr Hc.
      assert (Hin : In r (sort_by_price
          (List.filter (fun r => (need_gb <=? capacity_gb r)%Z)
             (List.filter (fun r => App.emptyb (App.ram_type_set (get_ram_type mobo))
                                    || App.meets (App.ram_type_set (ram_type r))
                                                 (App.ram_type_set (get_ram_type mobo)))
                          (App.parts_by_category pool "RAM")))))
        by (apply ram_candidates_In; now split).
      destruct (App.pick_best_within _ cap (App.ram_score prefer_rgb)); [discriminate H|].
      simpl in H. destruct (sort_by_price _); [exact Hin|discriminate H].
    + intros H.
      match goal with |- or_else ?a ?b = None => destruct (or_else a b) as [r|] eqn:E end;
        [|reflexivity].
      exfalso. apply or_else_some in E as [E|E];
        [apply pick_best_within_In in E | apply first_opt_In in E];
        apply ram_candidates_In in E as [H1 H2]; exact (H r H1 H2).
Qed.



Lemma case_fit_In (gl : Q) (cases : list part) (k : part) :
  In k (match List.filter (fun c => Qle_bool gl (max_gpu_length_mm c)) cases with
        | [] => cases
        | _ :: _ => List.filter (fun c => Qle_bool gl (max_gpu_length_mm c)) cases
        end)
  <-> In k cases
      /\ ((exists c, In c cases /\ (gl <= max_gpu_length_mm c)%Q) ->
          (gl <= max_gpu_length_mm k)%Q).
Proof.
  destruct (List.filter (fun c => Qle_bool gl (max_gpu_length_mm c)) cases) as [|y ys] eqn:F.
  - split; [|tauto]. intros H. split; [exact H|]. intros (c & Hc & Hle).
    assert (Hin : In c []) by (rewrite <- F; apply filter_In; split;
                               [exact Hc | now apply Qle_bool_iff]).
    contradiction.
  - rewrite <- F, filter_In, Qle_bool_iff. split.
    + intros [H1 H2]. now split.
    + intros [H1 H2]. split; [exact H1|]. apply H2.
      exists y. assert (Hy : In y (List.filter (fun c => Qle_bool gl (max_gpu_length_mm c)) cases))
        by (rewrite F; now left).
      apply filter_In in Hy as [Hy1 Hy2]. split; [exact Hy1|now apply Qle_bool_iff].
Qed.

Lemma pick_case_for_gpu_cases (gpu : option pdict) (pool : list part) :
  let cases := App.parts_by_category pool "Case" in
  (App.pick_case_for_gpu gpu pool = None <-> cases = [])
  /\ forall k, App.pick_case_for_gpu gpu pool = Some k ->
       In k cases
       /\ match gpu_length gpu with
          | Some gl =>
              ((exists c, In c cases /\ (gl <= max_gpu_length_mm c)%Q) ->
               (gl <= max_gpu_length_mm k)%Q
               /\ forall c, In c cases -> (gl <= max_gpu_length_mm c)%Q -> price_le c k)
              /\ ((forall c, In c cases -> ~ (gl <= max_gpu_length_mm c)%Q) ->
                  forall c, In c cases -> price_le c k)
          | None => forall c, In c cases -> price_le c k
          end.
Proof.
  intros cases. unfold App.pick_case_for_gpu. fold cases.
  assert (Hall : forall k, App.last_opt (sort_by_price cases) = Some k ->
                           In k cases /\ forall c, In c cases -> price_le c k).
  { intros k H. split; [now apply last_sorted_In|now apply last_sorted_max]. }
  assert (Hnone : forall l : list part, l <> [] -> App.last_opt (sort_by_price l) <> None).
  { intros l Hl H. apply last_sorted_none in H. contradiction. }
  destruct cases as [|x xs] eqn:Ec.
  { split; [tauto|discriminate]. }
  rewrite <- Ec in *. assert (Hne : cases <> []) by (rewrite Ec; discriminate).
  unfold gpu_length.
  destruct gpu as [[|g]|].
  - split; [split; [intros H; now apply Hnone in H|contradiction]|]. apply Hall.
  - destruct (Qeq_bool (length_mm g) 0).
    + split; [split; [intros H; now apply Hnone in H|contradiction]|]. apply Hall.
    + cbv zeta. set (gl := length_mm g).
      set (fit := match List.filter (fun c => Qle_bool gl (max_gpu_length_mm c)) cases with
                  | [] => cases
                  | _ :: _ => List.filter (fun c => Qle_bool gl (max_gpu_length_mm c)) cases
                  end).
      assert (Hfit : fit <> []).
      { unfold fit. destruct (List.filter _ cases); [exact Hne|discriminate]. }
      split; [split; [intros H; now apply Hnone in H|contradiction]|].
      intros k H. pose proof (last_sorted_In _ _ H) as Hin.
      apply case_fit_In in Hin as [H1 H2]. split; [exact H1|]. split.
      * intros Hex. split; [now apply H2|].
        intros c Hc Hle. apply (last_sorted_max _ _ H). apply case_fit_In.
        split; [exact Hc|now intros _].
      * intros Hno c Hc. apply (last_sorted_max _ _ H). apply case_fit_In.
        split; [exact Hc|]. intros (c' & Hc' & Hle). exfalso. exact (Hno c' Hc' Hle).
  - split; [split; [intros H; now apply Hnone in H|contradiction]|]. apply Hall.
Qed.

(** X7: the case picker returns nothing exactly when the pool has no case.
    With a GPU of recorded length it returns a case whose recorded maximum
    reaches that length whenever the pool has one, and the most expensive
    among those; without a GPU length, or when no case reaches it, it
    returns the most expensive case. *)
Theorem pick_case_for_gpu_sound (gpu : option pdict) (pool : list part) :
  let cases := App.parts_by_category pool "Case" in
  (App.pick_case_for_gpu gpu pool = None <-> cases = [])
  /\ forall k, App.pick_case_for_gpu gpu pool = Some k ->
       In k cases
       /\ match gpu_length gpu with
          | Some gl =>
              ((exists c, In c cases /\ (gl <= max_gpu_length_mm c)%Q) ->
               (gl <= max_gpu_length_mm k)%Q
               /\ forall c, In c cases -> (gl <= max_gpu_length_mm c)%Q -> price_le c k)
              /\ ((forall c, In c cases -> ~ (gl <= max_gpu_length_mm c)%Q) ->
                  forall c, In c cases -> price_le c k)
          | None => forall c, In c cases -> price_le c k
          end.
Proof. apply pick_case_for_gpu_cases. Qed.

Lemma pick_case_for_gpu_sound_witness :
  In Sample.case_360 (App.parts_by_category [Sample.case_a; Sample.case_360] "Case").
Proof.
  destruct (pick_case_for_gpu_sound (Some (PartDict Sample.gpu_340))
              [Sample.case_a; Sample.case_360]) as [_ H].
  destruct (H Sample.case_360) as [H1 _]; [vm_compute; reflexivity|exact H1].
Defined.

(** X8: whenever some PSU of the pool supplies the wattage the GPU needs
    (650 W without a GPU or a declared wattage), the chosen PSU supplies
    it, under either preference. *)
Theorem psu_meets_wattage (gpu : option pdict) (pool : list part) (quiet : bool) (p : part) :
  App.pick_psu_for_gpu gpu pool quiet = Some p ->
  (exists q, In q (App.parts_by_category pool "PSU")
             /\ (required_wattage gpu <= psu_wattage q)%Z) ->
  In p (App.parts_by_category pool "PSU") /\ (required_wattage gpu <= psu_wattage p)%Z.
Proof.
  intros H (q & Hq & Hw). split; [now apply pick_psu_for_gpu_In in H|].
  unfold App.pick_psu_for_gpu in H.
  destruct (App.parts_by_category pool "PSU") as [|x xs] eqn:E; [discriminate|].
  rewrite <- E in *. rewrite psu_need_required in H.
  assert (Hin : In p (App.psu_candidates (required_wattage gpu) (App.parts_by_category pool "PSU"))).
  { apply sort_by_price_In. destruct quiet; [now apply last_opt_In|eapply nth_error_In; exact H]. }
  unfold App.psu_candidates in Hin.
  destruct (List.filter _ (App.parts_by_category pool "PSU")) as [|y ys] eqn:F.
  - assert (Hq' : In q []) by (rewrite <- F; apply filter_In; split; [exact Hq|now apply Z.leb_le]).
    contradiction.
  - rewrite <- F in Hin. apply filter_In in Hin as [_ Hin]. now apply Z.leb_le.
Qed.

Lemma psu_meets_wattage_witness :
  In Sample.psu_850 (App.parts_by_category Sample.psu_catalog "PSU")
  /\ (required_wattage None <= psu_wattage Sample.psu_850)%Z.
Proof.
  apply (psu_meets_wattage None Sample.psu_catalog false Sample.psu_850).
  - vm_compute. reflexivity.
  - exists Sample.psu_750. split; [vm_compute; tauto|vm_compute; discriminate].
Defined.

(** ** Budget shares and caps *)






Lemma pymin_le_l (a b : Q) : (pymin a b <= a)%Q.
Proof.
  unfold pymin. destruct (Qlt_bool b a) eqn:E; [|apply Qle_refl].
  apply Qlt_le_weak. now apply Qlt_bool_iff.
Qed.

Lemma pymin_le_r (a b : Q) : (pymin a b <= b)%Q.
Proof.
  unfold pymin. destruct (Qlt_bool b a) eqn:E; [apply Qle_refl|].
  now apply Qlt_bool_false_iff.
Qed.

(** X10: a part picked under a category's cap costs neither more than the
    whole budget nor more than the category's share times its factor
    (1.10 or 1.25 for the CPU, 1.25 for RAM, 1.20 or 1.30 for the GPU,
    1.30 for storage). *)
Theorem capped_pick_within_budget (budget : Z) (owned : App.Owned) (level : Level)
    (c : Category) (items : list part) (score_fn : part -> Q) (x : part) :
  App.pick_best_within items (App.cap_of budget owned level c) score_fn = Some x ->
  (price_usd x <= inject_Z budget)%Q
  /\ (price_usd x <= App.alloc budget owned c * App.cap_factor level c)%Q.
Proof.
  intros H. apply pick_best_within_some in H as (_ & [_ H] & _).
  unfold App.cap_of in H. split.
  - eapply Qle_trans; [exact H|apply pymin_le_l].
  - eapply Qle_trans; [exact H|apply pymin_le_r].
Qed.

Lemma capped_pick_within_budget_witness :
  (price_usd Sample.cpu_am5_150 <= inject_Z 1000)%Q
  /\ (price_usd Sample.cpu_am5_150
      <= App.alloc 1000 Sample.nothing_owned CPU * App.cap_factor both CPU)%Q.
Proof.
  apply (capped_pick_within_budget 1000 Sample.nothing_owned both CPU
           (App.parts_by_category Sample.small_catalog "CPU") App.cpu_score).
  vm_compute. reflexivity.
Defined.

(** ** The selection blocks *)




Lemma select_cpu_slot reqs rgb quiet PARTS budget owned level :
  App.select reqs rgb quiet PARTS budget owned level CPU
  = App.fill owned CPU
      (App.choose_cpu (App.filtered_parts (App.tier_tuning level reqs) PARTS budget)
         budget owned level)
      (App.locked owned) CPU.
Proof. unfold App.select. cbv zeta. now rewrite !fill_other by discriminate. Qed.

Lemma select_mobo_slot reqs rgb quiet PARTS budget owned level :
  App.in_owned owned Motherboard = false ->
  App.select reqs rgb quiet PARTS budget owned level Motherboard
  = App.as_slot
      (App.choose_mobo (App.filtered_parts (App.tier_tuning level reqs) PARTS budget) budget
         (App.fill owned CPU
            (App.choose_cpu (App.filtered_parts (App.tier_tuning level reqs) PARTS budget)
               budget owned level)
            (App.locked owned))).
Proof.
  intros H. unfold App.select. cbv zeta.
  rewrite !fill_other by discriminate. now rewrite fill_at.
Qed.

Lemma choose_mobo_socket (filtered : list part) (budget : Z) (build : Build) (m : part) :
  App.choose_mobo filtered budget build = Some m ->
  (exists m', In m' (App.parts_by_category filtered "Motherboard")
              /\ Py.strip (Py.str_or_empty (socket m'))
                 = Py.strip (Py.str_or_empty (get_socket (App.dict_or_empty (build CPU))))) ->
  Py.strip (Py.str_or_empty (socket m))
  = Py.strip (Py.str_or_empty (get_socket (App.dict_or_empty (build CPU)))).
Proof.
  unfold App.choose_mobo. cbv zeta. intros H (m' & Hm' & Hs).
  set (cpu := App.dict_or_empty (build CPU)) in *.
  destruct (or_else _ _) as [b|] eqn:E.
  - injection H as <-. apply or_else_some in E as [E|E];
      destruct (proj1 (pick_mobo_for_cpu_cases _ _ _) _ E) as (_ & [E' _] & _); exact E'.
  - exfalso. destruct (App.pick_mobo_for_cpu cpu filtered (Some _)); [discriminate E|].
    simpl in E. pose proof (proj1 (proj2 (pick_mobo_for_cpu_cases cpu filtered None)) E) as E'.
    apply (E' m' Hm'). split; [exact Hs|]. intros Hn. now elim Hn.
Qed.

(** X13: when the motherboard is selected (not owned) and the candidate
    list has a board with the socket of the build's CPU, the selection
    pairs the CPU with a board on which the socket check passes. *)
Theorem selection_pairs_socket reqs rgb quiet PARTS budget (owned : App.Owned) level
    (c m : part) :
  let b := App.select reqs rgb quiet PARTS budget owned level in
  App.in_owned owned Motherboard = false ->
  b CPU = Some (PartDict c) ->
  b Motherboard = Some (PartDict m) ->
  (exists m', In m' (App.parts_by_category
                       (App.filtered_parts (App.tier_tuning level reqs) PARTS budget)
                       "Motherboard")
              /\ same_socket c m') ->
  Compat.cpu_mobo (b CPU) (b Motherboard) = (true, "").
Proof.
  intros b Ho Hc Hm (m' & Hm' & Hs).
  pose proof Hc as Hc'. pose proof Hm as Hm2.
  unfold b in Hc', Hm2. rewrite select_cpu_slot in Hc'.
  rewrite select_mobo_slot in Hm2 by exact Ho.
  destruct (App.choose_mobo _ budget _) as [m0|] eqn:E; [|discriminate Hm2].
  simpl in Hm2. injection Hm2 as ->.
  apply choose_mobo_socket in E;
    [|exists m'; split; [exact Hm'|rewrite Hc'; simpl; symmetry; exact Hs]].
  rewrite Hc' in E. simpl in E.
  rewrite Hc, Hm. unfold Compat.cpu_mobo. rewrite E, String.eqb_refl. reflexivity.
Qed.

Lemma selection_pairs_socket_witness :
  Compat.cpu_mobo
    (App.select Sample.floor_reqs false false Sample.small_catalog 1000
       Sample.nothing_owned both CPU)
    (App.select Sample.floor_reqs false false Sample.small_catalog 1000
       Sample.nothing_owned both Motherboard) = (true, "").
Proof.
  apply (selection_pairs_socket Sample.floor_reqs false false Sample.small_catalog 1000
           Sample.nothing_owned both Sample.cpu_am5_150 Sample.mobo_ddr5).
  - reflexivity.
  - vm_compute. reflexivity.
  - vm_compute. reflexivity.
  - exists Sample.mobo_ddr4. split; [vm_compute; tauto|reflexivity].
Defined.

(** ** The finished build and the report *)

Lemma build_slot_part reqs rgb quiet PARTS budget (owned : App.Owned) level (c : Category) :
  available PARTS owned c ->
  exists p, fst (App.build_always reqs rgb quiet PARTS budget owned level) c = Some (PartDict p).
Proof.
  intros [[p Hp]|[Ho Hne]].
  - exists p. now apply owned_slot_kept.
  - destruct (build_slot_cases reqs rgb quiet PARTS budget owned level c) as (_ & _ & _ & H).
    destruct (H Ho Hne) as (p & Hp & _). now exists p.
Qed.

(** X14: when CPU, motherboard and RAM are each owned as a part or present
    in the catalog, the report on the finished build never carries a
    missing-part message: the socket check and the RAM check either pass
    or report a mismatch. *)
Theorem no_missing_part_message reqs rgb quiet PARTS budget (owned : App.Owned) level :
  let b := fst (App.build_always reqs rgb quiet PARTS budget owned level) in
  available PARTS owned CPU -> available PARTS owned Motherboard ->
  available PARTS owned RAM ->
  snd (Compat.cpu_mobo (b CPU) (b Motherboard)) <> "CPU or motherboard missing"
  /\ snd (Compat.ram_mobo (b RAM) (b Motherboard)) <> "RAM or motherboard missing".
Proof.
  intros b Hc Hm Hr.
  destruct (build_slot_part reqs rgb quiet PARTS budget owned level CPU Hc) as [c Ec].
  destruct (build_slot_part reqs rgb quiet PARTS budget owned level Motherboard Hm) as [m Em].
  destruct (build_slot_part reqs rgb quiet PARTS budget owned level RAM Hr) as [r Er].
  fold b in Ec, Em, Er. rewrite Ec, Em, Er. split.
  - unfold Compat.cpu_mobo. destruct (String.eqb _ _); simpl; [discriminate|].
    cbv [append]. discriminate.
  - unfold Compat.ram_mobo. cbv zeta. destruct (negb _ && negb _ && _); simpl; [|discriminate].
    cbv [append]. discriminate.
Qed.

Lemma no_missing_part_message_witness :
  snd (Compat.cpu_mobo
         (fst (App.build_always Sample.floor_reqs false false
                 (Sample.ram_ddr5 :: Sample.small_catalog) 1000 Sample.nothing_owned both) CPU)
         (fst (App.build_always Sample.floor_reqs false false
                 (Sample.ram_ddr5 :: Sample.small_catalog) 1000 Sample.nothing_owned both)
              Motherboard))
  <> "CPU or motherboard missing".
Proof.
  apply (no_missing_part_message Sample.floor_reqs false false
           (Sample.ram_ddr5 :: Sample.small_catalog) 1000 Sample.nothing_owned both);
    right; (split; [reflexivity|vm_compute; discriminate]).
Defined.

(** ** More on the downgrade pass *)




Section DowngradeMore.

Variables (PARTS : list part) (budget : Z) (owned : App.Owned).




End DowngradeMore.



(** ** What the reply tells the user *)






(** ** The requirements profile *)

Section ProfileFacts.

Variable APPLICATION_REQUIREMENTS : gmap string Profile.app_req.
Variable GAME_REQUIREMENTS : gmap string Profile.game_req.

Lemma at_least_refl (a : Requirements) : at_least a a.
Proof. unfold at_least. repeat split; try lia. auto. Qed.

Lemma at_least_trans (a b c : Requirements) : at_least a b -> at_least b c -> at_least a c.
Proof.
  unfold at_least. intros (A1 & A2 & A3 & A4 & A5 & A6) (B1 & B2 & B3 & B4 & B5 & B6).
  repeat split; try lia. auto.
Qed.

Lemma higher_ge_l (a b : Tier) : (Profile.tiers a <= Profile.tiers (Profile.higher a b))%Z.
Proof. destruct a, b; simpl; lia. Qed.

Lemma higher_ge_r (a b : Tier) : (Profile.tiers b <= Profile.tiers (Profile.higher a b))%Z.
Proof. destruct a, b; simpl; lia. Qed.

Lemma Zor_ge (v d : Z) : (0 <= d)%Z -> (v <= Zor v d)%Z.
Proof. intros H. unfold Zor. destruct (Z.eqb_spec v 0); lia. Qed.

Lemma app_step_grows (a : Requirements) (app : string) :
  at_least a (Profile.app_step APPLICATION_REQUIREMENTS a app).
Proof.
  unfold Profile.app_step. destruct (APPLICATION_REQUIREMENTS !! Profile.title_key app).
  - unfold at_least. simpl. repeat split; try lia.
    intros ->. now destruct (String.eqb _ _).
  - apply at_least_refl.
Qed.

Lemma game_step_grows (a : Requirements) (game : string) :
  at_least a (Profile.game_step GAME_REQUIREMENTS a game).
Proof.
  unfold Profile.game_step. destruct (GAME_REQUIREMENTS !! Profile.title_key game).
  - unfold at_least. cbv zeta. simpl. repeat split; try lia; [|auto].
    eapply Z.le_trans; [apply higher_ge_l|apply higher_ge_l].
  - apply at_least_refl.
Qed.

Lemma usage_step_grows (a : Requirements) (usage : string) :
  at_least a (Profile.usage_step a usage).
Proof.
  unfold Profile.usage_step. cbv zeta. destruct (Profile.any_in _ _).
  - unfold at_least. simpl. repeat split; try lia. destruct (min_gpu_tier a); simpl; lia.
  - apply at_least_refl.
Qed.

Lemma fold_grows {A} (step : Requirements -> A -> Requirements) (l : list A) (a : Requirements) :
  (forall x y, at_least x (step x y)) -> at_least a (fold_left step l a).
Proof.
  intros H. revert a. induction l as [|y l IH]; intros a; simpl; [apply at_least_refl|].
  eapply at_least_trans; [apply H|apply IH].
Qed.

Lemma app_demand_mono (r : Profile.app_req) (a b : Requirements) :
  at_least a b -> app_demand r a -> app_demand r b.
Proof.
  unfold at_least, app_demand.
  intros (A1 & A2 & A3 & A4 & A5 & A6) (B1 & B2 & B3 & B4 & B5).
  repeat split; try lia. auto.
Qed.

Lemma game_demand_mono (g : Profile.game_req) (a b : Requirements) :
  at_least a b -> game_demand g a -> game_demand g b.
Proof.
  unfold at_least, game_demand.
  intros (A1 & A2 & A3 & A4 & A5 & A6) (B1 & B2 & B3 & B4). repeat split; lia.
Qed.

Lemma app_step_meets (a : Requirements) (app : string) (r : Profile.app_req) :
  APPLICATION_REQUIREMENTS !! Profile.title_key app = Some r ->
  app_demand r (Profile.app_step APPLICATION_REQUIREMENTS a app).
Proof.
  intros H. unfold Profile.app_step. rewrite H. unfold app_demand. simpl.
  pose proof (Zor_ge (Profile.a_recommended_ram r) 16).
  pose proof (Zor_ge (Profile.a_cpu_cores r) 4).
  repeat split; try lia. intros ->. reflexivity.
Qed.

Lemma game_step_meets (a : Requirements) (game : string) (g : Profile.game_req) :
  GAME_REQUIREMENTS !! Profile.title_key game = Some g ->
  game_demand g (Profile.game_step GAME_REQUIREMENTS a game).
Proof.
  intros H. unfold Profile.game_step. rewrite H. unfold game_demand. cbv zeta. simpl.
  pose proof (Zor_ge (Profile.g_recommended_ram g) 16).
  repeat split; try lia.
  - eapply Z.le_trans; [apply higher_ge_r|apply higher_ge_l].
  - apply higher_ge_r.
Qed.

Lemma fold_meets {A} (step : Requirements -> A -> Requirements) (P : Requirements -> Prop)
    (l : list A) (y : A) (a : Requirements) :
  (forall x z, at_least x (step x z)) ->
  (forall x z, at_least x z -> P x -> P z) ->
  (forall x, P (step x y)) ->
  In y l -> P (fold_left step l a).
Proof.
  intros Hg Hm Hy. revert a. induction l as [|z l IH]; intros a Hin; [contradiction|].
  simpl. destruct Hin as [->|Hin]; [|now apply IH].
  eapply Hm; [apply fold_grows; exact Hg|apply Hy].
Qed.

End ProfileFacts.

(** X18: the profile never falls below its floor (8 GB minimum RAM, 16 GB
    recommended RAM, core class 4, 0 GB VRAM), whatever titles and usage
    text are given; and usage text with a content-creation keyword, in
    any letter case, yields at least 32 GB recommended RAM, the high GPU
    tier and NVMe storage. *)
Theorem profile_floor_and_creation (APPLICATION_REQUIREMENTS : gmap string Profile.app_req)
    (GAME_REQUIREMENTS : gmap string Profile.game_req)
    (applications games : list string) (usage : string) :
  let a := Profile.get_requirements_analysis APPLICATION_REQUIREMENTS GAME_REQUIREMENTS
             applications games usage in
  ((8 <= min_ram a)%Z /\ (16 <= recommended_ram a)%Z /\ (4 <= cpu_cores a)%Z
   /\ (0 <= gpu_vram a)%Z)
  /\ (Profile.any_in Profile.creation_keywords (Py.lower usage) = true ->
      (32 <= recommended_ram a)%Z /\ min_gpu_tier a = high /\ storage_type a = NVMe).
Proof.
  intros a. split.
  - assert (H : at_least Profile.floor_analysis a).
    { subst a. unfold Profile.get_requirements_analysis. cbv zeta.
      eapply at_least_trans; [|apply usage_step_grows].
      eapply at_least_trans; [|apply fold_grows, game_step_grows].
      apply fold_grows, app_step_grows. }
    destruct H as (H1 & H2 & H3 & H4 & _). simpl in *. repeat split; assumption.
  - intros H. subst a. unfold Profile.get_requirements_analysis, Profile.usage_step. cbv zeta.
    rewrite H. simpl. repeat split. lia.
Qed.

Lemma profile_floor_and_creation_witness :
  (32 <= recommended_ram (Profile.get_requirements_analysis ∅ ∅ [] [] "Video EDITING rig"))%Z
  /\ min_gpu_tier (Profile.get_requirements_analysis ∅ ∅ [] [] "Video EDITING rig") = high
  /\ storage_type (Profile.get_requirements_analysis ∅ ∅ [] [] "Video EDITING rig") = NVMe.
Proof.
  apply (profile_floor_and_creation ∅ ∅ [] [] "Video EDITING rig"). reflexivity.
Defined.

(** X19: the profile covers every matched title: for each application of
    the list found in the table, the profile's minimum RAM, recommended
    RAM, core class and VRAM are at least the row's, and an NVMe row makes
    the storage NVMe; for each game found, minimum and recommended RAM
    are at least the row's and the GPU tier is at least the tier inferred
    from either GPU text of the row. *)
Theorem profile_covers_titles (APPLICATION_REQUIREMENTS : gmap string Profile.app_req)
    (GAME_REQUIREMENTS : gmap string Profile.game_req)
    (applications games : list string) (usage : string) :
  let a := Profile.get_requirements_analysis APPLICATION_REQUIREMENTS GAME_REQUIREMENTS
             applications games usage in
  (forall app r, In app applications ->
                 APPLICATION_REQUIREMENTS !! Profile.title_key app = Some r ->
                 app_demand r a)
  /\ (forall game g, In game games ->
                     GAME_REQUIREMENTS !! Profile.title_key game = Some g ->
                     game_demand g a).
Proof.
  intros a. subst a. unfold Profile.get_requirements_analysis. cbv zeta. split.
  - intros app r Hin Hr.
    eapply app_demand_mono; [apply usage_step_grows|].
    eapply app_demand_mono; [apply fold_grows, game_step_grows|].
    apply (fold_meets (Profile.app_step APPLICATION_REQUIREMENTS) (app_demand r)
             applications app).
    + apply app_step_grows.
    + intros x z. apply app_demand_mono.
    + intros x. now apply app_step_meets.
    + exact Hin.
  - intros game g Hin Hg.
    eapply game_demand_mono; [apply usage_step_grows|].
    apply (fold_meets (Profile.game_step GAME_REQUIREMENTS) (game_demand g) games game).
    + apply game_step_grows.
    + intros x z. apply game_demand_mono.
    + intros x. now apply game_step_meets.
    + exact Hin.
Qed.

(** X20: titles that are not in the tables leave no trace: with no matched
    title and no content-creation keyword the profile is exactly the
    floor profile. *)
Theorem profile_defaults (APPLICATION_REQUIREMENTS : gmap string Profile.app_req)
    (GAME_REQUIREMENTS : gmap string Profile.game_req)
    (applications games : list string) (usage : string) :
  (forall app, In app applications ->
               APPLICATION_REQUIREMENTS !! Profile.title_key app = None) ->
  (forall game, In game games -> GAME_REQUIREMENTS !! Profile.title_key game = None) ->
  Profile.any_in Profile.creation_keywords (Py.lower usage) = false ->
  Profile.get_requirements_analysis APPLICATION_REQUIREMENTS GAME_REQUIREMENTS
    applications games usage
  = Profile.floor_analysis.
Proof.
  intros Ha Hg Hu. unfold Profile.get_requirements_analysis, Profile.usage_step. cbv zeta.
  rewrite Hu.
  assert (Hfa : forall l a, (forall app, In app l ->
                   APPLICATION_REQUIREMENTS !! Profile.title_key app = None) ->
                 fold_left (Profile.app_step APPLICATION_REQUIREMENTS) l a = a).
  { induction l as [|x l IH]; intros a H; [reflexivity|]. simpl.
    unfold Profile.app_step at 2. rewrite (H x (or_introl eq_refl)).
    apply IH. intros app Hin. apply H. now right. }
  assert (Hfg : forall l a, (forall game, In game l ->
                   GAME_REQUIREMENTS !! Profile.title_key game = None) ->
                 fold_left (Profile.game_step GAME_REQUIREMENTS) l a = a).
  { induction l as [|x l IH]; intros a H; [reflexivity|]. simpl.
    unfold Profile.game_step at 2. rewrite (H x (or_introl eq_refl)).
    apply IH. intros game Hin. apply H. now right. }
  rewrite (Hfa _ _ Ha). now apply Hfg.
Qed.

Lemma profile_defaults_witness :
  Profile.get_requirements_analysis ∅ ∅ ["quake"] ["doom"] "browsing"
  = Profile.floor_analysis.
Proof.
  apply (profile_defaults ∅ ∅ ["quake"] ["doom"] "browsing").
  - intros app _. apply lookup_empty.
  - intros game _. apply lookup_empty.
  - reflexivity.
Defined.

Lemma profile_covers_titles_witness :
  let row := {| Profile.a_min_ram := 16; Profile.a_recommended_ram := 64;
                Profile.a_cpu_cores := 8; Profile.a_gpu_vram := 8;
                Profile.a_storage_type := "nvme" |} in
  app_demand row
    (Profile.get_requirements_analysis {[ "blender" := row ]} ∅ ["  Blender "] [] "").
Proof.
  intros row.
  destruct (profile_covers_titles {[ "blender" := row ]} ∅ ["  Blender "] [] "") as [H _].
  apply (H "  Blender " row); [now left|]. vm_compute. reflexivity.
Defined.

(** ** Letter case *)

Section LetterCase.



Lemma upper_upper_char (c : ascii) : Py.upper_char (Py.upper_char c) = Py.upper_char c.
Proof. destruct c as [[] [] [] [] [] [] [] []]; reflexivity. Qed.

Lemma is_space_upper_char (c : ascii) : Py.is_space (Py.upper_char c) = Py.is_space c.
Proof. destruct c as [[] [] [] [] [] [] [] []]; reflexivity. Qed.

Lemma smap_smap (f g : ascii -> ascii) (s : string) :
  Py.smap f (Py.smap g s) = Py.smap (fun c => f (g c)) s.
Proof. induction s as [|c s IH]; simpl; [reflexivity|now rewrite IH]. Qed.

Lemma smap_ext (f g : ascii -> ascii) (s : string) :
  (forall c, f c = g c) -> Py.smap f s = Py.smap g s.
Proof. intros H. induction s as [|c s IH]; simpl; [reflexivity|now rewrite H, IH]. Qed.



Lemma upper_upper (s : string) : Py.upper (Py.upper s) = Py.upper s.
Proof. unfold Py.upper. rewrite smap_smap. apply smap_ext, upper_upper_char. Qed.

Lemma lstrip_smap (f : ascii -> ascii) (s : string) :
  (forall c, Py.is_space (f c) = Py.is_space c) ->
  Py.lstrip (Py.smap f s) = Py.smap f (Py.lstrip s).
Proof.
  intros H. induction s as [|c s IH]; simpl; [reflexivity|].
  rewrite H. destruct (Py.is_space c); [exact IH|reflexivity].
Qed.

Lemma rstrip_smap (f : ascii -> ascii) (s : string) :
  (forall c, Py.is_space (f c) = Py.is_space c) ->
  Py.rstrip (Py.smap f s) = Py.smap f (Py.rstrip s).
Proof.
  intros H. induction s as [|c s IH]; simpl; [reflexivity|].
  rewrite IH, H. destruct (Py.rstrip s); simpl; [|reflexivity].
  now destruct (Py.is_space c).
Qed.

Lemma strip_upper (s : string) : Py.strip (Py.upper s) = Py.upper (Py.strip s).
Proof.
  unfold Py.strip, Py.upper.
  rewrite lstrip_smap, rstrip_smap; auto using is_space_upper_char.
Qed.


End LetterCase.



(** ** More selection blocks *)

(** X23: the RAM block takes a module that has the needed capacity and
    agrees with the build's motherboard whenever the candidate list has
    one; only when it has none does it fall back to a cheapest RAM module
    of the list, which may be too small or of another type. *)
Theorem choose_ram_sound (reqs : Requirements) (filtered : list part) (budget : Z)
    (owned : App.Owned) (level : Level) (prefer_rgb : bool) (build : Build) :
  let rams := App.parts_by_category filtered "RAM" in
  let mobo := App.dict_or_empty (build Motherboard) in
  let need_gb :=
    (if App.is_high_end level
     then Z.max 32 (if recommended_ram reqs =? 0 then 16 else recommended_ram reqs)
     else if recommended_ram reqs =? 0 then 16 else recommended_ram reqs)%Z in
  (App.choose_ram reqs filtered budget owned level prefer_rgb build = None <-> rams = [])
  /\ forall r, App.choose_ram reqs filtered budget owned level prefer_rgb build = Some r ->
       In r rams
       /\ ((exists q, In q rams /\ ram_candidate mobo need_gb q) -> ram_candidate mobo need_gb r)
       /\ ((forall q, In q rams -> ~ ram_candidate mobo need_gb q) ->
           forall q, In q rams -> price_le r q).
Proof.
  intros rams mobo need_gb. unfold App.choose_ram. cbv zeta.
  change (Zor (recommended_ram reqs) 16)
    with (if (recommended_ram reqs =? 0)%Z then 16%Z else recommended_ram reqs).
  fold need_gb. fold mobo. fold rams.
  destruct (App.pick_ram_for_mobo mobo filtered need_gb prefer_rgb
              (App.cap_of budget owned level RAM)) as [r0|] eqn:E.
  - destruct (proj1 (pick_ram_for_mobo_cases _ _ _ _ _) _ E) as (H1 & H2 & _).
    fold rams in H1. split.
    + split; [discriminate|]. intros Hn. rewrite Hn in H1. contradiction.
    + intros r Hr. injection Hr as <-. split; [exact H1|]. split; [now intros _|].
      intros Hno. exfalso. exact (Hno r0 H1 H2).
  - pose proof (proj1 (proj2 (pick_ram_for_mobo_cases _ _ _ _ _)) E) as Hno.
    fold rams in Hno. split.
    + split; [apply first_sorted_none|]. intros ->. reflexivity.
    + intros r Hr. split; [now apply first_sorted_In|]. split.
      * intros (q & Hq & Hc). exfalso. exact (Hno q Hq Hc).
      * intros _. now apply first_sorted_min.
Qed.

Lemma choose_ram_sound_witness :
  ram_candidate (PartDict Sample.mobo_ddr5) 16
    (Sample.with_capacity 32 Sample.ram_ddr5).
Proof.
  destruct (choose_ram_sound Sample.floor_reqs
              [Sample.ram_both; Sample.with_capacity 32 Sample.ram_ddr5] 1000
              Sample.nothing_owned both false
              (Sample.build_of Sample.cpu_am5_150 Sample.mobo_ddr5)) as [_ H].
  destruct (H (Sample.with_capacity 32 Sample.ram_ddr5)) as (_ & H2 & _);
    [vm_compute; reflexivity|].
  apply H2. exists (Sample.with_capacity 32 Sample.ram_ddr5).
  split; [vm_compute; tauto|]. split; [vm_compute; discriminate|].
  right. apply (bool_decide_unpack _). vm_compute. exact I.
Defined.

Lemma storage_candidates_In (desired : StorageType) (need_gb : Z) (stor : list part) (s : part) :
  In s (match List.filter (App.storage_ok desired need_gb) stor with
        | [] => stor
        | x :: xs => x :: xs
        end)
  <-> In s stor
      /\ ((exists q, In q stor /\ App.storage_ok desired need_gb q = true) ->
          App.storage_ok desired need_gb s = true).
Proof.
  destruct (List.filter (App.storage_ok desired need_gb) stor) as [|y ys] eqn:F.
  - split; [|tauto]. intros H. split; [exact H|]. intros (q & Hq & Hok).
    assert (Hin : In q []) by (rewrite <- F; now apply filter_In).
    contradiction.
  - rewrite <- F, filter_In. split.
    + intros [H1 H2]. now split.
    + intros [H1 H2]. split; [exact H1|]. apply H2. exists y.
      assert (Hy : In y (List.filter (App.storage_ok desired need_gb) stor))
        by (rewrite F; now left).
      now apply filter_In in Hy.
Qed.

(** X24: the storage block leaves the slot empty exactly when the
    candidate list has no storage part; whenever the list has a drive of
    the wanted size (2000 GB from a budget of 1800 or at high-end level,
    else 1000 GB) and medium (NVMe: form factor naming nvme or m.2; SSD:
    form factor not naming hdd), the chosen drive is one. *)
Theorem choose_storage_sound (reqs : Requirements) (filtered : list part) (budget : Z)
    (owned : App.Owned) (level : Level) (build : Build) :
  let stor := App.parts_by_category filtered "Storage" in
  let need_gb := if (1800 <=? budget)%Z || App.is_high_end level then 2000%Z else 1000%Z in
  (App.choose_storage reqs filtered budget owned level build = None <-> stor = [])
  /\ forall s, App.choose_storage reqs filtered budget owned level build = Some s ->
       In s stor
       /\ ((exists q, In q stor /\ App.storage_ok (storage_type reqs) need_gb q = true) ->
           App.storage_ok (storage_type reqs) need_gb s = true).
Proof.
  intros stor need_gb. unfold App.choose_storage. cbv zeta. fold stor. fold need_gb.
  set (cands := match List.filter (App.storage_ok (storage_type reqs) need_gb) stor with
                | [] => stor
                | x :: xs => x :: xs
                end).
  assert (Hc : cands = [] <-> stor = []).
  { unfold cands. destruct (List.filter _ stor) as [|y ys] eqn:F; [tauto|].
    split; [discriminate|]. intros E. rewrite E in F. discriminate F. }
  split.
  - split.
    + intros H. apply Hc. destruct (App.pick_best_within cands _ _); [discriminate H|].
      simpl in H. now apply first_sorted_none.
    + intros H. apply Hc in H. rewrite H. reflexivity.
  - intros s H. apply storage_candidates_In. fold cands.
    apply or_else_some in H as [H|H];
      [now apply pick_best_within_In in H|now apply first_sorted_In in H].
Qed.

Lemma choose_storage_sound_witness :
  App.choose_storage Sample.floor_reqs Sample.small_catalog 1000 Sample.nothing_owned both
    (fun _ => None) = None.
Proof.
  destruct (choose_storage_sound Sample.floor_reqs Sample.small_catalog 1000
              Sample.nothing_owned both (fun _ => None)) as [H _].
  apply H. reflexivity.
Defined.



(** ** Filling the gaps *)

(** X26: the fallback after selection leaves every filled slot as it is
    and puts into an empty slot a cheapest catalog part of that category,
    or the empty placeholder when the catalog has none; applying it twice
    is the same as applying it once. *)
Theorem ensure_fills_cheapest (PARTS : list part) (b : Build) (c : Category) :
  (forall d, b c = Some d -> App.ensure PARTS b c = Some d)
  /\ (b c = None ->
      (in_category PARTS c = [] /\ App.ensure PARTS b c = Some EmptyDict)
      \/ exists p, App.ensure PARTS b c = Some (PartDict p)
                   /\ In p (in_category PARTS c)
                   /\ forall q, In q (in_category PARTS c) -> price_le p q)
  /\ App.ensure PARTS (App.ensure PARTS b) c = App.ensure PARTS b c.
Proof.
  assert (Hnone : b c = None ->
      (in_category PARTS c = [] /\ App.ensure PARTS b c = Some EmptyDict)
      \/ exists p, App.ensure PARTS b c = Some (PartDict p)
                   /\ In p (in_category PARTS c)
                   /\ forall q, In q (in_category PARTS c) -> price_le p q).
  { intros H. rewrite (ensure_none PARTS b c H). unfold cheapest_or_empty.
    fold (in_category PARTS c).
    destruct (sort_by_price (in_category PARTS c)) as [|p ps] eqn:E.
    - left. split; [now apply sort_by_price_nil|reflexivity].
    - right. exists p. split; [reflexivity|].
      assert (Hf : App.first_opt (sort_by_price (in_category PARTS c)) = Some p)
        by (now rewrite E).
      split; [now apply first_sorted_In|now apply first_sorted_min]. }
  split; [intros d; apply ensure_some|]. split; [exact Hnone|].
  destruct (App.ensure PARTS b c) as [d|] eqn:E; [now apply ensure_some|].
  exfalso. destruct (b c) as [d|] eqn:Eb.
  - rewrite (ensure_some PARTS b c d Eb) in E. discriminate.
  - destruct (Hnone eq_refl) as [[_ H]|(p & H & _)]; congruence.
Qed.

Lemma ensure_fills_cheapest_witness :
  exists p, App.ensure Sample.small_catalog (fun _ => None) CPU = Some (PartDict p)
            /\ In p (in_category Sample.small_catalog CPU)
            /\ forall q, In q (in_category Sample.small_catalog CPU) -> price_le p q.
Proof.
  destruct (ensure_fills_cheapest Sample.small_catalog (fun _ => None) CPU) as (_ & H & _).
  destruct (H eq_refl) as [[Hn _]|Hp]; [discriminate Hn|exact Hp].
Defined.

(** X27: a category that is not owned and absent from the catalog is
    listed in the reply with an empty name, an empty id and the price 0. *)
Theorem absent_category_listing reqs rgb quiet PARTS budget (owned : App.Owned) level
    (c : Category) :
  let b := fst (App.build_always reqs rgb quiet PARTS budget owned level) in
  App.in_owned owned c = false -> in_category PARTS c = [] ->
  Reply.make_item b owned c
  = {| Reply.item_category := c; Reply.item_csv_id := ""; Reply.item_name := "";
       Reply.item_price_usd := 0; Reply.item_owned := false |}.
Proof.
  intros b Ho Hn.
  destruct (build_slot_cases reqs rgb quiet PARTS budget owned level c) as (_ & _ & H & _).
  fold b in H. unfold Reply.make_item. rewrite (H Ho Hn), Ho. reflexivity.
Qed.

Lemma absent_category_listing_witness :
  Reply.item_name
    (Reply.make_item
       (fst (App.build_always Sample.floor_reqs false false Sample.small_catalog 1000
               Sample.nothing_owned both)) Sample.nothing_owned GPU) = "".
Proof.
  rewrite (absent_category_listing Sample.floor_reqs false false Sample.small_catalog 1000
             Sample.nothing_owned both GPU); reflexivity.
Defined.



(** ** Trimming and white space *)

Section Trimming.

Lemma is_space_lower_char (c : ascii) : Py.is_space (Py.lower_char c) = Py.is_space c.
Proof. destruct c as [[] [] [] [] [] [] [] []]; reflexivity. Qed.

Lemma lower_lower_char (c : ascii) : Py.lower_char (Py.lower_char c) = Py.lower_char c.
Proof. destruct c as [[] [] [] [] [] [] [] []]; reflexivity. Qed.

Lemma lower_lower (s : string) : Py.lower (Py.lower s) = Py.lower s.
Proof. unfold Py.lower. rewrite smap_smap. apply smap_ext, lower_lower_char. Qed.

Lemma strip_lower (s : string) : Py.strip (Py.lower s) = Py.lower (Py.strip s).
Proof.
  unfold Py.strip, Py.lower.
  rewrite lstrip_smap, rstrip_smap; auto using is_space_lower_char.
Qed.

Lemma lstrip_starts_clean (s : string) : starts_clean (Py.lstrip s).
Proof.
  induction s as [|c s IH]; simpl; [exact I|].
  destruct (Py.is_space c) eqn:E; [exact IH|exact E].
Qed.

Lemma lstrip_clean (s : string) : starts_clean s -> Py.lstrip s = s.
Proof. destruct s as [|c s]; simpl; [reflexivity|]. now intros ->. Qed.

Lemma rstrip_starts_clean (s : string) : starts_clean s -> starts_clean (Py.rstrip s).
Proof.
  destruct s as [|c s]; simpl; [trivial|]. intros H.
  destruct (Py.rstrip s); [now rewrite H|exact H].
Qed.

Lemma rstrip_rstrip (s : string) : Py.rstrip (Py.rstrip s) = Py.rstrip s.
Proof.
  induction s as [|c s IH]; simpl; [reflexivity|].
  destruct (Py.rstrip s) as [|r rs] eqn:E.
  - destruct (Py.is_space c) eqn:Ec; [reflexivity|]. simpl. now rewrite Ec.
  - simpl. simpl in IH. now rewrite IH.
Qed.

Lemma strip_strip (s : string) : Py.strip (Py.strip s) = Py.strip s.
Proof.
  unfold Py.strip.
  rewrite (lstrip_clean (Py.rstrip (Py.lstrip s)))
    by (apply rstrip_starts_clean, lstrip_starts_clean).
  apply rstrip_rstrip.
Qed.

End Trimming.

Lemma split_smap (f : ascii -> ascii) (sep : ascii) (s : string) :
  (forall c, Ascii.eqb (f c) sep = Ascii.eqb c sep) ->
  Py.split sep (Py.smap f s) = List.map (Py.smap f) (Py.split sep s).
Proof.
  intros H. induction s as [|c s IH]; simpl; [reflexivity|].
  rewrite H, IH. destruct (Ascii.eqb c sep); [reflexivity|].
  destruct (Py.split sep s); reflexivity.
Qed.

Lemma upper_char_slash (c : ascii) : Ascii.eqb (Py.upper_char c) "/" = Ascii.eqb c "/".
Proof. destruct c as [[] [] [] [] [] [] [] []]; reflexivity. Qed.

Lemma upper_char_comma (c : ascii) : Ascii.eqb (Py.upper_char c) "," = Ascii.eqb c ",".
Proof. destruct c as [[] [] [] [] [] [] [] []]; reflexivity. Qed.

(** X28: every name in the set the checker's normaliser returns is
    non-empty, has no surrounding white space and is in upper case. *)
Theorem compat_tokens_normal (v : option string) (x : string) :
  x ∈ Compat.ram_type_set v ->
  x <> "" /\ Py.strip x = x /\ Py.upper x = x.
Proof.
  intros H. apply compat_set_elem in H as [Hne H]. split; [exact Hne|].
  rewrite strip_upper in H. set (t := Py.strip (Py.str_or_empty v)) in *.
  assert (Hpiece : forall sep piece,
             (forall c, Ascii.eqb (Py.upper_char c) sep = Ascii.eqb c sep) ->
             In piece (Py.split sep (Py.upper t)) ->
             Py.strip (Py.strip piece) = Py.strip piece
             /\ Py.upper (Py.strip piece) = Py.strip piece).
  { intros sep piece Hsep Hin. split; [apply strip_strip|].
    unfold Py.upper in Hin at 1. rewrite (split_smap _ _ _ Hsep) in Hin.
    apply in_map_iff in Hin as (p & <- & _).
    change (Py.smap Py.upper_char p) with (Py.upper p).
    now rewrite strip_upper, upper_upper. }
  destruct H as [[_ (piece & Hin & ->)]|[(_ & _ & piece & Hin & ->)|(_ & _ & ->)]].
  - apply (Hpiece "/"%char piece upper_char_slash Hin).
  - apply (Hpiece ","%char piece upper_char_comma Hin).
  - split; [|apply upper_upper]. rewrite strip_upper. unfold t. now rewrite strip_strip.
Qed.

Lemma compat_tokens_normal_witness :
  "DDR5" <> "" /\ Py.strip "DDR5" = "DDR5" /\ Py.upper "DDR5" = "DDR5".
Proof.
  apply (compat_tokens_normal (Some " ddr4 / ddr5 ") "DDR5").
  apply (bool_decide_unpack _). vm_compute. exact I.
Defined.

Section Collapsing.

Lemma collapse_clean (c : ascii) (s : string) :
  Py.is_space c = false -> Py.collapse_ws (String c s) = String c (Py.collapse_ws s).
Proof. intros H. simpl. now rewrite H. Qed.

Lemma collapse_last (c : ascii) :
  Py.is_space c = true -> Py.collapse_ws (String c "") = String " " "".
Proof. intros H. simpl. now rewrite H. Qed.

Lemma collapse_run (c c' : ascii) (s : string) :
  Py.is_space c = true -> Py.is_space c' = true ->
  Py.collapse_ws (String c (String c' s)) = Py.collapse_ws (String c' s).
Proof. intros H H'. simpl. now rewrite H, H'. Qed.

Lemma collapse_gap (c c' : ascii) (s : string) :
  Py.is_space c = true -> Py.is_space c' = false ->
  Py.collapse_ws (String c (String c' s)) = String " " (Py.collapse_ws (String c' s)).
Proof. intros H H'. simpl. now rewrite H, H'. Qed.

Lemma collapse_smap (f : ascii -> ascii) (s : string) :
  (forall c, Py.is_space (f c) = Py.is_space c) ->
  f " "%char = " "%char ->
  Py.collapse_ws (Py.smap f s) = Py.smap f (Py.collapse_ws s).
Proof.
  intros H Hsp. induction s as [|c s IH]; [reflexivity|].
  destruct (Py.is_space c) eqn:Ec.
  - destruct s as [|c' s'].
    + change (Py.smap f (String c "")) with (String (f c) "").
      rewrite !collapse_last by (try rewrite H; exact Ec). simpl. now rewrite Hsp.
    + change (Py.smap f (String c (String c' s')))
        with (String (f c) (String (f c') (Py.smap f s'))).
      change (Py.smap f (String c' s')) with (String (f c') (Py.smap f s')) in IH.
      destruct (Py.is_space c') eqn:Ec'.
      * rewrite !collapse_run by (try rewrite H; assumption). exact IH.
      * rewrite !collapse_gap by (try rewrite H; assumption).
        rewrite IH. simpl Py.smap at 2. now rewrite Hsp.
  - change (Py.smap f (String c s)) with (String (f c) (Py.smap f s)).
    rewrite !collapse_clean by (try rewrite H; exact Ec). rewrite IH. reflexivity.
Qed.

Lemma collapse_lower (s : string) :
  Py.collapse_ws (Py.lower s) = Py.lower (Py.collapse_ws s).
Proof. apply collapse_smap; [apply is_space_lower_char|reflexivity]. Qed.

Lemma collapse_nonempty (c : ascii) (s : string) : Py.collapse_ws (String c s) <> "".
Proof.
  revert c. induction s as [|c' s IH]; intros c; destruct (Py.is_space c) eqn:Ec.
  - rewrite collapse_last by exact Ec. discriminate.
  - rewrite collapse_clean by exact Ec. discriminate.
  - destruct (Py.is_space c') eqn:Ec'.
    + rewrite collapse_run by assumption. apply IH.
    + rewrite collapse_gap by assumption. discriminate.
  - rewrite collapse_clean by exact Ec. discriminate.
Qed.

Lemma collapse_collapse (s : string) :
  Py.collapse_ws (Py.collapse_ws s) = Py.collapse_ws s.
Proof.
  induction s as [|c s IH]; [reflexivity|].
  destruct (Py.is_space c) eqn:Ec.
  - destruct s as [|c' s'].
    + rewrite collapse_last by exact Ec. reflexivity.
    + destruct (Py.is_space c') eqn:Ec'.
      * rewrite collapse_run by assumption. exact IH.
      * rewrite collapse_gap by assumption.
        rewrite (collapse_clean c' s' Ec') in *.
        rewrite (collapse_gap " " c' (Py.collapse_ws s') eq_refl Ec').
        now rewrite IH.
  - rewrite collapse_clean by exact Ec. rewrite collapse_clean by exact Ec. now rewrite IH.
Qed.

Lemma lstrip_collapse (s : string) :
  Py.lstrip (Py.collapse_ws s) = Py.collapse_ws (Py.lstrip s).
Proof.
  induction s as [|c s IH]; [reflexivity|].
  destruct (Py.is_space c) eqn:Ec.
  - replace (Py.lstrip (String c s)) with (Py.lstrip s) by (simpl; now rewrite Ec).
    destruct s as [|c' s'].
    + rewrite collapse_last by exact Ec. reflexivity.
    + destruct (Py.is_space c') eqn:Ec'.
      * rewrite collapse_run by assumption. exact IH.
      * rewrite collapse_gap by assumption. rewrite <- IH. reflexivity.
  - rewrite collapse_clean by exact Ec. simpl. now rewrite Ec, collapse_clean.
Qed.

Lemma rstrip_cons (c : ascii) (s : string) :
  Py.rstrip (String c s)
  = match Py.rstrip s with
    | EmptyString => if Py.is_space c then EmptyString else String c EmptyString
    | String a b => String c (String a b)
    end.
Proof. reflexivity. Qed.

Lemma rstrip_head (c : ascii) (s : string) :
  Py.rstrip (String c s) <> "" -> exists r, Py.rstrip (String c s) = String c r.
Proof.
  rewrite rstrip_cons. destruct (Py.rstrip s) as [|r rs].
  - destruct (Py.is_space c); [intros H; now elim H|]. now exists "".
  - now exists (String r rs).
Qed.

Lemma rstrip_clean_nonempty (c : ascii) (s : string) :
  Py.is_space c = false -> Py.rstrip (String c s) <> "".
Proof.
  intros H. rewrite rstrip_cons. destruct (Py.rstrip s); [rewrite H|]; discriminate.
Qed.

Lemma rstrip_collapse (s : string) :
  Py.rstrip (Py.collapse_ws s) = Py.collapse_ws (Py.rstrip s).
Proof.
  induction s as [|c s IH]; [reflexivity|].
  destruct (Py.is_space c) eqn:Ec.
  - destruct s as [|c' s'].
    + rewrite collapse_last by exact Ec. simpl. now rewrite Ec.
    + destruct (Py.is_space c') eqn:Ec'.
      * rewrite collapse_run by assumption. rewrite IH.
        rewrite (rstrip_cons c). destruct (Py.rstrip (String c' s')) as [|a b] eqn:Er.
        -- now rewrite Ec.
        -- destruct (rstrip_head c' s') as [r Hr]; [rewrite Er; discriminate|].
           rewrite Er in Hr. injection Hr as -> ->.
           now rewrite collapse_run.
      * rewrite collapse_gap by assumption. rewrite rstrip_cons, IH.
        destruct (rstrip_head c' s' (rstrip_clean_nonempty c' s' Ec')) as [r Hr].
        rewrite (rstrip_cons c), Hr.
        destruct (Py.collapse_ws (String c' r)) as [|a b] eqn:E;
          [now apply collapse_nonempty in E|].
        rewrite <- E. now rewrite (collapse_gap c c' r Ec Ec').
  - rewrite collapse_clean by exact Ec. rewrite (rstrip_cons c (Py.collapse_ws s)), IH.
    rewrite (rstrip_cons c s).
    destruct (Py.rstrip s) as [|r rs] eqn:Er.
    + simpl Py.collapse_ws at 1. rewrite Ec. simpl. now rewrite Ec.
    + destruct (Py.collapse_ws (String r rs)) as [|a b] eqn:E;
        [now apply collapse_nonempty in E|].
      rewrite <- E. now rewrite (collapse_clean c (String r rs) Ec).
Qed.

Lemma strip_collapse (s : string) :
  Py.strip (Py.collapse_ws s) = Py.collapse_ws (Py.strip s).
Proof. unfold Py.strip. now rewrite lstrip_collapse, rstrip_collapse. Qed.

End Collapsing.

(** X29: [norm] is idempotent: a normalised text (trimmed, lower case,
    each run of white space reduced to one blank) is its own normal
    form. *)
Theorem norm_idempotent (s : string) : norm (norm s) = norm s.
Proof.
  unfold norm.
  rewrite strip_collapse, strip_lower, strip_strip.
  rewrite <- collapse_lower, lower_lower.
  apply collapse_collapse.
Qed.

(** ** The case picker and the length check *)

(** X30: when the GPU has a recorded length and the pool has a case whose
    recorded maximum reaches it, the case the picker returns passes the
    checker's GPU-Case length check. *)
Theorem picked_case_passes_check (float_repr : Q -> string) (g : part) (pool : list part)
    (k : part) :
  Qeq_bool (length_mm g) 0 = false ->
  (exists c, In c (App.parts_by_category pool "Case")
             /\ (length_mm g <= max_gpu_length_mm c)%Q) ->
  App.pick_case_for_gpu (Some (PartDict g)) pool = Some k ->
  Compat.gpu_case float_repr (Some (PartDict g)) (Some (PartDict k)) = (true, "").
Proof.
  intros Hlen Hex Hk.
  destruct (proj2 (pick_case_for_gpu_cases (Some (PartDict g)) pool) k Hk) as [_ H].
  unfold gpu_length in H. rewrite Hlen in H. destruct H as [H _].
  destruct (H Hex) as [Hfit _].
  assert (Hok : fst (Compat.gpu_case float_repr (Some (PartDict g)) (Some (PartDict k))) = true).
  { apply gpu_case_ok_iff. intros g' k' Eg Ek. injection Eg as <-. injection Ek as <-.
    unfold case_limit. destruct (Qeq_bool (max_gpu_length_mm k) 0) eqn:E; [|exact Hfit].
    apply Qeq_bool_iff in E. rewrite E in Hfit.
    eapply Qle_trans; [exact Hfit|discriminate]. }
  unfold Compat.gpu_case in *. cbv zeta in *.
  destruct (Qlt_bool _ _); [discriminate Hok|reflexivity].
Qed.

Lemma picked_case_passes_check_witness :
  Compat.gpu_case Sample.plain_text (Some (PartDict Sample.gpu_340))
    (Some (PartDict Sample.case_360)) = (true, "").
Proof.
  apply (picked_case_passes_check Sample.plain_text Sample.gpu_340
           [Sample.case_a; Sample.case_360] Sample.case_360).
  - reflexivity.
  - exists Sample.case_360. split; [vm_compute; tauto|vm_compute; discriminate].
  - vm_compute. reflexivity.
Defined.
